(** * go-fetch: a shallow embedding of the system-information tool

    The development follows the two source files of the repository:
    the full program (hostname, OS, kernel, uptime, shell, CPU, GPU,
    memory and package rows, coloured and aligned by label) and its
    earlier variant [go-fetch.go] (boxed lines, no GPU row).

    Go values are modelled as follows.
    - [string] is a Go string: a sequence of bytes ([ascii] is a byte).
    - [uint64], [int64] and [int] are [Z] with the wrap-around written
      out ([wrap_u64], [wrap_i64]); [int] is taken to be 64 bits wide.
    - [float64] is [spec_float] at precision 53 and maximal exponent
      1024, with the operations of the Standard Library's executable
      IEEE-754 specification.
    - a pointer is an [option]; a dereference of [None] is a run-time
      panic, and so is an index out of range ([exec]).
    - a call that returns [(T, error)] returns a pair whose second
      component is an [option string] ([None] is the nil error). *)

From Stdlib Require Import ZArith Lia Bool List String Ascii DecimalString Zpower.
From Stdlib Require Import Floats.SpecFloat.
From Equations Require Import Equations.
Import ListNotations.

Open Scope string_scope.
Open Scope Z_scope.

(** ** The Go run time *)

Module Go.

(** Outcome of running a piece of Go code: a normal return or a
    run-time panic. *)
Inductive exec (A : Type) : Type :=
| Ret (a : A)
| Panic (msg : string).

Arguments Ret {A} a.
Arguments Panic {A} msg.

Definition bind {A B : Type} (m : exec A) (k : A -> exec B) : exec B :=
  match m with
  | Ret a => k a
  | Panic msg => Panic msg
  end.

Definition nil_dereference : string :=
  "invalid memory address or nil pointer dereference".

(** [p.f] for a pointer [p]. *)
Definition deref {A : Type} (p : option A) : exec A :=
  match p with
  | Some a => Ret a
  | None => Panic nil_dereference
  end.

(** An [error] value; [None] is [nil]. *)
Definition error : Type := option string.

(** *** Fixed-width integers *)

Definition wrap_u64 (z : Z) : Z := z mod 2 ^ 64.
Definition wrap_i64 (z : Z) : Z := (z + 2 ^ 63) mod 2 ^ 64 - 2 ^ 63.

Definition max_u64 : Z := 2 ^ 64 - 1.
Definition min_i64 : Z := - 2 ^ 63.
Definition max_i64 : Z := 2 ^ 63 - 1.

(** *** Strings *)

(** [len(s)] *)
Definition len (s : string) : Z := Z.of_nat (String.length s).

(** [s[i]], which panics out of range. *)
Definition index (s : string) (i : Z) : exec ascii :=
  if (0 <=? i) && (i <? len s) then
    match String.get (Z.to_nat i) s with
    | Some c => Ret c
    | None => Panic "index out of range"
    end
  else Panic "index out of range".

(** [strings.Repeat(" ", n)], for [n >= 0]. *)
Fixpoint spaces (n : nat) : string :=
  match n with
  | O => ""
  | S n' => String " " (spaces n')
  end.

Fixpoint zeros (n : nat) : string :=
  match n with
  | O => ""
  | S n' => String "0" (zeros n')
  end.

(** A width or precision that a [*] of a format takes from the
    arguments: [fmt] refuses one beyond a million either way
    ([tooLarge]), writes [badWidthString] in its place and pads
    nothing. *)
Definition tooLarge (x : Z) : bool := (x >? 1000000) || (x <? -1000000).

Definition badWidthString : string := "%!(BADWIDTH)".

(** *** float64 *)

Definition float64 : Type := spec_float.

Definition prec : Z := 53.
Definition emax : Z := 1024.

(** [float64(z)] for an integer [z] (round to nearest, ties to even). *)
Definition f64_of_int (z : Z) : float64 := binary_normalize prec emax z 0 false.

Definition f64_add : float64 -> float64 -> float64 := SFadd prec emax.
Definition f64_div : float64 -> float64 -> float64 := SFdiv prec emax.

(** [int(x)] for a float [x]: the fraction is discarded (truncation
    towards zero).  Out of the range of [int], and for NaN, amd64
    yields the smallest integer. *)
Definition f64_to_int (x : float64) : Z :=
  match x with
  | S754_zero _ => 0
  | S754_finite s m e =>
      let a := if 0 <=? e then Zpos m * 2 ^ e else Zpos m / 2 ^ (- e) in
      let v := if s then - a else a in
      if (min_i64 <=? v) && (v <=? max_i64) then v else min_i64
  | _ => min_i64
  end.

(** *** fmt verbs *)

(** [%d] *)
Definition fmt_d (z : Z) : string := NilZero.string_of_int (Z.to_int z).

(** [%c] of a byte: the UTF-8 encoding of the code point below 256. *)
Definition fmt_c (c : ascii) : string :=
  let n := Z.of_N (N_of_ascii c) in
  if n <? 128 then String c ""
  else String (ascii_of_N (Z.to_N (192 + n / 64)))
         (String (ascii_of_N (Z.to_N (128 + n mod 64))) "").

(** The integer nearest to [n / d] (for [0 < d]), ties to the even one. *)
Definition round_half_even (n d : Z) : Z :=
  let q := n / d in
  let r := n mod d in
  match 2 * r ?= d with
  | Lt => q
  | Gt => q + 1
  | Eq => if Z.even q then q else q + 1
  end.

(** [|x| * 10^p] rounded to an integer, for the finite float of
    mantissa [m] and exponent [e]: the decimal expansion of a binary
    float is exact, and [strconv] rounds it half to even. *)
Definition scaled_digits (p : nat) (m : positive) (e : Z) : Z :=
  if 0 <=? e then Zpos m * 2 ^ e * 10 ^ Z.of_nat p
  else round_half_even (Zpos m * 10 ^ Z.of_nat p) (2 ^ (- e)).

(** Digits [scaled] printed with [p] of them after the point. *)
Definition fixed_point (p : nat) (neg : bool) (scaled : Z) : string :=
  let ip := fmt_d (scaled / 10 ^ Z.of_nat p) in
  let fp := fmt_d (scaled mod 10 ^ Z.of_nat p) in
  (if neg then "-" else "") ++ ip ++
  match p with
  | O => ""
  | _ => "." ++ zeros (p - String.length fp) ++ fp
  end.

(** [%.pf] *)
Definition fmt_f (p : nat) (x : float64) : string :=
  match x with
  | S754_nan => "NaN"
  | S754_infinity false => "+Inf"
  | S754_infinity true => "-Inf"
  | S754_zero s => fixed_point p s 0
  | S754_finite s m e => fixed_point p s (scaled_digits p m e)
  end.

(** [%s] of an [error]: its message, and the bad-verb text for [nil]. *)
Definition fmt_s_error (e : error) : string :=
  match e with
  | Some msg => msg
  | None => "%!s(<nil>)"
  end.

(** *** package time *)

Definition Second : Z := 1000000000.
Definition Minute : Z := 60 * Second.
Definition Hour : Z := 60 * Minute.

(** [Duration.Hours]: the whole hours and the fraction are converted
    apart and added. *)
Definition Hours (d : Z) : float64 :=
  let hour := Z.quot d Hour in
  let nsec := Z.rem d Hour in
  f64_add (f64_of_int hour)
          (f64_div (f64_of_int nsec) (f64_of_int (60 * 60 * 1000000000))).

(** [Duration.Minutes] *)
Definition Minutes (d : Z) : float64 :=
  let min := Z.quot d Minute in
  let nsec := Z.rem d Minute in
  f64_add (f64_of_int min)
          (f64_div (f64_of_int nsec) (f64_of_int (60 * 1000000000))).

(** *** package strings *)

(** [strings.Split(s, sep)] for a separator of one byte: the segments
    between the occurrences of [sep]; always at least one segment. *)
Fixpoint Split (s : string) (sep : ascii) : list string :=
  match s with
  | "" => [""]
  | String c s' =>
      if Ascii.eqb c sep then "" :: Split s' sep
      else
        match Split s' sep with
        | seg :: segs => String c seg :: segs
        | [] => [String c ""]
        end
  end.

Definition code (c : ascii) : N := N_of_ascii c.

(** The white space of one byte: tab, line feed, vertical tab, form
    feed, carriage return, space. *)
Definition asciiSpace (c : ascii) : bool :=
  let n := code c in
  ((9 <=? n) && (n <=? 13))%N || (n =? 32)%N.

(** The two-byte UTF-8 sequences of white space: U+0085 and U+00A0. *)
Definition space2 (c d : ascii) : bool :=
  ((code c =? 194) && ((code d =? 133) || (code d =? 160)))%N.

(** The three-byte UTF-8 sequences of white space: U+1680,
    U+2000..U+200A, U+2028, U+2029, U+202F, U+205F and U+3000. *)
Definition space3 (c d e : ascii) : bool :=
  (((code c =? 225) && (code d =? 154) && (code e =? 128)) ||
   ((code c =? 226) && (code d =? 128) &&
      (((128 <=? code e) && (code e <=? 138)) ||
       (code e =? 168) || (code e =? 169) || (code e =? 175))) ||
   ((code c =? 226) && (code d =? 129) && (code e =? 159)) ||
   ((code c =? 227) && (code d =? 128) && (code e =? 128)))%N.

(** [strings.TrimLeftFunc(s, unicode.IsSpace)]: runes are decoded from
    the front; an invalid byte decodes to U+FFFD, which is no space. *)
Fixpoint trimLeft (s : list ascii) : list ascii :=
  match s with
  | [] => []
  | c :: s1 =>
      if asciiSpace c then trimLeft s1
      else
        match s1 with
        | d :: s2 =>
            if space2 c d then trimLeft s2
            else
              match s2 with
              | e :: s3 => if space3 c d e then trimLeft s3 else s
              | [] => s
              end
        | [] => s
        end
  end.

(** [strings.TrimRightFunc(s, unicode.IsSpace)] on the reversed bytes:
    the last rune is decoded backwards from the end. *)
Fixpoint trimRight_rev (s : list ascii) : list ascii :=
  match s with
  | [] => []
  | c :: s1 =>
      if asciiSpace c then trimRight_rev s1
      else
        match s1 with
        | d :: s2 =>
            if space2 d c then trimRight_rev s2
            else
              match s2 with
              | e :: s3 => if space3 e d c then trimRight_rev s3 else s
              | [] => s
              end
        | [] => s
        end
  end.

(** [strings.TrimSpace] *)
Definition TrimSpace (s : string) : string :=
  string_of_list_ascii
    (rev (trimRight_rev (rev (trimLeft (list_ascii_of_string s))))).

(** *** package path/filepath (Unix) *)

Definition isSlash (c : ascii) : bool := Ascii.eqb c "/".

Fixpoint dropWhile {A : Type} (f : A -> bool) (l : list A) : list A :=
  match l with
  | [] => []
  | x :: l' => if f x then dropWhile f l' else l
  end.

Fixpoint takeWhile {A : Type} (f : A -> bool) (l : list A) : list A :=
  match l with
  | [] => []
  | x :: l' => if f x then x :: takeWhile f l' else []
  end.

(** [filepath.Base]: the last element of the path, after the trailing
    slashes are removed; ["."] for the empty path and ["/"] for a path
    of slashes only. *)
Definition Base (path : string) : string :=
  match path with
  | "" => "."
  | _ =>
      let stripped := dropWhile isSlash (rev (list_ascii_of_string path)) in
      let last := rev (takeWhile (fun c => negb (isSlash c)) stripped) in
      match last with
      | [] => "/"
      | _ => string_of_list_ascii last
      end
  end.

(** *** package regexp

    The fragment of the syntax that the program's pattern uses.  The
    matcher backtracks in the order of [regexp]'s leftmost-first
    semantics: a repetition is greedy.  The text is matched byte by
    byte; the classes of the pattern are sets of ASCII bytes or the
    complement of the line feed, for which matching by bytes and
    matching by UTF-8 runes agree. *)

Inductive regexp : Type :=
| BeginText                                   (* ^ *)
| EndText                                     (* $ *)
| Lit (c : ascii)                             (* one literal byte *)
| Rep (cls : ascii -> bool) (min : nat)       (* cls* (min 0), cls+ (min 1) *)
| Cat (r1 r2 : regexp)                        (* r1 r2 *)
| Cap (r : regexp).                           (* ( r ), group 1 *)

(** A position in the text: the number of bytes before it and the
    bytes after it. *)
Definition cursor : Type := (nat * string)%type.

(** A match: the capture of group 1, if the group took part, and the
    position at which the match ends. *)
Definition submatch : Type := (option string * cursor)%type.

Fixpoint rep_greedy (cls : ascii -> bool) (min : nat) (pos : nat) (s : string)
    (k : cursor -> option submatch) : option submatch :=
  let stop := match min with O => k (pos, s) | S _ => None end in
  match s with
  | "" => stop
  | String c s' =>
      if cls c then
        match rep_greedy cls (Nat.pred min) (S pos) s' k with
        | Some m => Some m
        | None => stop
        end
      else stop
  end.

(** The first [n] bytes of [s]. *)
Fixpoint take (n : nat) (s : string) : string :=
  match n, s with
  | S n', String c s' => String c (take n' s')
  | _, _ => ""
  end.

Fixpoint run (r : regexp) (cap : option string) (cur : cursor)
    (k : option string -> cursor -> option submatch) : option submatch :=
  match r with
  | BeginText => match fst cur with O => k cap cur | S _ => None end
  | EndText => match snd cur with "" => k cap cur | String _ _ => None end
  | Lit c =>
      match snd cur with
      | String c' s' => if Ascii.eqb c' c then k cap (S (fst cur), s') else None
      | "" => None
      end
  | Rep cls min => rep_greedy cls min (fst cur) (snd cur) (k cap)
  | Cat r1 r2 => run r1 cap cur (fun cap' cur' => run r2 cap' cur' k)
  | Cap r1 =>
      run r1 cap cur
        (fun _ cur' => k (Some (take (fst cur' - fst cur) (snd cur))) cur')
  end.

(** The leftmost match: the start positions are tried from the left. *)
Fixpoint search (r : regexp) (pos : nat) (s : string) : option (cursor * submatch) :=
  match run r None (pos, s) (fun cap cur => Some (cap, cur)) with
  | Some m => Some ((pos, s), m)
  | None =>
      match s with
      | "" => None
      | String _ s' => search r (S pos) s'
      end
  end.

(** [re.FindStringSubmatch(s)]: the text of the leftmost match and of
    group 1 (empty when the group did not take part); nil when nothing
    matches. *)
Definition FindStringSubmatch (r : regexp) (s : string) : list string :=
  match search r 0%nat s with
  | Some ((p0, s0), (cap, (p1, _))) =>
      [take (p1 - p0) s0; match cap with Some c => c | None => "" end]
  | None => []
  end.

(** *** Effects

    A run leaves a trace of the calls that matter to the order of the
    program's work and of what it wrote to the standard output. *)

Inductive event : Type :=
| HostInfo                                   (* a call of host.Info *)
| Probe (file : string)                      (* a call of exec.LookPath *)
| Exec (name : string) (args : list string)  (* a call of Cmd.Output *)
| Stdout (text : string).                    (* a write to os.Stdout *)

Definition M (A : Type) : Type := list event -> exec A * list event.

Definition ret {A : Type} (a : A) : M A := fun t => (Ret a, t).

Definition mbind {A B : Type} (m : M A) (k : A -> M B) : M B :=
  fun t =>
    match m t with
    | (Ret a, t') => k a t'
    | (Panic msg, t') => (Panic msg, t')
    end.

Definition emit (e : event) : M Datatypes.unit := fun t => (Ret tt, (t ++ [e])%list).

Definition lift {A : Type} (x : exec A) : M A := fun t => (x, t).

(** What a trace wrote to the standard output. *)
Fixpoint stdout (t : list event) : string :=
  match t with
  | [] => ""
  | Stdout text :: t' => text ++ stdout t'
  | _ :: t' => stdout t'
  end.

Fixpoint count_HostInfo (t : list event) : nat :=
  match t with
  | [] => O
  | HostInfo :: t' => S (count_HostInfo t')
  | _ :: t' => count_HostInfo t'
  end.

End Go.

Export Go.

Notation "x <-? m ;; k" := (bind m (fun x => k))
  (at level 61, m at next level, right associativity).
Notation "x <- m ;; k" := (mbind m (fun x => k))
  (at level 61, m at next level, right associativity).
Notation "' p <- m ;; k" := (mbind m (fun x => let 'p := x in k))
  (at level 61, p pattern, m at next level, right associativity).
Notation "m ;;; k" := (mbind m (fun _ => k))
  (at level 61, right associativity).

(** ** The program

    [Fetch] is the full program; the formatters and the package
    counter are the same, line for line, in [go-fetch.go]. *)

Module Fetch.

(** *** Collaborators *)

(** [host.InfoStat], the fields the program reads. *)
Record InfoStat : Type := {
  Platform : string;
  PlatformVersion : string;
  KernelVersion : string;
  Uptime : Z                      (* uint64 *)
}.

(** [mem.VirtualMemoryStat] *)
Record VirtualMemoryStat : Type := {
  Total : Z;                      (* uint64 *)
  Used : Z                        (* uint64 *)
}.

(** [cpu.InfoStat] *)
Record CPUInfoStat : Type := {
  ModelName : string;
  Mhz : float64
}.

(** [pcidb.Vendor], [pcidb.Product], [pci.Device], [gpu.GraphicsCard]
    and [gpu.Info] of ghw; every pointer may be nil. *)
Record Vendor : Type := { Vendor_Name : string }.
Record Product : Type := { Product_Name : string }.
Record Device : Type := {
  Device_Vendor : option Vendor;
  Device_Product : option Product
}.
Record GraphicsCard : Type := { DeviceInfo : option Device }.
Record GPUInfo : Type := { GraphicsCards : list (option GraphicsCard) }.

(** [*exec.Cmd]: the name and the arguments given to [exec.Command]. *)
Record Cmd : Type := Command { Cmd_name : string; Cmd_args : list string }.

(** What the host answers.  [host.Info] is asked twice in a run; its
    answer may differ from call to call, so it is indexed by the number
    of earlier calls. *)
Record World : Type := {
  os_Hostname : string * error;
  os_Getenv : string -> string;
  runtime_GOOS : string;
  runtime_NumCPU : Z;
  host_Info : nat -> option InfoStat * error;
  mem_VirtualMemory : option VirtualMemoryStat * error;
  cpu_Info : list CPUInfoStat * error;
  ghw_GPU : option GPUInfo * error;
  exec_LookPath : string -> string * error;
  Cmd_Output : Cmd -> string * error;
  (* how termenv renders three spaces on the background colour *)
  termenv_block : string -> string
}.

Definition call_host_Info (w : World) : M (option InfoStat * error) :=
  fun t => (Ret (host_Info w (count_HostInfo t)), (t ++ [HostInfo])%list).

Definition call_LookPath (w : World) (file : string) : M (string * error) :=
  emit (Probe file) ;;; ret (exec_LookPath w file).

Definition call_Output (w : World) (cmd : Cmd) : M (string * error) :=
  emit (Exec (Cmd_name cmd) (Cmd_args cmd)) ;;; ret (Cmd_Output w cmd).

Definition Printf (text : string) : M Datatypes.unit := emit (Stdout text).

(** *** Constants *)

Definition esc : string := String "027" "".
Definition nl : string := String "010" "".
Definition newline : ascii := "010".

Definition text : string := esc ++ "[34m".
Definition category : string := esc ++ "[95m".
Definition hostcol : string := esc ++ "[34m".
Definition reset : string := esc ++ "[0m".

Definition colourise (text color : string) : string := color ++ text ++ reset.

(** *** Formatters *)

Definition unit : Z := 1024.

(** The loop of [formatBytes]:
    [for n := bytes / unit; n >= unit; n /= unit { div *= unit; exp++ }]. *)
Equations? formatBytes_loop (n div exp : Z) : Z * Z
  by wf (Z.to_nat (Z.log2 n)) lt :=
  formatBytes_loop n div exp with Z_ge_lt_dec n unit := {
    | left _ => formatBytes_loop (n / unit) (wrap_u64 (div * unit)) (exp + 1)
    | right _ => (div, exp) }.
Proof.
  unfold unit in *.
  change 1024 with (2 ^ 10). rewrite <- Z.shiftr_div_pow2 by lia.
  rewrite Z.log2_shiftr by lia.
  assert (10 <= Z.log2 n) by (apply Z.log2_le_pow2; lia). lia.
Qed.

Definition formatBytes (bytes : Z) : exec string :=
  if bytes <? unit then Ret (fmt_d bytes ++ " B")
  else
    let '(div, exp) := formatBytes_loop (bytes / unit) unit 0 in
    c <-? index "KMGTPE" exp ;;
    Ret (fmt_f 1 (f64_div (f64_of_int bytes) (f64_of_int div))
           ++ " " ++ fmt_c c ++ "iB").

Definition formatUptime (uptime : Z) : string :=
  let duration := wrap_i64 (wrap_i64 uptime * Second) in
  let days := f64_to_int (f64_div (Hours duration) (f64_of_int 24)) in
  let hours := Z.rem (f64_to_int (Hours duration)) 24 in
  let minutes := Z.rem (f64_to_int (Minutes duration)) 60 in
  fmt_d days ++ "d " ++ fmt_d hours ++ "h " ++ fmt_d minutes ++ "m".


(** *** Package counter *)

(** The [switch] of [getPackageCount]: the command to run, or the pair
    to return at once. *)
Definition selectCommand (w : World) (osInfo : option InfoStat)
  : M (Cmd + Z * error) :=
  if (runtime_GOOS w =? "linux")%string then
    osInfo <- lift (deref osInfo) ;;
    let platform := Platform osInfo in
    if (platform =? "debian")%string || (platform =? "ubuntu")%string then
      ret (inl (Command "dpkg" ["--get-selections"]))
    else if (platform =? "arch")%string then
      ret (inl (Command "pacman" ["-Q"]))
    else if (platform =? "fedora")%string || (platform =? "centos")%string
            || (platform =? "rhel")%string then
      ret (inl (Command "rpm" ["-qa"]))
    else
      '(_, err) <- call_LookPath w "dpkg" ;;
      match err with
      | None => ret (inl (Command "dpkg" ["--get-selections"]))
      | Some _ =>
          '(_, err) <- call_LookPath w "pacman" ;;
          match err with
          | None => ret (inl (Command "pacman" ["-Q"]))
          | Some _ =>
              '(_, err) <- call_LookPath w "rpm" ;;
              match err with
              | None => ret (inl (Command "rpm" ["-qa"]))
              | Some _ => ret (inr (0, Some "unsupported Linux distribution"))
              end
          end
      end
  else ret (inr (0, Some "Unsupported OS for package counting")).

Definition getPackageCount (w : World) : M (Z * error) :=
  '(osInfo, err) <- call_host_Info w ;;
  match err with
  | Some _ => ret (0, err)
  | None =>
      sel <- selectCommand w osInfo ;;
      match sel with
      | inr early => ret early
      | inl cmd =>
          '(output, err) <- call_Output w cmd ;;
          match err with
          | Some _ => ret (0, err)
          | None => ret (Z.of_nat (List.length (Split output newline)) - 1, None)
          end
      end
  end.

(** *** CPU *)

Definition getCPUInfo (w : World) : string * Z * float64 :=
  let '(cpuInfo, err) := cpu_Info w in
  match err, cpuInfo with
  | None, c0 :: _ =>
      let model := ModelName c0 in
      let cores := runtime_NumCPU w in
      let speed := f64_div (Mhz c0) (f64_of_int 1000) in
      let cores := if cores =? 0 then runtime_NumCPU w else cores in
      (model, cores, speed)
  | _, _ => ("Unknown", runtime_NumCPU w, S754_zero false)
  end.

(** *** GPU *)

Definition upper_or_digit (c : ascii) : bool :=
  let n := code c in
  (((65 <=? n) && (n <=? 90)) || ((48 <=? n) && (n <=? 57)))%N.

(** [\s] of the regexp syntax: tab, line feed, form feed, carriage
    return, space. *)
Definition perl_space (c : ascii) : bool :=
  let n := code c in
  ((n =? 9) || (n =? 10) || (n =? 12) || (n =? 13) || (n =? 32))%N.

(** [.] without the [s] flag: anything but a line feed. *)
Definition any_char (c : ascii) : bool := negb (code c =? 10)%N.

(** The pattern [^[A-Z0-9]+\s*\[(.+)\]$]. *)
Definition re : regexp :=
  Cat BeginText
   (Cat (Rep upper_or_digit 1)
     (Cat (Rep perl_space 0)
       (Cat (Lit "[")
         (Cat (Cap (Rep any_char 1))
           (Cat (Lit "]") EndText))))).

Definition cleanGPUName (name : string) : string :=
  let matches := FindStringSubmatch re name in
  match matches with
  | _ :: m1 :: _ => TrimSpace m1
  | _ => name
  end.

Definition getGPUInfo (w : World) : exec (string * error) :=
  let '(gpu, err) := ghw_GPU w in
  match err with
  | Some _ => Ret ("", err)
  | None =>
      gpu <-? deref gpu ;;
      match GraphicsCards gpu with
      | card :: _ =>
          card <-? deref card ;;
          match DeviceInfo card with
          | Some {| Device_Product := Some product |} =>
              Ret (cleanGPUName (Product_Name product), None)
          | _ =>
              info <-? deref (DeviceInfo card) ;;
              vendor <-? deref (Device_Vendor info) ;;
              Ret ("Unknown GPU (Vendor: " ++ Vendor_Name vendor ++ ")", None)
          end
      | [] => Ret ("None", None)
      end
  end.

(** *** Presenter *)

Definition palette : list string := ["0"; "1"; "2"; "3"; "4"; "5"; "6"].

Fixpoint print_each (l : list string) : M Datatypes.unit :=
  match l with
  | [] => ret tt
  | x :: l' => Printf x ;;; print_each l'
  end.

Definition printColorBlocks (w : World) : M Datatypes.unit :=
  print_each (map (termenv_block w) palette) ;;; Printf nl.

(** A row of the display. *)
Record item : Type := Item { label : string; value : string }.

(** The loop that finds the longest label. *)
Definition maxLabelLength (info : list item) : Z :=
  fold_left (fun m it => if len (label it) >? m then len (label it) else m)
            info 0.

(** [fmt.Sprintf("%s%-*s %s\n", ...)] of one row: the width argument
    pads the empty string with spaces, unless [fmt] refuses it. *)
Definition row_line (width : Z) (it : item) : string :=
  colourise (label it) category
    ++ (if tooLarge (width - len (label it)) then badWidthString
        else spaces (Z.to_nat (Z.abs (width - len (label it)))))
    ++ " " ++ colourise (value it) text ++ nl.

(** The table of rows that [main] builds, with the Packages row
    appended.  The fields of [osInfo] and [memInfo] are read through
    their pointers. *)
Definition build_info (w : World) (hostname : string)
    (osInfo : option InfoStat) (memInfo : option VirtualMemoryStat)
    (cpuModel : string) (logicalCores : Z) (cpuSpeed : float64)
    (gpu : string) (packageCount : Z) (err : error) : exec (list item) :=
  osInfo <-? deref osInfo ;;
  memInfo <-? deref memInfo ;;
  used <-? formatBytes (Used memInfo) ;;
  total <-? formatBytes (Total memInfo) ;;
  let info :=
    [ Item "Hostname" hostname;
      Item "OS" (Platform osInfo ++ " " ++ PlatformVersion osInfo);
      Item "Kernel" (KernelVersion osInfo);
      Item "Uptime" (formatUptime (Uptime osInfo));
      Item "Shell" (Base (os_Getenv w "SHELL"));
      Item "CPU" (cpuModel ++ " (" ++ fmt_d logicalCores ++ " cores @ "
                    ++ fmt_f 2 cpuSpeed ++ " GHz)");
      Item "GPU" gpu;
      Item "Memory" (used ++ " / " ++ total) ] in
  if packageCount >=? 0 then
    Ret (List.app info [Item "Packages" (fmt_d packageCount)])
  else
    Ret (List.app info
           [Item "Packages" ("Unable to determine (" ++ fmt_s_error err ++ ")")]).

(** The two loops that end [main]: the longest label is found, then
    every row is printed. *)
Definition present (info : list item) : M Datatypes.unit :=
  let width := maxLabelLength info in
  print_each (map (row_line width) info).

Definition header (username hostname : string) : string :=
  esc ++ "[1m" ++ colourise username hostcol ++ "@"
      ++ colourise hostname hostcol ++ esc ++ "[0m" ++ nl.

(** [main].  The redirection of the standard error to a log file, with
    which it starts, writes nothing to the standard output and is left
    out. *)
Definition main (w : World) : M Datatypes.unit :=
  let '(hostname, _) := os_Hostname w in
  let username := os_Getenv w "USER" in
  '(osInfo, _) <- call_host_Info w ;;
  let '(memInfo, _) := mem_VirtualMemory w in
  let '(cpuModel, logicalCores, cpuSpeed) := getCPUInfo w in
  '(packageCount, err) <- getPackageCount w ;;
  let packageCount := match err with Some _ => -1 | None => packageCount end in
  '(gpu, err) <- lift (getGPUInfo w) ;;
  let gpu := match err with Some _ => "None" | None => gpu end in
  Printf (header username hostname) ;;;
  info <- lift (build_info w hostname osInfo memInfo cpuModel logicalCores
                  cpuSpeed gpu packageCount err) ;;
  present info ;;;
  printColorBlocks w.

End Fetch.


(** ** The earlier variant, [go-fetch.go]

    Its formatters and its package counter are those of [Fetch]; its
    [main] has no GPU row, prints the lines in a box, and pads whole
    lines. *)

Module Legacy.

Import Fetch.

(** [utf8.RuneCountInString]: an invalid or cut-off sequence counts
    one rune for its first byte. *)
Definition cont (c : ascii) : bool := ((128 <=? code c) && (code c <=? 191))%N.

Definition rune_size (c : ascii) : nat :=
  let n := code c in
  if ((194 <=? n) && (n <=? 223))%N then 2
  else if ((224 <=? n) && (n <=? 239))%N then 3
  else if ((240 <=? n) && (n <=? 244))%N then 4
  else 1.

(** The range accepted for the second byte after the first byte [c]. *)
Definition accept (c d : ascii) : bool :=
  let n := code c in
  let lo := if (n =? 224)%N then 160%N else if (n =? 240)%N then 144%N else 128%N in
  let hi := if (n =? 237)%N then 159%N else if (n =? 244)%N then 143%N else 191%N in
  ((lo <=? code d) && (code d <=? hi))%N.

Fixpoint RuneCount (s : list ascii) : Z :=
  match s with
  | [] => 0
  | c :: s1 =>
      1 + match rune_size c, s1 with
          | 2%nat, d :: s2 => if accept c d then RuneCount s2 else RuneCount s1
          | 3%nat, d :: e :: s3 =>
              if accept c d && cont e then RuneCount s3 else RuneCount s1
          | 4%nat, d :: e :: f :: s4 =>
              if accept c d && cont e && cont f then RuneCount s4
              else RuneCount s1
          | _, _ => RuneCount s1
          end
  end.

Definition RuneCountInString (s : string) : Z := RuneCount (list_ascii_of_string s).

(** [strings.Repeat("-", n)], for [n >= 0]. *)
Fixpoint dashes (n : nat) : string :=
  match n with
  | O => ""
  | S n' => String "-" (dashes n')
  end.

Definition Println (s : string) : M Datatypes.unit := Printf (s ++ nl).

(** The lines of the box. *)
Definition build_info (w : World) (hostname : string)
    (osInfo : option InfoStat) (memInfo : option VirtualMemoryStat)
    (cpuModel : string) (logicalCores : Z) (cpuSpeed : float64)
    (packageCount : Z) (err : error) : exec (list string) :=
  osInfo <-? deref osInfo ;;
  memInfo <-? deref memInfo ;;
  used <-? formatBytes (Used memInfo) ;;
  total <-? formatBytes (Total memInfo) ;;
  let info :=
    [ "Hostname: " ++ hostname;
      "OS: " ++ Platform osInfo ++ " " ++ PlatformVersion osInfo;
      "Kernel: " ++ KernelVersion osInfo;
      "Uptime: " ++ formatUptime (Uptime osInfo);
      "Shell: " ++ os_Getenv w "SHELL";
      "CPU: " ++ cpuModel ++ " (" ++ fmt_d logicalCores ++ " cores @ "
         ++ fmt_f 2 cpuSpeed ++ " GHz)";
      "Memory: " ++ used ++ " / " ++ total ] in
  if packageCount >=? 0 then
    Ret (List.app info ["Installed Packages: " ++ fmt_d packageCount])
  else
    Ret (List.app info ["Installed Packages: Unable to determine ("
                          ++ fmt_s_error err ++ ")"]).

Definition maxLength (info : list string) : Z :=
  fold_left (fun m line => if len line >? m then len line else m) info 0.

(** [fmt.Sprintf("| %-*s |\n", maxLength, line)]: the line is padded on
    the right to [maxLength] runes, unless [fmt] refuses the width: it
    then writes [badWidthString] where the width is read, before the
    line, and pads nothing. *)
Definition box_line (maxLength : Z) (line : string) : string :=
  "| " ++ (if tooLarge maxLength then badWidthString ++ line
           else line ++ spaces (Z.to_nat (Z.abs maxLength)
                                - Z.to_nat (RuneCountInString line)))
       ++ " |" ++ nl.

Definition main (w : World) : M Datatypes.unit :=
  let '(hostname, _) := os_Hostname w in
  let username := os_Getenv w "USER" in
  '(osInfo, _) <- call_host_Info w ;;
  let '(memInfo, _) := mem_VirtualMemory w in
  let '(cpuInfo, _) := cpu_Info w in
  let '(cpuModel, cpuSpeed) :=
    match cpuInfo with
    | c0 :: _ => (ModelName c0, f64_div (Mhz c0) (f64_of_int 1000))
    | [] => ("Unknown", S754_zero false)
    end in
  let logicalCores := runtime_NumCPU w in
  '(packageCount, err) <- getPackageCount w ;;
  let packageCount := match err with Some _ => -1 | None => packageCount end in
  Printf (esc ++ "[1m" ++ username ++ "@" ++ hostname ++ esc ++ "[0m" ++ nl) ;;;
  Println (dashes (Z.to_nat (len username + len hostname + 1))) ;;;
  info <- lift (build_info w hostname osInfo memInfo cpuModel logicalCores
                  cpuSpeed packageCount err) ;;
  let maxLength := maxLength info in
  Println (dashes (Z.to_nat (maxLength + 4))) ;;;
  print_each (map (box_line maxLength) info) ;;;
  Println (dashes (Z.to_nat (maxLength + 4))).

End Legacy.

(** ** The specification's words

    Definitions that follow the sentences of the specification rather
    than the code; the theorems below compare them with the program. *)

Module Spec.

Import Fetch.

(** The number of occurrences of a byte in a string. *)
Fixpoint count_byte (c : ascii) (s : string) : Z :=
  match s with
  | "" => 0
  | String c' s' => (if Ascii.eqb c' c then 1 else 0) + count_byte c s'
  end.

(** The number of newline-delimited segments of a text. *)
Definition segments (output : string) : Z := count_byte newline output + 1.

(** The package tools and their modes. *)
Definition tool_A : Cmd := Command "dpkg" ["--get-selections"].
Definition tool_B : Cmd := Command "pacman" ["-Q"].
Definition tool_C : Cmd := Command "rpm" ["-qa"].

(** The fixed table from platform identity to command. *)
Definition distribution_table : list (string * Cmd) :=
  [ ("debian", tool_A); ("ubuntu", tool_A);
    ("arch", tool_B);
    ("fedora", tool_C); ("centos", tool_C); ("rhel", tool_C) ].

(** The order in which the tools are probed for any other identity. *)
Definition probe_order : list Cmd := [tool_A; tool_B; tool_C].

Fixpoint lookup (platform : string) (table : list (string * Cmd)) : option Cmd :=
  match table with
  | [] => None
  | (name, cmd) :: table' =>
      if (platform =? name)%string then Some cmd else lookup platform table'
  end.

Definition on_search_path (w : World) (file : string) : bool :=
  match snd (exec_LookPath w file) with
  | None => true
  | Some _ => false
  end.

(** The probes made, in order, and the first tool found. *)
Fixpoint first_found (w : World) (tools : list Cmd) : list event * option Cmd :=
  match tools with
  | [] => ([], None)
  | cmd :: tools' =>
      if on_search_path w (Cmd_name cmd) then ([Probe (Cmd_name cmd)], Some cmd)
      else
        let '(probes, found) := first_found w tools' in
        (Probe (Cmd_name cmd) :: probes, found)
  end.

(** The selection on Linux: the probes it makes, and the command or
    the failure. *)
Definition selection (w : World) (platform : string)
  : list event * (Cmd + Z * error) :=
  match lookup platform distribution_table with
  | Some cmd => ([], inl cmd)
  | None =>
      match first_found w probe_order with
      | (probes, Some cmd) => (probes, inl cmd)
      | (probes, None) =>
          (probes, inr (0, Some "unsupported Linux distribution"))
      end
  end.

(** The number of integer divisions by 1024 that bring [n] below 1024. *)
Equations? divisions (n : Z) : Z by wf (Z.to_nat (Z.log2 n)) lt :=
  divisions n with Z_ge_lt_dec n 1024 := {
    | left _ => 1 + divisions (n / 1024)
    | right _ => 0 }.
Proof.
  change 1024 with (2 ^ 10). rewrite <- Z.shiftr_div_pow2 by lia.
  rewrite Z.log2_shiftr by lia.
  assert (10 <= Z.log2 n) by (apply Z.log2_le_pow2; lia). lia.
Qed.

(** The unit suffixes, in order. *)
Definition suffixes : list string := ["K"; "M"; "G"; "T"; "P"; "E"].

(** The [k]-th suffix, counted from one. *)
Definition suffix (k : Z) : string := nth (Z.to_nat (k - 1)) suffixes "".

(** The ratio [n / d] rendered with one digit after the point, the
    nearest such number, a tie going to the even digit. *)
Definition one_decimal (n d : Z) : string :=
  let tenths := round_half_even (10 * n) d in
  fmt_d (tenths / 10) ++ "." ++ fmt_d (tenths mod 10).

(** The rendering of a byte count, where [value] stands for the count
    in the quotient. *)
Definition humanize (value bytes : Z) : string :=
  if bytes <? 1024 then fmt_d bytes ++ " B"
  else
    let k := divisions bytes in
    one_decimal value (1024 ^ k) ++ " " ++ suffix k ++ "iB".

(** The size in the specification's words: the count itself is divided. *)
Definition bytes_words (bytes : Z) : string := humanize bytes bytes.

(** [z] rounded to 53 significant bits, a tie going to the even one:
    the integer that [float64(z)] holds. *)
Definition round53 (z : Z) : Z :=
  let n := Z.max 0 (Z.log2 z - 52) in
  round_half_even z (2 ^ n) * 2 ^ n.

(** The uptime in the specification's words: whole days, the hours
    left and the minutes left. *)
Definition uptime_words (s : Z) : string :=
  fmt_d (s / 86400) ++ "d " ++ fmt_d ((s / 3600) mod 24) ++ "h "
    ++ fmt_d ((s / 60) mod 60) ++ "m".

(** The greatest number of seconds that [time.Duration] holds. *)
Definition longest_uptime : Z := 9223372036.

(** The labels of the display, in their fixed order. *)
Definition labels : list string :=
  ["Hostname"; "OS"; "Kernel"; "Uptime"; "Shell"; "CPU"; "GPU"; "Memory";
   "Packages"].

(** The greatest length over the labels of the rows. *)
Definition longest_label (info : list item) : Z :=
  fold_right Z.max 0 (map (fun it => len (label it)) info).

(** The text of the Packages row as [main] builds it: [gpu_err] is the
    error of the graphics query, which is the value of [err] when the
    row is built. *)
Definition packages_text (count : Z) (count_err gpu_err : error) : string :=
  match count_err with
  | None => fmt_d count
  | Some _ => "Unable to determine (" ++ fmt_s_error gpu_err ++ ")"
  end.

(** The rows of the display for given facts. *)
Definition rows (w : World) (osInfo : InfoStat) (used total gpu packages : string)
  : list item :=
  [ Item "Hostname" (fst (os_Hostname w));
    Item "OS" (Platform osInfo ++ " " ++ PlatformVersion osInfo);
    Item "Kernel" (KernelVersion osInfo);
    Item "Uptime" (formatUptime (Uptime osInfo));
    Item "Shell" (Base (os_Getenv w "SHELL"));
    Item "CPU" (fst (fst (getCPUInfo w)) ++ " ("
                  ++ fmt_d (snd (fst (getCPUInfo w))) ++ " cores @ "
                  ++ fmt_f 2 (snd (getCPUInfo w)) ++ " GHz)");
    Item "GPU" gpu;
    Item "Memory" (used ++ " / " ++ total);
    Item "Packages" packages ].

(** Every byte of [s] is in the class. *)
Fixpoint every (cls : ascii -> bool) (s : string) : bool :=
  match s with
  | "" => true
  | String c s' => cls c && every cls s'
  end.

(** The whole of [s] matches [^[A-Z0-9]+\s*\[(.+)\]$] with [c] in the
    brackets: one or more upper-case letters or digits, white space or
    none, and a bracketed text that ends the string. *)
Definition bracketed (s prefix ws c : string) : Prop :=
  s = prefix ++ ws ++ "[" ++ c ++ "]"
  /\ prefix <> "" /\ every upper_or_digit prefix = true
  /\ every perl_space ws = true
  /\ c <> "" /\ every any_char c = true.

(** A run of white space: the UTF-8 encodings of white-space runes,
    one after another. *)
Inductive space_run : list ascii -> Prop :=
| space_run_nil : space_run []
| space_run_1 c l :
    asciiSpace c = true -> space_run l -> space_run (c :: l)
| space_run_2 c d l :
    space2 c d = true -> space_run l -> space_run (c :: d :: l)
| space_run_3 c d e l :
    space3 c d e = true -> space_run l -> space_run (c :: d :: e :: l).

(** The bytes start with the encoding of a white-space rune. *)
Definition space_first (l : list ascii) : bool :=
  match l with
  | c :: d :: e :: _ => asciiSpace c || space2 c d || space3 c d e
  | [c; d] => asciiSpace c || space2 c d
  | [c] => asciiSpace c
  | [] => false
  end.

(** The bytes end with the encoding of a white-space rune. *)
Definition space_last (l : list ascii) : bool :=
  match rev l with
  | c :: d :: e :: _ => asciiSpace c || space2 d c || space3 e d c
  | [c; d] => asciiSpace c || space2 d c
  | [c] => asciiSpace c
  | [] => false
  end.

(** A string of slashes, and a string without one. *)
Definition all_slashes (s : string) : Prop :=
  forallb isSlash (list_ascii_of_string s) = true.

Definition no_slash (s : string) : Prop :=
  forallb (fun c => negb (isSlash c)) (list_ascii_of_string s) = true.

(** [dir] is empty or ends with a slash. *)
Definition directory_prefix (dir : string) : Prop :=
  dir = "" \/ exists d, dir = d ++ "/".

End Spec.

(** ** Sample hosts *)

Module Worlds.

Import Fetch.

Definition ubuntu : InfoStat :=
  {| Platform := "ubuntu"; PlatformVersion := "22.04";
     KernelVersion := "5.15.0"; Uptime := 3661 |}.

Definition card (name : string) : option GraphicsCard :=
  Some {| DeviceInfo :=
            Some {| Device_Vendor := None;
                    Device_Product := Some {| Product_Name := name |} |} |}.

(** A host on which [runtime.GOOS] is [goos], [host.Info] answers
    [info] at every call, the graphics cards are [cards], and the
    package command prints [output]. *)
Definition host (goos : string) (info : option InfoStat * error)
    (cards : list (option GraphicsCard)) (output : string) : World :=
  {| os_Hostname := ("box", None);
     os_Getenv := fun key =>
       if (key =? "USER")%string then "alice"
       else if (key =? "SHELL")%string then "/bin/bash" else "";
     runtime_GOOS := goos;
     runtime_NumCPU := 4;
     host_Info := fun _ => info;
     mem_VirtualMemory :=
       (Some {| Total := 2147483648; Used := 1073741824 |}, None);
     cpu_Info := ([{| ModelName := "TestCPU"; Mhz := f64_of_int 2500 |}], None);
     ghw_GPU := (Some {| GraphicsCards := cards |}, None);
     exec_LookPath := fun file => ("", Some "executable file not found in $PATH");
     Cmd_Output := fun cmd => (output, None);
     termenv_block := fun colour => esc ++ "[4" ++ colour ++ "m   " ++ esc ++ "[0m" |}.

(** A Linux host with everything in place. *)
Definition linux_host : World :=
  host "linux" (Some ubuntu, None) [card "0300 [GeForce RTX 3080]"]
       ("p1" ++ nl ++ "p2" ++ nl).

(** The same host with another package listing. *)
Definition linux_host_listing (output : string) : World :=
  host "linux" (Some ubuntu, None) [card "0300 [GeForce RTX 3080]"] output.

(** A host of another operating system: the packages cannot be
    counted, and the graphics query succeeds with no card. *)
Definition darwin_host : World :=
  host "darwin" (Some ubuntu, None) [] "".

(** A host whose first graphics card carries no PCI device record. *)
Definition bare_card_host : World :=
  host "linux" (Some ubuntu, None) [Some {| DeviceInfo := None |}]
       ("p1" ++ nl ++ "p2" ++ nl).

(** A host on which [host.Info] fails: no record, and an error. *)
Definition no_host_info : World :=
  host "linux" (None, Some "host info unavailable")
       [card "0300 [GeForce RTX 3080]"] ("p1" ++ nl ++ "p2" ++ nl).

End Worlds.

(** ** Reading float64 values

    The value of a float is followed through the operations in
    integers: a real number is a ratio [X / D], and a rounding is
    located by the integer below it. *)

Module Ieee.

(** The real number [X / D] lies at the place [l] of the interval
    from [m] to [m + 1]: on [m], below its middle, on it, or above. *)
Definition loc_ok (X D m : Z) (l : location) : Prop :=
  match l with
  | loc_Exact => X = m * D
  | loc_Inexact Lt => m * D < X /\ 2 * X < (2 * m + 1) * D
  | loc_Inexact Eq => 2 * X = (2 * m + 1) * D
  | loc_Inexact Gt => (2 * m + 1) * D < 2 * X /\ X < (m + 1) * D
  end.

(** [x] is a positive normal float of value [V * 2 ^ E]. *)
Definition finite_value (x : float64) (V E : Z) : Prop :=
  exists m e, x = S754_finite false m e /\ Zdigits2 (Zpos m) = 53
              /\ E <= e /\ Zpos m * 2 ^ (e - E) = V.

(** [x] is a positive normal float with [K <= x <= K + 1 - 2 ^ - c]. *)
Definition within (x : float64) (K c : Z) : Prop :=
  exists V E, finite_value x V E /\ E <= - c
              /\ K * 2 ^ (- E) <= V <= (K + 1) * 2 ^ (- E) - 2 ^ (- E - c).

(** A fraction of an hour or of a minute as [Duration.Hours] and
    [Duration.Minutes] compute it: zero, or a positive normal float at
    most [1 - 2 ^ - c]. *)
Definition fraction_ok (c : Z) (f : float64) : bool :=
  match f with
  | S754_zero false => true
  | S754_finite false m e =>
      (Zdigits2 (Zpos m) =? 53) && (-1000 <=? e) && (e <=? -53)
      && (Zpos m <=? 2 ^ (- e) - 2 ^ (- e - c))
  | _ => false
  end.

Definition hour_fraction (j : Z) : float64 :=
  f64_div (f64_of_int (j * Second)) (f64_of_int (60 * 60 * 1000000000)).

Definition minute_fraction (j : Z) : float64 :=
  f64_div (f64_of_int (j * Second)) (f64_of_int (60 * 1000000000)).

(** The checks on the [j]-th second of the first hour, and of the
    first minute. *)
Definition first_hour_ok (j : Z) : bool :=
  fraction_ok 12 (hour_fraction j)
  && (f64_to_int (f64_add (f64_of_int 0) (hour_fraction j)) =? 0)
  && (f64_to_int (f64_div (f64_add (f64_of_int 0) (hour_fraction j))
                          (f64_of_int 24)) =? 0).

Definition first_minute_ok (j : Z) : bool :=
  fraction_ok 6 (minute_fraction j)
  && (f64_to_int (f64_add (f64_of_int 0) (minute_fraction j)) =? 0).

End Ieee.

(** ** What the host must answer

    The answers of the collaborators with which each part of the
    program returns, and the package listings that a tool prints. *)

Module Runs.

Import Fetch.

(** A graphics card that [getGPUInfo] can name: it has a device record
    with a product or, failing that, with a vendor. *)
Definition nameable (card : option GraphicsCard) : bool :=
  match card with
  | Some {| DeviceInfo := Some device |} =>
      match Device_Product device, Device_Vendor device with
      | Some _, _ => true
      | None, Some _ => true
      | None, None => false
      end
  | _ => false
  end.

(** The answer of [ghw.GPU] is an error, or a record whose first card,
    if there is one, can be named. *)
Definition gpu_answer_ok (w : World) : bool :=
  match ghw_GPU w with
  | (_, Some _) => true
  | (None, None) => false
  | (Some gpu, None) =>
      match GraphicsCards gpu with
      | [] => true
      | card :: _ => nameable card
      end
  end.

(** The answer of [host.Info] at the call that follows [calls] earlier
    ones is not the nil record with the nil error on Linux. *)
Definition host_answer_ok (w : World) (calls : nat) : bool :=
  match host_Info w calls with
  | (None, None) => negb (runtime_GOOS w =? "linux")%string
  | _ => true
  end.

Definition present_record {A : Type} (p : option A) : bool :=
  match p with
  | Some _ => true
  | None => false
  end.

(** The memory counts are in the range of [uint64]. *)
Definition memory_in_range (w : World) : bool :=
  match fst (mem_VirtualMemory w) with
  | Some memInfo =>
      (0 <=? Used memInfo) && (Used memInfo <=? max_u64)
      && (0 <=? Total memInfo) && (Total memInfo <=? max_u64)
  | None => true
  end.

(** The answers with which [main] runs to its end. *)
Definition answers_ok (w : World) : bool :=
  present_record (fst (host_Info w 0%nat))
  && present_record (fst (mem_VirtualMemory w))
  && host_answer_ok w 1%nat
  && gpu_answer_ok w.

(** The probes for the package tools, in the order of the fallback. *)
Definition probes : list event :=
  [Probe "dpkg"; Probe "pacman"; Probe "rpm"].

(** The commands that count packages. *)
Definition package_commands : list Cmd :=
  [Command "dpkg" ["--get-selections"]; Command "pacman" ["-Q"];
   Command "rpm" ["-qa"]].

Definition is_write (e : event) : bool :=
  match e with
  | Stdout _ => true
  | _ => false
  end.

(** A listing: every line is followed by a line feed. *)
Fixpoint listing (lines : list string) : string :=
  match lines with
  | [] => ""
  | line :: lines' => line ++ nl ++ listing lines'
  end.

(** The same lines with no line feed after the last one. *)
Fixpoint unterminated (line : string) (lines : list string) : string :=
  match lines with
  | [] => line
  | line' :: lines' => line ++ nl ++ unterminated line' lines'
  end.

Definition no_line_feed (line : string) : bool :=
  forallb (fun c => negb (Ascii.eqb c newline)) (list_ascii_of_string line).

(** A byte that is a rune of its own. *)
Definition ascii_byte (c : ascii) : bool := (code c <? 128)%N.

End Runs.

Import Fetch Spec Ieee.

(** ** Strings *)

Lemma append_assoc (s1 s2 s3 : string) : (s1 ++ s2) ++ s3 = s1 ++ s2 ++ s3.
Proof. induction s1 as [|c s1 IH]; simpl; [reflexivity|now rewrite IH]. Qed.

Lemma append_nil_r (s : string) : s ++ "" = s.
Proof. induction s as [|c s IH]; simpl; [reflexivity|now rewrite IH]. Qed.

Lemma length_append (s1 s2 : string) :
  String.length (s1 ++ s2) = (String.length s1 + String.length s2)%nat.
Proof. induction s1 as [|c s1 IH]; simpl; [reflexivity|now rewrite IH]. Qed.

(** ** Running the effects *)

Lemma print_each_trace (l : list string) (t : list event) :
  print_each l t = (Ret tt, (t ++ map Stdout l)%list).
Proof.
  revert t; induction l as [|x l IH]; intros t; simpl.
  - unfold ret. now rewrite app_nil_r.
  - unfold mbind, Printf, emit. rewrite IH. now rewrite <- app_assoc.
Qed.

Lemma stdout_app (t1 t2 : list event) :
  stdout (t1 ++ t2)%list = stdout t1 ++ stdout t2.
Proof.
  induction t1 as [|e t1 IH]; simpl; [reflexivity|].
  destruct e; simpl; rewrite IH; try reflexivity.
  now rewrite append_assoc.
Qed.

Lemma count_HostInfo_app (t1 t2 : list event) :
  count_HostInfo (t1 ++ t2)%list = (count_HostInfo t1 + count_HostInfo t2)%nat.
Proof.
  induction t1 as [|e t1 IH]; simpl; [reflexivity|].
  destruct e; simpl; rewrite IH; reflexivity.
Qed.

(** ** The package counter *)

Lemma Split_nonempty (s : string) (sep : ascii) : Split s sep <> [].
Proof.
  destruct s as [|c s]; simpl; [discriminate|].
  destruct (Ascii.eqb c sep); [discriminate|].
  destruct (Split s sep); discriminate.
Qed.

Lemma Split_length (s : string) (sep : ascii) :
  Z.of_nat (List.length (Split s sep)) = count_byte sep s + 1.
Proof.
  induction s as [|c s IH]; simpl; [reflexivity|].
  destruct (Ascii.eqb c sep).
  - simpl List.length. lia.
  - destruct (Split s sep) as [|seg segs] eqn:E.
    + now apply Split_nonempty in E.
    + simpl List.length in *. lia.
Qed.

(** C3.  When the selected command has run and its standard output has
    been captured, [getPackageCount] returns the number of segments of
    the output split on the line feed, less one, whatever the segments
    hold; that is the number of line feeds.  The output ["a\nb\nc\n"]
    gives 3 and the empty output gives 0. *)
Theorem getPackageCount_counts_segments :
  forall (w : World) (t t' : list event) (info : option InfoStat)
         (cmd : Cmd) (output : string),
    host_Info w (count_HostInfo t) = (info, None) ->
    selectCommand w info (t ++ [HostInfo])%list = (Ret (inl cmd), t') ->
    Cmd_Output w cmd = (output, None) ->
    getPackageCount w t
      = (Ret (Z.of_nat (List.length (Split output newline)) - 1, None),
         (t' ++ [Exec (Cmd_name cmd) (Cmd_args cmd)])%list)
    /\ Z.of_nat (List.length (Split output newline)) - 1 = segments output - 1
    /\ segments output - 1 = count_byte newline output
    /\ (output = "a" ++ nl ++ "b" ++ nl ++ "c" ++ nl ->
        Z.of_nat (List.length (Split output newline)) - 1 = 3)
    /\ (output = "" -> Z.of_nat (List.length (Split output newline)) - 1 = 0).
Proof.
  intros w t t' info cmd output Hinfo Hsel Hout.
  split; [|split; [|split; [|split]]].
  - unfold getPackageCount, mbind, call_host_Info.
    rewrite Hinfo, Hsel.
    unfold call_Output, mbind, emit, ret. now rewrite Hout.
  - unfold segments. rewrite Split_length. reflexivity.
  - unfold segments. lia.
  - intros ->. reflexivity.
  - intros ->. reflexivity.
Qed.

Lemma getPackageCount_counts_segments_witness :
  getPackageCount (Worlds.linux_host_listing ("a" ++ nl ++ "b" ++ nl ++ "c" ++ nl)) []
  = (Ret (3, None), [HostInfo; Exec "dpkg" ["--get-selections"]]).
Proof.
  apply (getPackageCount_counts_segments
           (Worlds.linux_host_listing ("a" ++ nl ++ "b" ++ nl ++ "c" ++ nl))
           [] [HostInfo] (Some Worlds.ubuntu) tool_A
           ("a" ++ nl ++ "b" ++ nl ++ "c" ++ nl));
    reflexivity.
Defined.

Ltac table_row :=
  cbn [orb]; cbv iota; unfold ret; cbn [fst snd];
  rewrite app_nil_r; reflexivity.

Lemma selectCommand_linux (w : World) (info : InfoStat) (t : list event) :
  runtime_GOOS w = "linux" ->
  selectCommand w (Some info) t
    = (Ret (snd (selection w (Platform info))),
       (t ++ fst (selection w (Platform info)))%list).
Proof.
  intros Hos. unfold selectCommand. rewrite Hos.
  change ("linux" =? "linux")%string with true. cbv iota.
  unfold lift, deref, mbind at 1.
  unfold selection, distribution_table, lookup.
  destruct (Platform info =? "debian")%string; [table_row|].
  destruct (Platform info =? "ubuntu")%string; [table_row|].
  destruct (Platform info =? "arch")%string; [table_row|].
  destruct (Platform info =? "fedora")%string; [table_row|].
  destruct (Platform info =? "centos")%string; [table_row|].
  destruct (Platform info =? "rhel")%string; [table_row|].
  cbn [orb]. cbv iota.
  unfold probe_order, first_found, on_search_path, tool_A, tool_B,
    tool_C, call_LookPath, mbind, emit, ret. cbn [Cmd_name].
  destruct (exec_LookPath w "dpkg") as [p1 [e1|]]; cbn [fst snd];
    [|reflexivity].
  destruct (exec_LookPath w "pacman") as [p2 [e2|]]; cbn [fst snd];
    [|now rewrite <- !app_assoc].
  destruct (exec_LookPath w "rpm") as [p3 [e3|]]; cbn [fst snd];
    now rewrite <- !app_assoc.
Qed.

(** C4.  On Linux, once the platform identity has been queried again,
    [getPackageCount] selects its command by the fixed table alone:
    debian and ubuntu give [dpkg --get-selections], arch gives
    [pacman -Q], fedora, centos and rhel give [rpm -qa]; any other
    identity probes the search path for dpkg, pacman and rpm in that
    order, runs the first one found, and fails with "unsupported Linux
    distribution" when there is none.  The trace shows the probes made
    and the command run. *)
Theorem getPackageCount_selects_by_table :
  forall (w : World) (t : list event) (info : InfoStat),
    runtime_GOOS w = "linux" ->
    host_Info w (count_HostInfo t) = (Some info, None) ->
    match selection w (Platform info) with
    | (probes, inl cmd) =>
        snd (getPackageCount w t)
          = (t ++ [HostInfo] ++ probes ++ [Exec (Cmd_name cmd) (Cmd_args cmd)])%list
    | (probes, inr _) =>
        getPackageCount w t
          = (Ret (0, Some "unsupported Linux distribution"),
             (t ++ [HostInfo] ++ probes)%list)
    end
    /\ (In (Platform info) ["debian"; "ubuntu"] ->
        selection w (Platform info) = ([], inl tool_A))
    /\ (Platform info = "arch" -> selection w (Platform info) = ([], inl tool_B))
    /\ (In (Platform info) ["fedora"; "centos"; "rhel"] ->
        selection w (Platform info) = ([], inl tool_C))
    /\ (~ In (Platform info) (map fst distribution_table) ->
        selection w (Platform info)
          = if on_search_path w "dpkg" then ([Probe "dpkg"], inl tool_A)
            else if on_search_path w "pacman" then
              ([Probe "dpkg"; Probe "pacman"], inl tool_B)
            else if on_search_path w "rpm" then
              ([Probe "dpkg"; Probe "pacman"; Probe "rpm"], inl tool_C)
            else ([Probe "dpkg"; Probe "pacman"; Probe "rpm"],
                  inr (0, Some "unsupported Linux distribution"))).
Proof.
  intros w t info Hos Hinfo.
  split; [|split; [|split; [|split]]].
  - unfold getPackageCount, mbind, call_host_Info. rewrite Hinfo.
    rewrite (selectCommand_linux w info _ Hos).
    destruct (selection w (Platform info)) as [probes [cmd|early]] eqn:E;
      cbn [fst snd].
    + unfold call_Output, mbind, emit, ret.
      destruct (Cmd_Output w cmd) as [out [e|]]; cbn;
        now rewrite <- !app_assoc.
    + unfold ret. rewrite <- app_assoc.
      unfold selection in E.
      destruct (lookup _ _); [discriminate|].
      destruct (first_found _ _) as [pr [c|]]; [discriminate|].
      now inversion E.
  - intros [<-|[<-|[]]]; reflexivity.
  - intros ->; reflexivity.
  - intros [<-|[<-|[<-|[]]]]; reflexivity.
  - intros Hnot. unfold selection.
    assert (Hl : lookup (Platform info) distribution_table = None).
    { unfold distribution_table, lookup.
      repeat match goal with
      | |- context [(Platform info =? ?n)%string] =>
          destruct (String.eqb_spec (Platform info) n) as [Heq|_];
          [exfalso; apply Hnot; rewrite Heq; cbn; tauto|]
      end. reflexivity. }
    rewrite Hl. unfold probe_order, first_found, tool_A, tool_B, tool_C.
    cbn [Cmd_name].
    destruct (on_search_path w "dpkg"); [reflexivity|].
    destruct (on_search_path w "pacman"); [reflexivity|].
    destruct (on_search_path w "rpm"); reflexivity.
Qed.

Lemma getPackageCount_selects_by_table_witness :
  runtime_GOOS Worlds.linux_host = "linux"
  /\ snd (getPackageCount Worlds.linux_host [])
     = [HostInfo; Exec "dpkg" ["--get-selections"]].
Proof.
  split; [reflexivity|].
  apply (getPackageCount_selects_by_table Worlds.linux_host [] Worlds.ubuntu);
    reflexivity.
Defined.

(** The ways in which [getPackageCount] fails: at once when its own
    query of the host fails, on another operating system, and when the
    command fails. *)
Lemma getPackageCount_failures (w : World) (t : list event) :
  (forall info e,
      host_Info w (count_HostInfo t) = (info, Some e) ->
      getPackageCount w t = (Ret (0, Some e), (t ++ [HostInfo])%list))
  /\ (forall info,
        host_Info w (count_HostInfo t) = (info, None) ->
        (runtime_GOOS w =? "linux")%string = false ->
        getPackageCount w t
        = (Ret (0, Some "Unsupported OS for package counting"),
           (t ++ [HostInfo])%list))
  /\ (forall info cmd t' out e,
        host_Info w (count_HostInfo t) = (info, None) ->
        selectCommand w info (t ++ [HostInfo])%list = (Ret (inl cmd), t') ->
        Cmd_Output w cmd = (out, Some e) ->
        fst (getPackageCount w t) = Ret (0, Some e)).
Proof.
  split; [|split].
  - intros info e H. unfold getPackageCount, mbind, call_host_Info.
    now rewrite H.
  - intros info H Hos. unfold getPackageCount, mbind, call_host_Info.
    rewrite H. unfold selectCommand. rewrite Hos. reflexivity.
  - intros info cmd t' out e H Hsel Hout.
    unfold getPackageCount, mbind, call_host_Info. rewrite H, Hsel.
    unfold call_Output, mbind, emit, ret. now rewrite Hout.
Qed.

(** ** The run of [main] *)

Lemma selectCommand_early (w : World) (info : option InfoStat)
    (t t' : list event) (z : Z) (e : error) :
  selectCommand w info t = (Ret (inr (z, e)), t') -> z = 0 /\ e <> None.
Proof.
  unfold selectCommand.
  destruct (runtime_GOOS w =? "linux")%string;
    [|unfold ret; intros H; inversion H; split; [reflexivity|discriminate]].
  unfold lift, mbind, deref.
  destruct info as [info|]; [|intros H; inversion H].
  repeat match goal with
  | |- context [if ?b then _ else _] =>
      destruct b; [unfold ret; intros H; inversion H|]
  end.
  unfold call_LookPath, mbind, emit, ret.
  destruct (exec_LookPath w "dpkg") as [p1 [e1|]];
    [|intros H; inversion H].
  destruct (exec_LookPath w "pacman") as [p2 [e2|]];
    [|intros H; inversion H].
  destruct (exec_LookPath w "rpm") as [p3 [e3|]];
    intros H; inversion H; split; [reflexivity|discriminate].
Qed.

Lemma count_byte_nonneg (c : ascii) (s : string) : 0 <= count_byte c s.
Proof.
  induction s as [|c' s IH]; simpl; [lia|].
  destruct (Ascii.eqb c' c); lia.
Qed.

Lemma getPackageCount_nonneg (w : World) (t t' : list event) (n : Z) :
  getPackageCount w t = (Ret (n, None), t') -> 0 <= n.
Proof.
  unfold getPackageCount, mbind, call_host_Info.
  destruct (host_Info w (count_HostInfo t)) as [info [e|]];
    [unfold ret; intros H; inversion H|].
  destruct (selectCommand w info _) as [[[cmd|[z e]]|msg] t1] eqn:Hsel;
    [| |intros H; inversion H].
  - unfold call_Output, mbind, emit, ret.
    destruct (Cmd_Output w cmd) as [out [e|]]; intros H; inversion H; subst.
    rewrite Split_length. pose proof (count_byte_nonneg newline out). lia.
  - unfold ret. intros H. inversion H; subst.
    apply selectCommand_early in Hsel. lia.
Qed.

Lemma maxLabelLength_rows w oi used total gpu packages :
  maxLabelLength (rows w oi used total gpu packages) = 8.
Proof. reflexivity. Qed.

(** When the host and memory records are there and the graphics query
    does not panic, [main] runs to its end and prints the header, the
    nine rows and the colour blocks. *)
Lemma main_run (w : World) (oi : InfoStat) (e1 : error)
    (mi : VirtualMemoryStat) (e2 : error) (pc : Z) (pe : error)
    (t1 : list event) (g : string) (ge : error) (used total : string) :
  host_Info w 0%nat = (Some oi, e1) ->
  mem_VirtualMemory w = (Some mi, e2) ->
  getPackageCount w [HostInfo] = (Ret (pc, pe), t1) ->
  getGPUInfo w = Ret (g, ge) ->
  formatBytes (Used mi) = Ret used ->
  formatBytes (Total mi) = Ret total ->
  let info :=
    rows w oi used total (match ge with Some _ => "None" | None => g end)
         (packages_text pc pe ge) in
  main w []
    = (Ret tt,
       (t1 ++ [Stdout (header (os_Getenv w "USER") (fst (os_Hostname w)))]
           ++ map Stdout (map (row_line 8) info)
           ++ map Stdout (map (termenv_block w) palette)
           ++ [Stdout nl])%list).
Proof.
  intros Hoi Hmi Hpc Hg Hu Ht info.
  unfold main.
  destruct (os_Hostname w) as [hostname he] eqn:Hh.
  unfold mbind at 1. unfold call_host_Info. cbn [count_HostInfo app].
  rewrite Hoi, Hmi.
  destruct (getCPUInfo w) as [[cpuModel cores] speed] eqn:Hcpu.
  unfold mbind at 1. rewrite Hpc.
  unfold mbind at 1, lift at 1. rewrite Hg.
  unfold mbind at 1, Printf at 1, emit at 1.
  unfold mbind at 1, lift at 1.
  assert (Hb : build_info w hostname (Some oi) (Some mi) cpuModel cores speed
                 (match ge with Some _ => "None" | None => g end)
                 (match pe with Some _ => -1 | None => pc end) ge = Ret info).
  { unfold build_info. cbn [deref bind]. rewrite Hu, Ht. cbn [bind].
    unfold info, rows, packages_text. rewrite Hh, Hcpu. cbn [fst snd].
    destruct pe as [e|].
    - reflexivity.
    - apply getPackageCount_nonneg in Hpc.
      destruct (pc >=? 0) eqn:E; [reflexivity|lia]. }
  rewrite Hb.
  unfold mbind at 1, present. rewrite print_each_trace.
  unfold printColorBlocks, mbind, Printf, emit. rewrite print_each_trace.
  unfold info at 1. rewrite maxLabelLength_rows.
  cbn [fst]. now rewrite <- !app_assoc.
Qed.

Lemma rows_labels w oi used total gpu packages :
  map label (rows w oi used total gpu packages) = labels.
Proof. reflexivity. Qed.

(** The fallbacks of the facts whose failure [main] survives: an empty
    host name, an unknown CPU at 0.00 GHz, and no GPU. *)
Lemma getCPUInfo_fallback (w : World) (e : string) (l : list CPUInfoStat) :
  cpu_Info w = (l, Some e) \/ cpu_Info w = ([], None) ->
  getCPUInfo w = ("Unknown", runtime_NumCPU w, S754_zero false)
  /\ fmt_f 2 (snd (getCPUInfo w)) = "0.00".
Proof.
  intros [H|H]; unfold getCPUInfo; rewrite H; split; reflexivity.
Qed.

Lemma getGPUInfo_fallback (w : World) :
  (forall g e, ghw_GPU w = (g, Some e) -> getGPUInfo w = Ret ("", Some e))
  /\ (forall e, ghw_GPU w = (Some {| GraphicsCards := [] |}, e) ->
      match e with
      | Some _ => getGPUInfo w = Ret ("", e)
      | None => getGPUInfo w = Ret ("None", None)
      end).
Proof.
  split.
  - intros g e H. unfold getGPUInfo. now rewrite H.
  - intros [e|] H; unfold getGPUInfo; now rewrite H.
Qed.

(** The earlier variant on the sample host: the Shell line holds the
    value of SHELL as it is, and the lines are padded to the longest
    whole line. *)
Lemma Legacy_main_sample :
  In (Stdout (Legacy.box_line 33 "Shell: /bin/bash"))
     (snd (Legacy.main Worlds.linux_host []))
  /\ In (Stdout (Legacy.box_line 33 "CPU: TestCPU (4 cores @ 2.50 GHz)"))
        (snd (Legacy.main Worlds.linux_host []))
  /\ Legacy.maxLength ["Shell: /bin/bash"; "CPU: TestCPU (4 cores @ 2.50 GHz)"]
     = 33.
Proof. split; [|split]; [vm_compute; tauto|vm_compute; tauto|reflexivity]. Qed.

(** C5.  The claim fails for [getGPUInfo]: on a first graphics card without a
    device record the guard on [DeviceInfo] falls through to the branch
    that reads [DeviceInfo.Vendor], the program panics, and nothing has
    been written to the standard output. *)
Theorem getGPUInfo_panics_on_bare_card :
  getGPUInfo Worlds.bare_card_host = Panic nil_dereference
  /\ fst (main Worlds.bare_card_host []) = Panic nil_dereference
  /\ stdout (snd (main Worlds.bare_card_host [])) = "".
Proof. repeat split; reflexivity. Qed.

(** C7.  On a host where the packages cannot be counted and the
    graphics query succeeds, [getPackageCount] returns its error, the
    count becomes the sentinel, and the Packages row shows the error
    variable as the graphics query left it, nil, instead of the error
    of the package counter.  The earlier variant shows the error of the
    package counter. *)
Theorem main_packages_row_shows_later_error :
  getPackageCount Worlds.darwin_host [HostInfo]
    = (Ret (0, Some "Unsupported OS for package counting"), [HostInfo; HostInfo])
  /\ fst (main Worlds.darwin_host []) = Ret tt
  /\ In (Stdout (row_line 8 (Item "Packages" "Unable to determine (%!s(<nil>))")))
        (snd (main Worlds.darwin_host []))
  /\ In (Stdout (Legacy.box_line 69
           "Installed Packages: Unable to determine (Unsupported OS for package counting)"))
        (snd (Legacy.main Worlds.darwin_host [])).
Proof.
  split; [reflexivity|]. split; [reflexivity|].
  split; vm_compute; tauto.
Qed.

(** C8.  On a host where [host.Info] fails with no record, [main],
    which discards that error, prints the header and panics on the
    first field of the record: no row is printed. *)
Theorem main_prints_no_row_without_host_info :
  main Worlds.no_host_info []
    = (Panic nil_dereference,
       [HostInfo; HostInfo; Stdout (header "alice" "box")]).
Proof. reflexivity. Qed.

(** ** The presenter *)

Lemma fold_right_max_base (l : list Z) (x m : Z) :
  fold_right Z.max (Z.max x m) l = Z.max x (fold_right Z.max m l).
Proof. induction l as [|y l IH]; simpl; [reflexivity|]. rewrite IH. lia. Qed.

Lemma maxLabelLength_fold (info : list item) (m : Z) :
  fold_left (fun m it => if len (label it) >? m then len (label it) else m)
            info m
  = fold_right Z.max m (map (fun it => len (label it)) info).
Proof.
  revert m; induction info as [|it info IH]; intros m; simpl; [reflexivity|].
  rewrite IH, <- fold_right_max_base. f_equal.
  destruct (Z.gtb_spec (len (label it)) m); lia.
Qed.

Lemma maxLabelLength_longest (info : list item) :
  maxLabelLength info = longest_label info.
Proof. apply maxLabelLength_fold. Qed.

Lemma longest_label_bound (info : list item) (it : item) :
  In it info -> len (label it) <= longest_label info.
Proof.
  unfold longest_label.
  induction info as [|x l IH]; simpl; [tauto|].
  intros [->|Hin]; [lia|]. specialize (IH Hin). lia.
Qed.

Lemma length_spaces (n : nat) : String.length (spaces n) = n.
Proof. induction n as [|n IH]; simpl; [reflexivity|now rewrite IH]. Qed.

Lemma tooLarge_small (x : Z) :
  -1000000 <= x <= 1000000 -> tooLarge x = false.
Proof.
  intros Hx. unfold tooLarge. apply orb_false_iff. split.
  - rewrite Z.gtb_ltb. apply Z.ltb_ge. lia.
  - apply Z.ltb_ge. lia.
Qed.

(** C9, as the full program has it.  The presenter takes the alignment
    width as the greatest byte length over the labels of the rows,
    whatever their values, and prints every row as its coloured label,
    the spaces that fill the label up to that one width, a space and
    the coloured value.  The labels are at most a million bytes long,
    the greatest width that [fmt] takes from an argument; those of
    [main] have at most eight. *)
Theorem present_aligns_on_labels :
  forall (info : list item) (t : list event),
    longest_label info <= 1000000 ->
    present info t
      = (Ret tt,
         (t ++ map (fun it =>
                 Stdout (colourise (label it) category
                           ++ spaces (Z.to_nat (longest_label info - len (label it)))
                           ++ " " ++ colourise (value it) text ++ nl))
               info)%list)
    /\ maxLabelLength info = longest_label info
    /\ Forall (fun it =>
         len (label it)
           + len (spaces (Z.to_nat (longest_label info - len (label it))))
         = longest_label info) info
    /\ longest_label info
       = longest_label (map (fun it => Item (label it) "") info).
Proof.
  intros info t Hcap. split; [|split; [|split]].
  - unfold present. rewrite print_each_trace, map_map. f_equal. f_equal.
    apply map_ext_in. intros it Hin. unfold row_line.
    rewrite maxLabelLength_longest.
    pose proof (longest_label_bound info it Hin).
    assert (Hlen : 0 <= len (label it)) by (unfold len; lia).
    rewrite tooLarge_small by lia. now rewrite Z.abs_eq by lia.
  - apply maxLabelLength_longest.
  - apply Forall_forall. intros it Hin. unfold len at 2.
    rewrite length_spaces.
    pose proof (longest_label_bound info it Hin). lia.
  - unfold longest_label. now rewrite map_map.
Qed.

Lemma present_aligns_on_labels_witness :
  longest_label [Item "OS" "ubuntu 22.04"; Item "Kernel" "5.15.0"] <= 1000000
  /\ present [Item "OS" "ubuntu 22.04"; Item "Kernel" "5.15.0"] []
     = (Ret tt,
        [Stdout (esc ++ "[95mOS" ++ esc ++ "[0m" ++ "    " ++ " "
                   ++ esc ++ "[34mubuntu 22.04" ++ esc ++ "[0m" ++ nl);
         Stdout (esc ++ "[95mKernel" ++ esc ++ "[0m" ++ "" ++ " "
                   ++ esc ++ "[34m5.15.0" ++ esc ++ "[0m" ++ nl)]).
Proof.
  assert (H : longest_label [Item "OS" "ubuntu 22.04"; Item "Kernel" "5.15.0"]
              <= 1000000) by (vm_compute; discriminate).
  split; [exact H|].
  exact (proj1 (present_aligns_on_labels
                  [Item "OS" "ubuntu 22.04"; Item "Kernel" "5.15.0"] [] H)).
Defined.

(** C9 fails as it is written for [go-fetch.go]: on the sample host
    the lines of the box are padded to 33 bytes, the length of the
    whole CPU line, label and value together.  The Hostname line gets
    its 20 spaces after the value, not after the label, and the
    longest label, "Installed Packages", has 18 bytes. *)
Lemma Legacy_pads_whole_lines :
  nth_error (snd (Legacy.main Worlds.linux_host [])) 6
    = Some (Stdout ("| Hostname: box                     |" ++ nl))
  /\ nth_error (snd (Legacy.main Worlds.linux_host [])) 11
     = Some (Stdout ("| CPU: TestCPU (4 cores @ 2.50 GHz) |" ++ nl))
  /\ nth_error (snd (Legacy.main Worlds.linux_host [])) 13
     = Some (Stdout ("| Installed Packages: 2             |" ++ nl))
  /\ len "CPU: TestCPU (4 cores @ 2.50 GHz)" = 33
  /\ len "Hostname: box" + 20 = 33
  /\ len "Installed Packages" = 18.
Proof. repeat split; vm_compute; reflexivity. Qed.

(** ** The shell row *)

Lemma takeWhile_dropWhile {A : Type} (f : A -> bool) (l : list A) :
  (takeWhile f l ++ dropWhile f l)%list = l.
Proof.
  induction l as [|x l IH]; simpl; [reflexivity|].
  destruct (f x); simpl; [now rewrite IH|reflexivity].
Qed.

Lemma takeWhile_all {A : Type} (f : A -> bool) (l : list A) :
  forallb f (takeWhile f l) = true.
Proof.
  induction l as [|x l IH]; simpl; [reflexivity|].
  destruct (f x) eqn:E; simpl; [now rewrite E|reflexivity].
Qed.

Lemma dropWhile_head {A : Type} (f : A -> bool) (l : list A) :
  dropWhile f l = [] \/ exists x l', dropWhile f l = x :: l' /\ f x = false.
Proof.
  induction l as [|x l IH]; simpl; [now left|].
  destruct (f x) eqn:E; [exact IH|]. right. now exists x, l.
Qed.

Lemma forallb_rev {A : Type} (f : A -> bool) (l : list A) :
  forallb f (rev l) = forallb f l.
Proof.
  induction l as [|x l IH]; simpl; [reflexivity|].
  rewrite forallb_app, IH. simpl. rewrite andb_true_r. apply andb_comm.
Qed.

Lemma string_of_list_ascii_app (l1 l2 : list ascii) :
  string_of_list_ascii (l1 ++ l2)
  = string_of_list_ascii l1 ++ string_of_list_ascii l2.
Proof. induction l1 as [|c l1 IH]; simpl; [reflexivity|now rewrite IH]. Qed.

Lemma length_list_ascii (s : string) :
  List.length (list_ascii_of_string s) = String.length s.
Proof. induction s as [|c s IH]; simpl; [reflexivity|now rewrite IH]. Qed.

Lemma dropWhile_none {A : Type} (f : A -> bool) (l : list A) :
  forallb (fun x => negb (f x)) l = true -> dropWhile f l = l.
Proof.
  destruct l as [|x l]; [reflexivity|]. simpl. intros H.
  apply andb_true_iff in H as [H _]. apply negb_true_iff in H.
  now rewrite H.
Qed.

Lemma takeWhile_whole {A : Type} (f : A -> bool) (l : list A) :
  forallb f l = true -> takeWhile f l = l.
Proof.
  induction l as [|x l IH]; [reflexivity|]. simpl. intros H.
  apply andb_true_iff in H as [Hx H]. now rewrite Hx, IH.
Qed.

Lemma list_ascii_of_string_app (s1 s2 : string) :
  list_ascii_of_string (s1 ++ s2)
  = (list_ascii_of_string s1 ++ list_ascii_of_string s2)%list.
Proof. induction s1 as [|c s1 IH]; simpl; [reflexivity|now rewrite IH]. Qed.

Lemma dropWhile_app_all {A : Type} (f : A -> bool) (l1 l2 : list A) :
  forallb f l1 = true -> dropWhile f (l1 ++ l2) = dropWhile f l2.
Proof.
  induction l1 as [|x l1 IH]; [reflexivity|]. simpl. intros H.
  apply andb_true_iff in H as [Hx H]. rewrite Hx. now apply IH.
Qed.

Lemma takeWhile_app_stop {A : Type} (f : A -> bool) (l1 l2 : list A) :
  forallb f l1 = true ->
  match l2 with [] => True | x :: _ => f x = false end ->
  takeWhile f (l1 ++ l2) = l1.
Proof.
  intros H1 H2. induction l1 as [|x l1 IH]; simpl.
  - destruct l2 as [|y l2]; [reflexivity|]. simpl. now rewrite H2.
  - simpl in H1. apply andb_true_iff in H1 as [Hx H1].
    now rewrite Hx, (IH H1).
Qed.

(** [filepath.Base] yields the final segment of the path: the path is
    a directory prefix, the segment, and trailing slashes. *)
Lemma Base_final_segment (path : string) :
  (path = "" -> Base path = ".")
  /\ (path <> "" -> all_slashes path -> Base path = "/")
  /\ (~ all_slashes path ->
      Base path <> "" /\ no_slash (Base path)
      /\ exists dir slashes,
           path = dir ++ Base path ++ slashes
           /\ directory_prefix dir /\ all_slashes slashes).
Proof.
  split; [intros ->; reflexivity|].
  unfold all_slashes, no_slash, directory_prefix, Base.
  set (l := list_ascii_of_string path).
  assert (Hpath : path = string_of_list_ascii l)
    by (unfold l; now rewrite string_of_list_ascii_of_string).
  pose proof (takeWhile_dropWhile isSlash (rev l)) as Hsplit1.
  pose proof (takeWhile_dropWhile (fun c => negb (isSlash c))
                (dropWhile isSlash (rev l))) as Hsplit2.
  set (S := takeWhile isSlash (rev l)) in *.
  set (R := dropWhile isSlash (rev l)) in *.
  set (B := takeWhile (fun c => negb (isSlash c)) R) in *.
  set (D := dropWhile (fun c => negb (isSlash c)) R) in *.
  assert (HS : forallb isSlash S = true) by apply takeWhile_all.
  assert (HB : forallb (fun c => negb (isSlash c)) B = true)
    by apply takeWhile_all.
  assert (Hl : l = (rev D ++ rev B ++ rev S)%list).
  { rewrite <- (rev_involutive l), <- Hsplit1, <- Hsplit2.
    now rewrite !rev_app_distr, app_assoc. }
  split.
  - intros Hne Hall. destruct path as [|c path]; [congruence|].
    fold l. rewrite <- forallb_rev in Hall.
    assert (HR : R = []).
    { destruct (dropWhile_head isSlash (rev l)) as [E|(x & l' & E & Hx)];
        [exact E|].
      fold R in E. rewrite <- Hsplit1, forallb_app, E in Hall. simpl in Hall.
      rewrite Hx in Hall. rewrite andb_false_r in Hall. discriminate. }
    unfold B. rewrite HR. reflexivity.
  - intros Hnot.
    assert (HBne : B <> []).
    { intros HB0. apply Hnot. rewrite <- forallb_rev. fold l.
      rewrite <- Hsplit1, forallb_app, HS. simpl.
      destruct (dropWhile_head isSlash (rev l)) as [E|(x & l' & E & Hx)];
        fold R in E; [now rewrite E|].
      unfold B in HB0. rewrite E in HB0. simpl in HB0.
      rewrite Hx in HB0. discriminate. }
    assert (Hbase : match path with
                    | "" => "."
                    | String _ _ =>
                        match rev B with
                        | [] => "/"
                        | _ :: _ => string_of_list_ascii (rev B)
                        end
                    end = string_of_list_ascii (rev B)).
    { destruct path as [|c path].
      - exfalso. apply Hnot. reflexivity.
      - destruct (rev B) as [|b B'] eqn:E; [|reflexivity].
        apply (f_equal (@rev ascii)) in E. rewrite rev_involutive in E.
        now apply HBne in E. }
    rewrite Hbase. split; [|split].
    + destruct (rev B) as [|b B'] eqn:E; [|discriminate].
      apply (f_equal (@rev ascii)) in E. rewrite rev_involutive in E.
      now apply HBne in E.
    + rewrite list_ascii_of_string_of_list_ascii, forallb_rev. exact HB.
    + exists (string_of_list_ascii (rev D)), (string_of_list_ascii (rev S)).
      split; [|split].
      * rewrite Hpath, Hl. now rewrite !string_of_list_ascii_app.
      * destruct (dropWhile_head (fun c => negb (isSlash c)) R)
          as [E|(x & l' & E & Hx)]; fold D in E; rewrite E.
        -- now left.
        -- right. exists (string_of_list_ascii (rev l')).
           simpl rev. rewrite string_of_list_ascii_app. simpl.
           apply negb_false_iff in Hx. unfold isSlash in Hx.
           apply Ascii.eqb_eq in Hx. now subst x.
      * rewrite list_ascii_of_string_of_list_ascii, forallb_rev. exact HS.
Qed.

(** The final segment is the one there is: a path made of a
    directory part, a name without a slash and trailing slashes has
    that name as its base. *)
Lemma Base_unique_segment (path dir name slashes : string) :
  path = dir ++ name ++ slashes -> directory_prefix dir ->
  name <> "" -> no_slash name -> all_slashes slashes ->
  Base path = name.
Proof.
  unfold directory_prefix, no_slash, all_slashes.
  intros -> Hdir Hne Hno Hsl. unfold Base.
  destruct (dir ++ name ++ slashes) as [|c0 s0] eqn:E.
  { apply (f_equal String.length) in E. rewrite !length_append in E.
    destruct name; [congruence|simpl in E; lia]. }
  rewrite <- E. clear E c0 s0.
  rewrite !list_ascii_of_string_app, !rev_app_distr, <- app_assoc.
  set (ln := list_ascii_of_string name) in *.
  assert (Hln : ln <> [])
    by (unfold ln; destruct name; [congruence|discriminate]).
  assert (Hrn : forallb (fun c => negb (isSlash c)) (rev ln) = true)
    by now rewrite forallb_rev.
  rewrite dropWhile_app_all by now rewrite forallb_rev.
  assert (Ed : dropWhile isSlash (rev ln ++ rev (list_ascii_of_string dir))
               = (rev ln ++ rev (list_ascii_of_string dir))%list).
  { destruct (rev ln) as [|x r] eqn:Er.
    - apply (f_equal (@rev ascii)) in Er. rewrite rev_involutive in Er.
      simpl in Er. congruence.
    - simpl in *. apply andb_true_iff in Hrn as [Hx _].
      apply negb_true_iff in Hx. now rewrite Hx. }
  rewrite Ed, takeWhile_app_stop, rev_involutive.
  - destruct ln as [|c l] eqn:El; [congruence|]. rewrite <- El. unfold ln.
    apply string_of_list_ascii_of_string.
  - exact Hrn.
  - destruct Hdir as [->|[d ->]]; [exact I|].
    rewrite list_ascii_of_string_app, rev_app_distr. reflexivity.
Qed.

(** C10, as the full program has it.  In every run of [main] that
    reaches the rows, the Shell row is the coloured label, the three
    spaces that fill it up to the width 8, a space and, coloured, the
    base name of the value of SHELL.  The base name is the final path
    segment: when the value holds a name, that is a text without a
    slash that follows the start or a slash and is followed by
    slashes only, the base name is that name and nothing else; it is
    "." for the empty value and "/" for slashes alone.
    SHELL=/bin/bash gives bash, and so does SHELL=/bin/bash/. *)
Theorem shell_row_is_basename :
  forall (w : World) (oi : InfoStat) (e1 : error)
         (mi : VirtualMemoryStat) (e2 : error) (pc : Z) (pe : error)
         (t1 : list event) (g : string) (ge : error) (used total : string),
    host_Info w 0%nat = (Some oi, e1) ->
    mem_VirtualMemory w = (Some mi, e2) ->
    getPackageCount w [HostInfo] = (Ret (pc, pe), t1) ->
    getGPUInfo w = Ret (g, ge) ->
    formatBytes (Used mi) = Ret used ->
    formatBytes (Total mi) = Ret total ->
    nth_error (snd (main w [])) (List.length t1 + 5)
      = Some (Stdout (esc ++ "[95m" ++ "Shell" ++ esc ++ "[0m" ++ "   " ++ " "
                        ++ esc ++ "[34m" ++ Base (os_Getenv w "SHELL")
                        ++ esc ++ "[0m" ++ nl))
    /\ (forall dir name slashes : string,
          os_Getenv w "SHELL" = dir ++ name ++ slashes ->
          directory_prefix dir -> name <> "" -> no_slash name ->
          all_slashes slashes ->
          Base (os_Getenv w "SHELL") = name)
    /\ (~ all_slashes (os_Getenv w "SHELL") ->
        Base (os_Getenv w "SHELL") <> ""
        /\ no_slash (Base (os_Getenv w "SHELL"))
        /\ exists dir slashes,
             os_Getenv w "SHELL" = dir ++ Base (os_Getenv w "SHELL") ++ slashes
             /\ directory_prefix dir /\ all_slashes slashes)
    /\ (os_Getenv w "SHELL" = "" -> Base (os_Getenv w "SHELL") = ".")
    /\ (os_Getenv w "SHELL" <> "" -> all_slashes (os_Getenv w "SHELL") ->
        Base (os_Getenv w "SHELL") = "/")
    /\ (os_Getenv w "SHELL" = "/bin/bash" -> Base (os_Getenv w "SHELL") = "bash")
    /\ (os_Getenv w "SHELL" = "/bin/bash/" -> Base (os_Getenv w "SHELL") = "bash").
Proof.
  intros w oi e1 mi e2 pc pe t1 g ge used total Hoi Hmi Hpc Hg Hu Ht.
  destruct (Base_final_segment (os_Getenv w "SHELL")) as (Hempty & Hsl & Hseg).
  split; [|split; [|split; [|split; [|split; [|split]]]]].
  - rewrite (main_run w oi e1 mi e2 pc pe t1 g ge used total Hoi Hmi Hpc Hg Hu Ht).
    cbn [snd]. rewrite nth_error_app2 by lia.
    replace (List.length t1 + 5 - List.length t1)%nat with 5%nat by lia.
    cbn [rows map nth_error]. unfold row_line, colourise, category, text, reset.
    cbn [label value]. rewrite !append_assoc. reflexivity.
  - intros dir name slashes E Hdir Hne Hno Hs.
    exact (Base_unique_segment _ dir name slashes E Hdir Hne Hno Hs).
  - exact Hseg.
  - exact Hempty.
  - exact Hsl.
  - intros ->. reflexivity.
  - intros ->. reflexivity.
Qed.

Lemma shell_row_is_basename_witness :
  os_Getenv Worlds.linux_host "SHELL" = "/bin/bash"
  /\ nth_error (snd (main Worlds.linux_host [])) 8
     = Some (Stdout (esc ++ "[95mShell" ++ esc ++ "[0m" ++ "    "
                       ++ esc ++ "[34mbash" ++ esc ++ "[0m" ++ nl)).
Proof.
  split; [reflexivity|].
  exact (proj1 (shell_row_is_basename Worlds.linux_host Worlds.ubuntu None
                  {| Total := 2147483648; Used := 1073741824 |} None 2 None
                  [HostInfo; HostInfo; Exec "dpkg" ["--get-selections"]]
                  "GeForce RTX 3080" None "1.0 GiB" "2.0 GiB"
                  eq_refl eq_refl eq_refl eq_refl eq_refl eq_refl)).
Defined.

(** C10 fails as it is written for [go-fetch.go]: with SHELL=/bin/bash
    its Shell line holds the value as it is, not the base name
    [bash]. *)
Lemma Legacy_prints_shell_unreduced :
  os_Getenv Worlds.linux_host "SHELL" = "/bin/bash"
  /\ nth_error (snd (Legacy.main Worlds.linux_host [])) 10
     = Some (Stdout ("| Shell: /bin/bash                  |" ++ nl))
  /\ Base "/bin/bash" = "bash"
  /\ ~ In (Stdout ("| Shell: bash                       |" ++ nl))
         (snd (Legacy.main Worlds.linux_host [])).
Proof.
  split; [reflexivity|]. split; [vm_compute; reflexivity|].
  split; [reflexivity|]. vm_compute. intuition discriminate.
Qed.

(** ** The GPU name cleaner *)

Lemma rep_greedy_sound (cls : ascii -> bool) (s : string) :
  forall (min pos : nat) (k : cursor -> option submatch) (m : submatch),
    rep_greedy cls min pos s k = Some m ->
    exists p rest,
      s = p ++ rest /\ every cls p = true /\ (min <= String.length p)%nat
      /\ k ((pos + String.length p)%nat, rest) = Some m.
Proof.
  induction s as [|c s IH]; intros min pos k m H.
  - simpl in H. destruct min; [|discriminate].
    exists "", "". rewrite Nat.add_0_r. auto.
  - simpl in H.
    assert (Hstop : match min with O => k (pos, String c s) | S _ => None end
                    = Some m ->
                    exists p rest,
                      String c s = p ++ rest /\ every cls p = true
                      /\ (min <= String.length p)%nat
                      /\ k ((pos + String.length p)%nat, rest) = Some m).
    { destruct min; [|discriminate]. intros Hk.
      exists "", (String c s). rewrite Nat.add_0_r. auto. }
    destruct (cls c) eqn:Hc; [|auto].
    destruct (rep_greedy cls (Nat.pred min) (S pos) s k) as [m'|] eqn:E; [|auto].
    inversion H; subst m'.
    destruct (IH _ _ _ _ E) as (p & rest & -> & Hp & Hmin & Hk).
    exists (String c p), rest. simpl. rewrite Hc, Hp.
    rewrite Nat.add_succ_r. repeat split; auto. lia.
Qed.

(** The greedy repetition takes the whole run of the class when the
    rest of the pattern matches after it. *)
Lemma rep_greedy_max (cls : ascii -> bool) (p rest : string) :
  forall (min pos : nat) (k : cursor -> option submatch) (m : submatch),
    every cls p = true -> (min <= String.length p)%nat ->
    match rest with "" => True | String x _ => cls x = false end ->
    k ((pos + String.length p)%nat, rest) = Some m ->
    rep_greedy cls min pos (p ++ rest) k = Some m.
Proof.
  induction p as [|c p IH]; intros min pos k m Hp Hmin Hrest Hk.
  - simpl in *. rewrite Nat.add_0_r in Hk.
    assert (min = 0%nat) by lia. subst min.
    destruct rest as [|x r]; simpl; [exact Hk|]. now rewrite Hrest.
  - simpl in *. apply andb_true_iff in Hp as [Hc Hp]. rewrite Hc.
    rewrite (IH (Nat.pred min) (S pos) k m); auto; [lia|].
    now rewrite Nat.add_succ_r in Hk.
Qed.

(** The greedy repetition gives back its last byte when the rest of
    the pattern needs it and cannot match at the end of the text. *)
Lemma rep_greedy_last (cls : ascii -> bool) (p : string) (x : ascii) :
  forall (min pos : nat) (k : cursor -> option submatch) (m : submatch),
    every cls p = true -> (min <= String.length p)%nat -> cls x = true ->
    (forall pos', k (pos', "") = None) ->
    k ((pos + String.length p)%nat, String x "") = Some m ->
    rep_greedy cls min pos (p ++ String x "") k = Some m.
Proof.
  induction p as [|c p IH]; intros min pos k m Hp Hmin Hx Hend Hk.
  - simpl in *. rewrite Nat.add_0_r in Hk.
    assert (min = 0%nat) by lia. subst min.
    rewrite Hx. simpl. now rewrite Hend.
  - simpl in *. apply andb_true_iff in Hp as [Hc Hp]. rewrite Hc.
    rewrite (IH (Nat.pred min) (S pos) k m); auto; [lia|].
    now rewrite Nat.add_succ_r in Hk.
Qed.

Lemma take_append (s1 s2 : string) : take (String.length s1) (s1 ++ s2) = s1.
Proof. induction s1 as [|c s1 IH]; simpl; [now destruct s2|now rewrite IH]. Qed.

Lemma take_all (s : string) : take (String.length s) s = s.
Proof. induction s as [|c s IH]; simpl; [reflexivity|now rewrite IH]. Qed.

Lemma space_not_upper_or_digit (x : ascii) :
  perl_space x = true -> upper_or_digit x = false.
Proof.
  destruct x as [[] [] [] [] [] [] [] []]; intros H;
    solve [reflexivity | discriminate H].
Qed.

Lemma search_anchored (s : string) (pos : nat) : search re (S pos) s = None.
Proof.
  revert pos; induction s as [|c s IH]; intros pos; simpl; [reflexivity|].
  apply IH.
Qed.

Lemma search_unfold (r : regexp) (pos : nat) (s : string) :
  search r pos s
  = match run r None (pos, s) (fun cap cur => Some (cap, cur)) with
    | Some m => Some ((pos, s), m)
    | None =>
        match s with
        | "" => None
        | String _ s' => search r (S pos) s'
        end
    end.
Proof. destruct s; reflexivity. Qed.

Lemma run_re_sound (s : string) (m : submatch) :
  run re None (0%nat, s) (fun cap cur => Some (cap, cur)) = Some m ->
  exists prefix ws c, bracketed s prefix ws c.
Proof.
  unfold re. cbn [run fst snd]. intros H.
  apply rep_greedy_sound in H as (p & rest1 & -> & Hp & Hmin & H).
  cbn [fst snd] in H.
  apply rep_greedy_sound in H as (ws & rest2 & -> & Hws & _ & H).
  cbn [fst snd] in H.
  destruct rest2 as [|b rest2]; [discriminate|].
  destruct (Ascii.eqb_spec b "["); [subst b|discriminate].
  apply rep_greedy_sound in H as (c & rest3 & -> & Hc & Hcmin & H).
  cbn [fst snd] in H.
  destruct rest3 as [|b rest3]; [discriminate|].
  destruct (Ascii.eqb_spec b "]"); [subst b|discriminate].
  destruct rest3; [|discriminate].
  exists p, ws, c. unfold bracketed. repeat split; auto.
  - intros ->. simpl in Hmin. lia.
  - intros ->. simpl in Hcmin. lia.
Qed.

Lemma run_re_complete (s prefix ws c : string) :
  bracketed s prefix ws c ->
  run re None (0%nat, s) (fun cap cur => Some (cap, cur))
  = Some (Some c, (String.length s, "")).
Proof.
  intros (-> & Hpne & Hp & Hws & Hcne & Hc).
  unfold re. cbn [run fst snd].
  assert (Hlen : forall x : string, x <> "" -> (1 <= String.length x)%nat).
  { intros [|a x] Hx; [congruence|simpl; lia]. }
  eapply rep_greedy_max; eauto.
  { destruct ws as [|x ws]; [reflexivity|]. simpl in Hws.
    apply andb_true_iff in Hws as [Hx _]. simpl.
    now apply space_not_upper_or_digit. }
  cbn [fst snd].
  eapply rep_greedy_max; eauto; [lia|reflexivity|].
  cbn [fst snd]. simpl append at 1. cbn iota.
  change ("[" =? "[")%char with true. cbv iota.
  eapply rep_greedy_last; eauto.
  cbn [fst snd]. change ("]" =? "]")%char with true. cbv iota.
  rewrite ?length_append. simpl String.length.
  rewrite ?length_append. simpl String.length.
  replace (S (0 + String.length prefix + String.length ws) + String.length c
           - S (0 + String.length prefix + String.length ws))%nat
    with (String.length c) by lia.
  rewrite take_append. do 3 f_equal. lia.
Qed.

(** [strings.TrimSpace] removes a run of white space at each end and
    leaves none there. *)
Lemma trimLeft_split (l : list ascii) :
  exists lead,
    l = (lead ++ trimLeft l)%list /\ space_run lead
    /\ space_first (trimLeft l) = false.
Proof.
  remember (List.length l) as n eqn:Hn. revert l Hn.
  induction n as [n IH] using lt_wf_ind. intros l Hn.
  destruct l as [|c s1]; [exists []; repeat split; constructor|].
  cbn [trimLeft].
  destruct (asciiSpace c) eqn:H1.
  { destruct (IH (List.length s1) ltac:(subst; simpl; lia) s1 eq_refl)
      as (lead & E & Hr & Hf).
    exists (c :: lead). simpl. rewrite <- E.
    repeat split; auto. now constructor. }
  destruct s1 as [|d s2].
  { exists []. repeat split; [constructor|]. simpl. exact H1. }
  destruct (space2 c d) eqn:H2.
  { destruct (IH (List.length s2) ltac:(subst; simpl; lia) s2 eq_refl)
      as (lead & E & Hr & Hf).
    exists (c :: d :: lead). simpl. rewrite <- E.
    repeat split; auto. now constructor. }
  destruct s2 as [|e s3].
  { exists []. repeat split; [constructor|]. simpl. now rewrite H1, H2. }
  destruct (space3 c d e) eqn:H3.
  { destruct (IH (List.length s3) ltac:(subst; simpl; lia) s3 eq_refl)
      as (lead & E & Hr & Hf).
    exists (c :: d :: e :: lead). simpl. rewrite <- E.
    repeat split; auto. now constructor. }
  exists []. repeat split; [constructor|]. simpl. now rewrite H1, H2, H3.
Qed.

Lemma space_run_app (l1 l2 : list ascii) :
  space_run l1 -> space_run l2 -> space_run (l1 ++ l2).
Proof.
  intros H1 H2. induction H1; simpl; auto; now constructor.
Qed.

Lemma trimRight_rev_split (r : list ascii) :
  exists trail,
    r = (rev trail ++ trimRight_rev r)%list /\ space_run trail
    /\ space_last (rev (trimRight_rev r)) = false.
Proof.
  unfold space_last.
  remember (List.length r) as n eqn:Hn. revert r Hn.
  induction n as [n IH] using lt_wf_ind. intros r Hn.
  destruct r as [|c s1]; [exists []; repeat split; constructor|].
  cbn [trimRight_rev].
  destruct (asciiSpace c) eqn:H1.
  { destruct (IH (List.length s1) ltac:(subst; simpl; lia) s1 eq_refl)
      as (trail & E & Hr & Hf).
    exists (trail ++ [c])%list. rewrite rev_app_distr. simpl. rewrite <- E.
    repeat split; auto. apply space_run_app; auto. repeat constructor; auto. }
  destruct s1 as [|d s2].
  { exists []. repeat split; [constructor|]. simpl. exact H1. }
  destruct (space2 d c) eqn:H2.
  { destruct (IH (List.length s2) ltac:(subst; simpl; lia) s2 eq_refl)
      as (trail & E & Hr & Hf).
    exists (trail ++ [d; c])%list. rewrite rev_app_distr. simpl. rewrite <- E.
    repeat split; auto. apply space_run_app; auto.
    apply space_run_2; [exact H2|constructor]. }
  destruct s2 as [|e s3].
  { exists []. repeat split; [constructor|].
    rewrite rev_involutive. now rewrite H1, H2. }
  destruct (space3 e d c) eqn:H3.
  { destruct (IH (List.length s3) ltac:(subst; simpl; lia) s3 eq_refl)
      as (trail & E & Hr & Hf).
    exists (trail ++ [e; d; c])%list. rewrite rev_app_distr. simpl.
    rewrite <- E. repeat split; auto. apply space_run_app; auto.
    apply space_run_3; [exact H3|constructor]. }
  exists []. repeat split; [constructor|].
  rewrite rev_involutive. now rewrite H1, H2, H3.
Qed.

Lemma space_first_prefix (a b : list ascii) :
  space_first (a ++ b) = false -> space_first a = false.
Proof.
  destruct a as [|c [|d [|e a]]]; simpl; auto.
  - destruct b as [|d [|e b]]; auto; intros H.
    + now apply orb_false_iff in H as [H _].
    + apply orb_false_iff in H as [H _].
      now apply orb_false_iff in H as [H _].
  - destruct b as [|e b]; auto; intros H.
    now apply orb_false_iff in H as [H _].
Qed.

Lemma TrimSpace_spec (s : string) :
  exists lead trail,
    list_ascii_of_string s
    = (lead ++ list_ascii_of_string (TrimSpace s) ++ trail)%list
    /\ space_run lead /\ space_run trail
    /\ space_first (list_ascii_of_string (TrimSpace s)) = false
    /\ space_last (list_ascii_of_string (TrimSpace s)) = false.
Proof.
  unfold TrimSpace. rewrite list_ascii_of_string_of_list_ascii.
  destruct (trimLeft_split (list_ascii_of_string s)) as (lead & E & Hl & Hf).
  destruct (trimRight_rev_split (rev (trimLeft (list_ascii_of_string s))))
    as (trail & Er & Ht & Hlast).
  set (L := trimLeft (list_ascii_of_string s)) in *.
  set (R := trimRight_rev (rev L)) in *.
  assert (EL : L = (rev R ++ trail)%list).
  { rewrite <- (rev_involutive L), Er, rev_app_distr, rev_involutive.
    reflexivity. }
  exists lead, trail. repeat split; auto.
  - now rewrite <- EL.
  - rewrite EL in Hf. now apply space_first_prefix in Hf.
Qed.

(** C6.  When the whole of the name matches the pattern, that is when
    it is a run of upper-case letters or digits, white space or none,
    and a bracketed text that is not empty, has no line feed and ends
    the name, [cleanGPUName] returns the bracketed text trimmed of the
    white space around it: the bracketed text is a run of white-space
    runes, the result, and a run of white-space runes, and the result
    neither starts nor ends with a white-space rune.  Otherwise it
    returns the name unchanged. *)
Theorem cleanGPUName_extracts_bracketed :
  (forall s prefix ws c : string,
      bracketed s prefix ws c ->
      cleanGPUName s = TrimSpace c
      /\ exists lead trail : list ascii,
           list_ascii_of_string c
           = (lead ++ list_ascii_of_string (cleanGPUName s) ++ trail)%list
           /\ space_run lead /\ space_run trail
           /\ space_first (list_ascii_of_string (cleanGPUName s)) = false
           /\ space_last (list_ascii_of_string (cleanGPUName s)) = false)
  /\ (forall s : string,
        (forall prefix ws c : string, ~ bracketed s prefix ws c) ->
        cleanGPUName s = s)
  /\ cleanGPUName "0300 [GeForce RTX 3080]" = "GeForce RTX 3080"
  /\ cleanGPUName "Intel HD Graphics" = "Intel HD Graphics"
  /\ cleanGPUName "AB12[Foo]" = "Foo"
  /\ cleanGPUName "AB12 [ Foo ]" = "Foo"
  /\ cleanGPUName ("0300" ++ String "009" "[" ++ String "009" " GeForce RTX 3080  ]")
     = "GeForce RTX 3080"
  /\ cleanGPUName "AB12[ ]" = "".
Proof.
  split; [|split; [|repeat split; reflexivity]].
  - intros s prefix ws c H.
    assert (E : cleanGPUName s = TrimSpace c).
    { unfold cleanGPUName, FindStringSubmatch.
      rewrite search_unfold, (run_re_complete _ _ _ _ H). reflexivity. }
    split; [exact E|]. rewrite E. apply TrimSpace_spec.
  - intros s Hno.
    unfold cleanGPUName, FindStringSubmatch.
    rewrite search_unfold.
    destruct (run re None (0%nat, s) (fun cap cur => Some (cap, cur)))
      as [m|] eqn:Er.
    + exfalso. apply run_re_sound in Er as (prefix & ws & c & H).
      exact (Hno _ _ _ H).
    + destruct s as [|a s]; [reflexivity|].
      now rewrite search_anchored.
Qed.

Lemma cleanGPUName_extracts_bracketed_witness :
  bracketed "AB12 [ Foo ]" "AB12" " " " Foo "
  /\ cleanGPUName "AB12 [ Foo ]" = "Foo"
  /\ exists lead trail : list ascii,
       list_ascii_of_string " Foo "
       = (lead ++ list_ascii_of_string (cleanGPUName "AB12 [ Foo ]") ++ trail)%list
       /\ space_run lead /\ space_run trail
       /\ space_first (list_ascii_of_string (cleanGPUName "AB12 [ Foo ]")) = false
       /\ space_last (list_ascii_of_string (cleanGPUName "AB12 [ Foo ]")) = false.
Proof.
  assert (H : bracketed "AB12 [ Foo ]" "AB12" " " " Foo ")
    by (unfold bracketed; repeat split; discriminate).
  split; [exact H|].
  destruct (proj1 cleanGPUName_extracts_bracketed _ _ _ _ H) as [E Hspec].
  split; [exact E|exact Hspec].
Defined.

(** ** float64 arithmetic *)

Lemma digits2_size (p : positive) : digits2_pos p = Pos.size p.
Proof. induction p; simpl; congruence. Qed.

Lemma Zdigits2_log2 (p : positive) : Zdigits2 (Zpos p) = Z.log2 (Zpos p) + 1.
Proof.
  unfold Zdigits2. rewrite digits2_size.
  destruct p; simpl; rewrite ?Pos2Z.inj_succ; lia.
Qed.

Lemma Zdigits2_pos (p : positive) : 0 < Zdigits2 (Zpos p).
Proof. cbn. lia. Qed.

(** [2 ^ a <= z < 2 ^ d] squeezes the exponents. *)
Lemma pow2_lt_exp (a d : Z) : 0 <= d -> 2 ^ a < 2 ^ d -> a < d.
Proof. intros Hd H. apply (Z.pow_lt_mono_r_iff 2); lia. Qed.

Lemma Zdigits2_bounds (p : positive) :
  2 ^ (Zdigits2 (Zpos p) - 1) <= Zpos p < 2 ^ Zdigits2 (Zpos p).
Proof.
  rewrite Zdigits2_log2.
  pose proof (Z.log2_spec (Zpos p) ltac:(lia)).
  replace (Z.log2 (Zpos p) + 1 - 1) with (Z.log2 (Zpos p)) by lia.
  replace (Z.log2 (Zpos p) + 1) with (Z.succ (Z.log2 (Zpos p))) by lia.
  exact H.
Qed.

Lemma Zdigits2_unique (p : positive) (d : Z) :
  1 <= d -> 2 ^ (d - 1) <= Zpos p < 2 ^ d -> Zdigits2 (Zpos p) = d.
Proof.
  intros Hd H. rewrite Zdigits2_log2.
  rewrite (Z.log2_unique (Zpos p) (d - 1)); [lia|lia|].
  replace (Z.succ (d - 1)) with d by lia. exact H.
Qed.

Lemma shr_1_ok (mrs : shr_record) (X D : Z) :
  0 <= shr_m mrs -> 0 < D ->
  loc_ok X D (shr_m mrs) (loc_of_shr_record mrs) ->
  loc_ok X (2 * D) (shr_m (shr_1 mrs)) (loc_of_shr_record (shr_1 mrs))
  /\ shr_m (shr_1 mrs) = shr_m mrs / 2.
Proof.
  destruct mrs as [m r s]. cbn [shr_m]. intros Hm HD H.
  destruct m as [|p|p]; [| |lia].
  - destruct r, s; cbn [shr_1 shr_m loc_of_shr_record loc_ok orb] in *;
      (split; [lia|reflexivity]).
  - destruct p as [p|p|].
    + assert (E : Z.pos p~1 / 2 = Z.pos p).
      { rewrite Pos2Z.inj_xI. symmetry. apply (Z.div_unique _ _ _ 1); lia. }
      destruct r, s; cbn [shr_1 shr_m loc_of_shr_record loc_ok orb] in *;
        (split; [rewrite Pos2Z.inj_xI in H; nia|now rewrite E]).
    + assert (E : Z.pos p~0 / 2 = Z.pos p).
      { rewrite Pos2Z.inj_xO. symmetry. apply (Z.div_unique _ _ _ 0); lia. }
      destruct r, s; cbn [shr_1 shr_m loc_of_shr_record loc_ok orb] in *;
        (split; [rewrite Pos2Z.inj_xO in H; nia|now rewrite E]).
    + destruct r, s; cbn [shr_1 shr_m loc_of_shr_record loc_ok orb] in *;
        (split; [nia|reflexivity]).
Qed.

Lemma iter_shr_ok (p : positive) :
  forall (mrs : shr_record) (X D : Z),
    0 <= shr_m mrs -> 0 < D ->
    loc_ok X D (shr_m mrs) (loc_of_shr_record mrs) ->
    loc_ok X (2 ^ Zpos p * D) (shr_m (iter_pos shr_1 p mrs))
           (loc_of_shr_record (iter_pos shr_1 p mrs))
    /\ shr_m (iter_pos shr_1 p mrs) = shr_m mrs / 2 ^ Zpos p.
Proof.
  induction p as [p IH|p IH|]; intros mrs X D Hm HD H; cbn [iter_pos].
  - destruct (shr_1_ok mrs X D Hm HD H) as [H1 E1].
    assert (Hm1 : 0 <= shr_m (shr_1 mrs))
      by (rewrite E1; apply Z.div_pos; lia).
    destruct (IH _ X (2 * D) Hm1 ltac:(lia) H1) as [H2 E2].
    assert (Hm2 : 0 <= shr_m (iter_pos shr_1 p (shr_1 mrs)))
      by (rewrite E2; apply Z.div_pos; [lia|apply Z.pow_pos_nonneg; lia]).
    assert (HP : 0 < 2 ^ Zpos p) by (apply Z.pow_pos_nonneg; lia).
    destruct (IH _ X (2 ^ Zpos p * (2 * D)) Hm2 ltac:(nia) H2) as [H3 E3].
    assert (Epow : 2 ^ Z.pos p~1 = 2 ^ Z.pos p * (2 ^ Z.pos p * 2)).
    { rewrite <- (Z.pow_1_r 2) at 4. rewrite <- !Z.pow_add_r by lia.
      f_equal. lia. }
    rewrite Epow. split.
    + replace (2 ^ Z.pos p * (2 ^ Z.pos p * 2) * D)
        with (2 ^ Z.pos p * (2 ^ Z.pos p * (2 * D))) by ring. exact H3.
    + rewrite E3, E2, E1, !Z.div_div by lia. f_equal. ring.
  - destruct (IH _ X D Hm HD H) as [H2 E2].
    assert (HP : 0 < 2 ^ Zpos p) by (apply Z.pow_pos_nonneg; lia).
    assert (Hm2 : 0 <= shr_m (iter_pos shr_1 p mrs))
      by (rewrite E2; apply Z.div_pos; lia).
    destruct (IH _ X (2 ^ Zpos p * D) Hm2 ltac:(nia) H2) as [H3 E3].
    assert (Epow : 2 ^ Z.pos p~0 = 2 ^ Z.pos p * 2 ^ Z.pos p).
    { rewrite <- !Z.pow_add_r by lia. f_equal. lia. }
    rewrite Epow. split.
    + replace (2 ^ Z.pos p * 2 ^ Z.pos p * D)
        with (2 ^ Z.pos p * (2 ^ Z.pos p * D)) by ring. exact H3.
    + rewrite E3, E2, !Z.div_div by lia. reflexivity.
  - apply shr_1_ok; assumption.
Qed.

Lemma round_nearest_even_ok (X D m : Z) (l : location) :
  0 < D -> loc_ok X D m l ->
  round_nearest_even m l = round_half_even X D.
Proof.
  intros HD H. unfold round_half_even.
  assert (Hq : forall r, X = D * m + r -> 0 <= r < D ->
                         X / D = m /\ X mod D = r).
  { intros r E Hr. split.
    - symmetry. apply (Z.div_unique X D m r); [lia|exact E].
    - symmetry. apply (Z.mod_unique X D m r); [lia|exact E]. }
  destruct l as [|[| |]]; cbn [loc_ok round_nearest_even] in *.
  - destruct (Hq 0 ltac:(lia) ltac:(lia)) as [-> ->].
    destruct (Z.compare_spec (2 * 0) D); try reflexivity; lia.
  - destruct (Hq (X - D * m) ltac:(lia) ltac:(nia)) as [-> ->].
    destruct (Z.compare_spec (2 * (X - D * m)) D); try reflexivity; nia.
  - destruct H as [H1 H2].
    destruct (Hq (X - D * m) ltac:(lia) ltac:(nia)) as [-> ->].
    destruct (Z.compare_spec (2 * (X - D * m)) D); try reflexivity; nia.
  - destruct H as [H1 H2].
    destruct (Hq (X - D * m) ltac:(lia) ltac:(nia)) as [-> ->].
    destruct (Z.compare_spec (2 * (X - D * m)) D); try reflexivity; nia.
Qed.

Lemma round_half_even_bounds (X D : Z) :
  0 < D -> X / D <= round_half_even X D <= X / D + 1.
Proof.
  intros HD. unfold round_half_even.
  destruct (2 * (X mod D) ?= D); [destruct (Z.even (X / D))| |]; lia.
Qed.

Lemma round_half_even_lower (X D a : Z) :
  0 < D -> a * D <= X -> a <= round_half_even X D.
Proof.
  intros HD H. pose proof (round_half_even_bounds X D HD).
  assert (a <= X / D) by (apply Z.div_le_lower_bound; lia). lia.
Qed.

Lemma round_half_even_upper (X D b : Z) :
  0 < D -> X <= b * D -> round_half_even X D <= b.
Proof.
  intros HD H. unfold round_half_even.
  pose proof (Z.div_mod X D ltac:(lia)).
  pose proof (Z.mod_pos_bound X D HD).
  assert (X / D <= b) by (apply Z.div_le_upper_bound; lia).
  destruct (Z.compare_spec (2 * (X mod D)) D);
    [destruct (Z.even (X / D))| |]; try lia; nia.
Qed.

Lemma round_half_even_exact (m D : Z) : 0 < D -> round_half_even (m * D) D = m.
Proof.
  intros HD. unfold round_half_even.
  rewrite Z.div_mul, Z.mod_mul by lia.
  destruct (Z.compare_spec (2 * 0) D); try reflexivity; lia.
Qed.

Lemma round_half_even_scale (X D c : Z) :
  0 < D -> 0 < c -> round_half_even (X * c) (D * c) = round_half_even X D.
Proof.
  intros HD Hc. unfold round_half_even.
  rewrite Z.div_mul_cancel_r by lia.
  rewrite Zmult_mod_distr_r.
  replace (2 * (X mod D * c)) with ((2 * (X mod D)) * c) by ring.
  rewrite <- Zmult_compare_compat_r by lia. reflexivity.
Qed.

Lemma shr_ok (mrs : shr_record) (e n X D : Z) :
  0 <= shr_m mrs -> 0 < D -> 0 <= n ->
  loc_ok X D (shr_m mrs) (loc_of_shr_record mrs) ->
  snd (shr mrs e n) = e + n
  /\ loc_ok X (2 ^ n * D) (shr_m (fst (shr mrs e n)))
            (loc_of_shr_record (fst (shr mrs e n)))
  /\ shr_m (fst (shr mrs e n)) = shr_m mrs / 2 ^ n.
Proof.
  intros Hm HD Hn H. destruct n as [|p|p]; [| |lia]; cbn [shr fst snd].
  - rewrite Z.pow_0_r, Z.mul_1_l, Z.div_1_r, Z.add_0_r. auto.
  - split; [reflexivity|]. now apply iter_shr_ok.
Qed.

Lemma shr_record_of_loc_m (m : Z) (l : location) :
  shr_m (shr_record_of_loc m l) = m.
Proof. destruct l as [|[| |]]; reflexivity. Qed.

Lemma loc_of_shr_record_of_loc (m : Z) (l : location) :
  loc_of_shr_record (shr_record_of_loc m l) = l.
Proof. destruct l as [|[| |]]; reflexivity. Qed.

Lemma round_nearest_even_range (m : Z) (l : location) :
  m <= round_nearest_even m l <= m + 1.
Proof.
  destruct l as [|[| |]]; cbn [round_nearest_even]; try lia.
  destruct (Z.even m); lia.
Qed.

Lemma fexp_normal (e : Z) : -1074 <= e - 53 -> fexp 53 1024 e = e - 53.
Proof. unfold fexp, emin. lia. Qed.

Lemma binary_round_aux_normal (sx : bool) (mx : positive) (ex : Z)
    (lx : location) (X D : Z) :
  0 < D -> loc_ok X D (Zpos mx) lx ->
  53 <= Zdigits2 (Zpos mx) ->
  -1074 <= Zdigits2 (Zpos mx) + ex - 53 ->
  Zdigits2 (Zpos mx) + ex <= 1023 ->
  exists m e,
    binary_round_aux 53 1024 sx (Zpos mx) ex lx = S754_finite sx m e
    /\ Zdigits2 (Zpos m) = 53
    /\ ex + (Zdigits2 (Zpos mx) - 53) <= e
    /\ Zpos m * 2 ^ (e - (ex + (Zdigits2 (Zpos mx) - 53)))
       = round_half_even X (2 ^ (Zdigits2 (Zpos mx) - 53) * D).
Proof.
  intros HD Hloc Hd Hlo Hhi.
  set (d := Zdigits2 (Zpos mx)) in *.
  set (n := d - 53) in *.
  pose proof (Zdigits2_bounds mx) as Hmx. fold d in Hmx.
  assert (HPn : 0 < 2 ^ n) by (apply Z.pow_pos_nonneg; lia).
  assert (Hd1 : 2 ^ (d - 1) = 2 ^ 52 * 2 ^ n)
    by (rewrite <- Z.pow_add_r by lia; f_equal; lia).
  assert (Hd2 : 2 ^ d = 2 ^ 53 * 2 ^ n)
    by (rewrite <- Z.pow_add_r by lia; f_equal; lia).
  unfold binary_round_aux.
  (* the first shift *)
  unfold shr_fexp at 1. fold d.
  rewrite fexp_normal by lia.
  replace (d + ex - 53 - ex) with n by lia.
  destruct (shr_ok (shr_record_of_loc (Zpos mx) lx) ex n X D) as (He1 & Hl1 & Hm1);
    rewrite ?shr_record_of_loc_m, ?loc_of_shr_record_of_loc; try lia; auto.
  rewrite shr_record_of_loc_m in Hm1.
  destruct (shr (shr_record_of_loc (Zpos mx) lx) ex n) as [mrs1 e1].
  cbn [fst snd] in He1, Hl1, Hm1. subst e1.
  assert (Hm1lo : 2 ^ 52 <= shr_m mrs1)
    by (rewrite Hm1; apply Z.div_le_lower_bound; lia).
  assert (Hm1hi : shr_m mrs1 < 2 ^ 53)
    by (rewrite Hm1; apply Z.div_lt_upper_bound; lia).
  (* the rounding *)
  pose proof (round_nearest_even_ok X (2 ^ n * D) _ _ ltac:(nia) Hl1) as Hr.
  pose proof (round_nearest_even_range (shr_m mrs1) (loc_of_shr_record mrs1)) as Hrange.
  set (m1 := round_nearest_even (shr_m mrs1) (loc_of_shr_record mrs1)) in *.
  destruct m1 as [|q|q] eqn:Eq1; [lia| |lia].
  (* the second shift *)
  unfold shr_fexp. cbn [shr_record_of_loc].
  assert (Hcase : Zpos q < 2 ^ 53 \/ Zpos q = 2 ^ 53) by lia.
  destruct Hcase as [Hlt|Heq].
  - assert (Hdq : Zdigits2 (Zpos q) = 53)
      by (apply Zdigits2_unique; [lia|change (53 - 1) with 52; lia]).
    rewrite Hdq, fexp_normal by lia.
    replace (53 + (ex + n) - 53 - (ex + n)) with 0 by lia.
    cbn [shr shr_m].
    replace (ex + n <=? 1024 - 53) with true by (symmetry; apply Z.leb_le; lia).
    exists q, (ex + n). repeat split; auto; [lia|].
    replace (ex + n - (ex + n)) with 0 by lia. rewrite <- Hr. lia.
  - assert (q = 9007199254740992%positive) by lia. subst q.
    change (Zdigits2 (Zpos 9007199254740992)) with 54.
    rewrite fexp_normal by lia.
    replace (54 + (ex + n) - 53 - (ex + n)) with 1 by lia.
    cbn [shr iter_pos shr_1 shr_m fst snd].
    replace (ex + n + 1 <=? 1024 - 53) with true by (symmetry; apply Z.leb_le; lia).
    exists 4503599627370496%positive, (ex + n + 1). repeat split; auto; [lia|].
    replace (ex + n + 1 - (ex + n)) with 1 by lia. rewrite <- Hr. reflexivity.
Qed.

Lemma iter_xO (p k : positive) : Zpos (Pos.iter xO p k) = Zpos p * 2 ^ Zpos k.
Proof.
  change (Pos.iter xO p k) with (shift_pos k p).
  rewrite shift_pos_correct, Z.pow_pos_fold. ring.
Qed.

Lemma div_eucl_pair (a b : Z) : Z.div_eucl a b = (a / b, a mod b).
Proof. unfold Z.div, Z.modulo. now destruct (Z.div_eucl a b). Qed.

Lemma new_location_ok (X D q r : Z) :
  0 < D -> 0 <= r < D -> X = q * D + r -> loc_ok X D q (new_location D r).
Proof.
  intros HD Hr ->. unfold new_location, new_location_even, new_location_odd.
  destruct (Z.even D) eqn:Ev.
  - destruct (Z.eqb_spec r 0); [subst; cbn; lia|].
    destruct (Z.compare_spec (2 * r) D); cbn [loc_ok]; lia.
  - destruct (Z.eqb_spec r 0); [subst; cbn; lia|].
    assert (Hodd : Z.odd D = true) by (rewrite <- Z.negb_even, Ev; reflexivity).
    apply Z.odd_spec in Hodd as [j Hj].
    destruct (Z.compare_spec (2 * r + 1) D); cbn [loc_ok]; lia.
Qed.

(** Division of positive normal floats. *)
Lemma SFdiv_normal (m1 : positive) (e1 : Z) (m2 : positive) (e2 : Z) :
  Zdigits2 (Zpos m1) = 53 -> Zdigits2 (Zpos m2) = 53 ->
  -1000 <= e1 - e2 <= 900 ->
  let X := Zpos m1 * 2 ^ 53 in
  let D := Zpos m2 in
  let n := Zdigits2 (X / D) - 53 in
  0 <= n <= 1
  /\ finite_value (SFdiv 53 1024 (S754_finite false m1 e1) (S754_finite false m2 e2))
       (round_half_even X (2 ^ n * D)) (e1 - e2 - 53 + n).
Proof.
  intros Hd1 Hd2 He X D n.
  pose proof (Zdigits2_bounds m1) as B1. rewrite Hd1 in B1.
  pose proof (Zdigits2_bounds m2) as B2. rewrite Hd2 in B2.
  change (53 - 1) with 52 in *.
  assert (HX : X = X / D * D + X mod D)
    by (rewrite Z.mul_comm; apply Z.div_mod; unfold D; lia).
  pose proof (Z.mod_pos_bound X D ltac:(unfold D; lia)) as Hr.
  assert (Hqlo : 2 ^ 52 <= X / D).
  { apply Z.div_le_lower_bound; unfold X, D; [lia|]. nia. }
  assert (Hqhi : X / D < 2 ^ 54).
  { apply Z.div_lt_upper_bound; unfold X, D; [lia|]. nia. }
  destruct (X / D) as [|q|q] eqn:Eq; [lia| |lia].
  assert (Hn : 0 <= n <= 1).
  { unfold n. pose proof (Zdigits2_bounds q) as Bq.
    pose proof (Zdigits2_pos q).
    assert (52 < Zdigits2 (Zpos q)) by (apply pow2_lt_exp; lia).
    assert (Zdigits2 (Zpos q) - 1 < 54) by (apply pow2_lt_exp; lia).
    lia. }
  split; [exact Hn|].
  unfold SFdiv, SFdiv_core_binary.
  rewrite Hd1, Hd2, fexp_normal by lia.
  replace (Z.min (53 + e1 - (53 + e2) - 53) (e1 - e2)) with (e1 - e2 - 53) by lia.
  replace (e1 - e2 - (e1 - e2 - 53)) with 53 by lia.
  rewrite Z.shiftl_mul_pow2 by lia. fold X. fold D.
  rewrite div_eucl_pair, Eq. cbn [xorb].
  assert (HD : 0 < D) by (unfold D; lia).
  assert (Hloc : loc_ok X D (Zpos q) (new_location D (X mod D)))
    by (apply new_location_ok; [exact HD|exact Hr|exact HX]).
  destruct (binary_round_aux_normal false q (e1 - e2 - 53)
              (new_location D (X mod D)) X D HD Hloc)
    as (m & e & Hres & Hdm & Hle & Hval); fold n; try lia.
  rewrite Hres. exists m, e. repeat split; auto.
Qed.

(** Addition of positive normal floats, the second no greater in
    exponent. *)
Lemma SFadd_normal (m1 : positive) (e1 : Z) (m2 : positive) (e2 : Z) :
  Zdigits2 (Zpos m1) = 53 -> Zdigits2 (Zpos m2) = 53 ->
  e2 <= e1 -> -1000 <= e2 -> e1 <= 900 ->
  let M := Zpos m1 * 2 ^ (e1 - e2) + Zpos m2 in
  let n := Zdigits2 M - 53 in
  0 <= n
  /\ finite_value (SFadd 53 1024 (S754_finite false m1 e1) (S754_finite false m2 e2))
       (round_half_even M (2 ^ n)) (e2 + n).
Proof.
  intros Hd1 Hd2 He Hlo Hhi M n.
  pose proof (Zdigits2_bounds m1) as B1. rewrite Hd1 in B1.
  pose proof (Zdigits2_bounds m2) as B2. rewrite Hd2 in B2.
  change (53 - 1) with 52 in *.
  assert (HP : 0 < 2 ^ (e1 - e2)) by (apply Z.pow_pos_nonneg; lia).
  unfold SFadd. replace (Z.min e1 e2) with e2 by lia.
  assert (E1 : Zpos (fst (shl_align m1 e1 e2)) = Zpos m1 * 2 ^ (e1 - e2)).
  { unfold shl_align. destruct (e2 - e1) as [|k|k] eqn:Ek; cbn [fst].
    - replace (e1 - e2) with 0 by lia. lia.
    - lia.
    - rewrite iter_xO. f_equal. f_equal. lia. }
  assert (E2 : Zpos (fst (shl_align m2 e2 e2)) = Zpos m2).
  { unfold shl_align. rewrite Z.sub_diag. reflexivity. }
  cbn [cond_Zopp]. rewrite E1, E2. fold M.
  assert (HMlo : 2 ^ 52 <= M) by (unfold M; nia).
  destruct M as [|pm|pm] eqn:EM; [lia| |lia].
  pose proof (Zdigits2_bounds pm) as BM.
  assert (HdM : 53 <= Zdigits2 (Zpos pm)).
  { pose proof (Zdigits2_pos pm).
    assert (52 < Zdigits2 (Zpos pm)) by (apply pow2_lt_exp; lia).
    lia. }
  assert (HdMhi : Zdigits2 (Zpos pm) <= 54 + (e1 - e2)).
  { assert (Zpos pm < 2 ^ (54 + (e1 - e2))).
    { rewrite Z.pow_add_r by lia. rewrite <- EM. unfold M in *.
      change (2 ^ 54) with (2 * 2 ^ 53). nia. }
    assert (Zdigits2 (Zpos pm) - 1 < 54 + (e1 - e2))
      by (apply pow2_lt_exp; lia).
    lia. }
  split; [unfold n; lia|].
  unfold binary_normalize, binary_round.
  change (Zpos (digits2_pos pm)) with (Zdigits2 (Zpos pm)).
  rewrite fexp_normal by lia.
  unfold shl_align.
  destruct (Zdigits2 (Zpos pm) + e2 - 53 - e2) as [|k|k] eqn:Ek; [| |lia].
  - destruct (binary_round_aux_normal false pm e2 loc_Exact (Zpos pm) 1
                ltac:(lia) ltac:(cbn [loc_ok]; lia))
      as (m & e & Hres & Hdm & Hle & Hval); try lia.
    rewrite Hres. exists m, e. repeat split; auto.
    rewrite Z.mul_1_r in Hval. exact Hval.
  - destruct (binary_round_aux_normal false pm e2 loc_Exact (Zpos pm) 1
                ltac:(lia) ltac:(cbn [loc_ok]; lia))
      as (m & e & Hres & Hdm & Hle & Hval); try lia.
    rewrite Hres. exists m, e. repeat split; auto.
    rewrite Z.mul_1_r in Hval. exact Hval.
Qed.

Lemma round_half_even_1 (X : Z) : round_half_even X 1 = X.
Proof.
  rewrite <- (Z.mul_1_r X) at 1. apply round_half_even_exact. lia.
Qed.

Lemma f64_of_int_small (z : Z) :
  0 < z < 2 ^ 53 ->
  finite_value (f64_of_int z) (z * 2 ^ (52 - Z.log2 z)) (Z.log2 z - 52).
Proof.
  intros Hz. destruct z as [|p|p]; [lia| |lia].
  pose proof (Zdigits2_bounds p) as B. pose proof (Zdigits2_pos p) as Hpos.
  pose proof (Zdigits2_log2 p) as HL.
  assert (Hd : Zdigits2 (Zpos p) <= 53).
  { assert (Zdigits2 (Zpos p) - 1 < 53) by (apply pow2_lt_exp; lia). lia. }
  unfold f64_of_int, binary_normalize, binary_round, prec, emax.
  change (Zpos (digits2_pos p)) with (Zdigits2 (Zpos p)).
  rewrite Z.add_0_r, fexp_normal by lia.
  unfold shl_align.
  destruct (Zdigits2 (Zpos p) - 53 - 0) as [|k|k] eqn:Ek; [|lia|].
  - assert (Hd53 : Zdigits2 (Zpos p) = 53) by lia.
    destruct (binary_round_aux_normal false p 0 loc_Exact (Zpos p) 1
                ltac:(lia) ltac:(cbn [loc_ok]; lia))
      as (m & e & Hres & Hdm & Hle & Hval); try lia.
    rewrite Hres. exists m, e.
    rewrite Hd53 in Hval, Hle. change (53 - 53) with 0 in *.
    rewrite Z.pow_0_r, Z.mul_1_l, round_half_even_1 in Hval.
    replace (Z.log2 (Zpos p)) with 52 by lia.
    change (52 - 52) with 0. rewrite Z.pow_0_r, Z.mul_1_r.
    repeat split; auto.
  - set (mz := Pos.iter xO p k).
    assert (Hmz : Zpos mz = Zpos p * 2 ^ Zpos k) by apply iter_xO.
    assert (Hk : Zpos k = 53 - Zdigits2 (Zpos p)) by lia.
    assert (HPk : 0 < 2 ^ Zpos k) by (apply Z.pow_pos_nonneg; lia).
    assert (Hdz : Zdigits2 (Zpos mz) = 53).
    { apply Zdigits2_unique; [lia|]. change (53 - 1) with 52. rewrite Hmz.
      replace (2 ^ 52) with (2 ^ (Zdigits2 (Zpos p) - 1) * 2 ^ Zpos k)
        by (rewrite <- Z.pow_add_r by lia; f_equal; lia).
      replace (2 ^ 53) with (2 ^ Zdigits2 (Zpos p) * 2 ^ Zpos k)
        by (rewrite <- Z.pow_add_r by lia; f_equal; lia).
      nia. }
    destruct (binary_round_aux_normal false mz (Zdigits2 (Zpos p) - 53)
                loc_Exact (Zpos mz) 1 ltac:(lia) ltac:(cbn [loc_ok]; lia))
      as (m & e & Hres & Hdm & Hle & Hval); try lia.
    rewrite Hres. exists m, e.
    rewrite Hdz in Hval, Hle. change (53 - 53) with 0 in *.
    rewrite Z.pow_0_r, Z.mul_1_l, round_half_even_1, Z.add_0_r in Hval.
    rewrite Z.add_0_r in Hle.
    replace (Z.log2 (Zpos p) - 52) with (Zdigits2 (Zpos p) - 53) by lia.
    replace (52 - Z.log2 (Zpos p)) with (Zpos k) by lia.
    rewrite <- Hmz. repeat split; auto.
Qed.

Lemma f64_of_int_large (z : Z) :
  2 ^ 53 <= z < 2 ^ 900 ->
  finite_value (f64_of_int z) (round_half_even z (2 ^ (Z.log2 z - 52)))
               (Z.log2 z - 52).
Proof.
  intros Hz. destruct z as [|p|p]; [lia| |lia].
  pose proof (Zdigits2_bounds p) as B. pose proof (Zdigits2_pos p) as Hpos.
  pose proof (Zdigits2_log2 p) as HL.
  assert (Hd : 53 < Zdigits2 (Zpos p)) by (apply pow2_lt_exp; lia).
  assert (Hdhi : Zdigits2 (Zpos p) <= 900).
  { assert (Zdigits2 (Zpos p) - 1 < 900) by (apply pow2_lt_exp; lia). lia. }
  unfold f64_of_int, binary_normalize, binary_round, prec, emax.
  change (Zpos (digits2_pos p)) with (Zdigits2 (Zpos p)).
  rewrite Z.add_0_r, fexp_normal by lia.
  unfold shl_align.
  destruct (Zdigits2 (Zpos p) - 53 - 0) as [|k|k] eqn:Ek; [lia| |lia].
  destruct (binary_round_aux_normal false p 0 loc_Exact (Zpos p) 1
              ltac:(lia) ltac:(cbn [loc_ok]; lia))
    as (m & e & Hres & Hdm & Hle & Hval); try lia.
  rewrite Hres. exists m, e.
  rewrite Z.mul_1_r, Z.add_0_l in Hval. rewrite Z.add_0_l in Hle.
  replace (Z.log2 (Zpos p) - 52) with (Zdigits2 (Zpos p) - 53) by lia.
  repeat split; auto.
Qed.

Lemma f64_to_int_value (x : float64) (V E : Z) :
  finite_value x V E -> E <= 0 -> V / 2 ^ (- E) <= max_i64 ->
  f64_to_int x = V / 2 ^ (- E).
Proof.
  intros (m & e & -> & Hd & Hle & HV) HE Hmax. cbn [f64_to_int].
  assert (HP : 0 < 2 ^ (e - E)) by (apply Z.pow_pos_nonneg; lia).
  assert (Ha : (if 0 <=? e then Zpos m * 2 ^ e else Zpos m / 2 ^ (- e))
               = V / 2 ^ (- E)).
  { destruct (Z.leb_spec 0 e).
    - rewrite <- HV. replace (e - E) with (e + - E) by lia.
      rewrite Z.pow_add_r, Z.mul_assoc by lia.
      rewrite Z.div_mul; [reflexivity|]. apply Z.pow_nonzero; lia.
    - rewrite <- HV. replace (- E) with (- e + (e - E)) by lia.
      rewrite Z.pow_add_r by lia.
      rewrite Z.div_mul_cancel_r; [reflexivity| |lia].
      apply Z.pow_nonzero; lia. }
  rewrite Ha.
  assert (0 <= V / 2 ^ (- E)).
  { apply Z.div_pos; [lia|]. apply Z.pow_pos_nonneg; lia. }
  replace (min_i64 <=? V / 2 ^ (- E)) with true
    by (symmetry; apply Z.leb_le; unfold min_i64; lia).
  replace (V / 2 ^ (- E) <=? max_i64) with true
    by (symmetry; apply Z.leb_le; lia).
  reflexivity.
Qed.

Lemma f64_to_int_within (x : float64) (K c : Z) :
  within x K c -> 0 <= c -> 0 <= K <= max_i64 -> f64_to_int x = K.
Proof.
  intros (V & E & Hv & HE & Hlo & Hhi) Hc HK.
  assert (HP : 0 < 2 ^ (- E)) by (apply Z.pow_pos_nonneg; lia).
  assert (HPc : 0 < 2 ^ (- E - c)) by (apply Z.pow_pos_nonneg; lia).
  assert (Hq : V / 2 ^ (- E) = K).
  { symmetry. apply (Z.div_unique V _ K (V - 2 ^ (- E) * K)); lia. }
  rewrite (f64_to_int_value x V E Hv); lia.
Qed.

Lemma log2_lt_bits (K b : Z) : 1 <= K < 2 ^ b -> 0 <= Z.log2 K < b.
Proof.
  intros HK. split; [apply Z.log2_nonneg|].
  apply Z.log2_lt_pow2; lia.
Qed.

Lemma f64_of_int_within (K b c : Z) :
  1 <= K < 2 ^ b -> 0 <= c -> b + c <= 53 -> within (f64_of_int K) K c.
Proof.
  intros HK Hc Hbc. pose proof (log2_lt_bits K b HK) as HL.
  assert (Hb : 2 ^ b <= 2 ^ 53) by (apply Z.pow_le_mono_r; lia).
  exists (K * 2 ^ (52 - Z.log2 K)), (Z.log2 K - 52).
  split; [apply f64_of_int_small; lia|]. split; [lia|].
  replace (- (Z.log2 K - 52)) with (52 - Z.log2 K) by lia.
  assert (2 ^ (52 - Z.log2 K - c) <= 2 ^ (52 - Z.log2 K))
    by (apply Z.pow_le_mono_r; lia).
  nia.
Qed.

Lemma f64_add_within (K b c : Z) (mf : positive) (ef : Z) :
  1 <= K < 2 ^ b -> 0 <= c -> b + c <= 53 ->
  Zdigits2 (Zpos mf) = 53 -> -1000 <= ef <= -53 ->
  Zpos mf <= 2 ^ (- ef) - 2 ^ (- ef - c) ->
  within (f64_add (f64_of_int K) (S754_finite false mf ef)) K c.
Proof.
  intros HK Hc Hbc Hdf Hef Hmf.
  pose proof (log2_lt_bits K b HK) as HL.
  assert (Hb : 2 ^ b <= 2 ^ 53) by (apply Z.pow_le_mono_r; lia).
  destruct (f64_of_int_small K ltac:(lia)) as (m1 & e1 & Hx & Hd1 & Hle & HV).
  set (E1 := Z.log2 K - 52) in *.
  pose proof (Zdigits2_bounds m1) as B1. rewrite Hd1 in B1.
  change (53 - 1) with 52 in B1.
  pose proof (Z.log2_spec K ltac:(lia)) as HKL.
  assert (HK53 : K * 2 ^ (52 - Z.log2 K) < 2 ^ 53).
  { replace (2 ^ 53) with (2 ^ Z.succ (Z.log2 K) * 2 ^ (52 - Z.log2 K))
      by (rewrite <- Z.pow_add_r by lia; f_equal; lia).
    assert (0 < 2 ^ (52 - Z.log2 K)) by (apply Z.pow_pos_nonneg; lia). nia. }
  assert (He1 : e1 = E1).
  { assert (e1 - E1 < 1); [|lia].
    apply pow2_lt_exp; [lia|]. change (2 ^ 1) with 2.
    assert (0 < 2 ^ (e1 - E1)) by (apply Z.pow_pos_nonneg; lia). nia. }
  subst e1. rewrite Z.sub_diag, Z.pow_0_r, Z.mul_1_r in HV.
  rewrite Hx. unfold f64_add, prec, emax.
  destruct (SFadd_normal m1 E1 mf ef Hd1 Hdf ltac:(unfold E1; lia) ltac:(lia)
              ltac:(unfold E1; lia)) as [Hn Hres].
  set (M := Zpos m1 * 2 ^ (E1 - ef) + Zpos mf) in *.
  set (n := Zdigits2 M - 53) in *.
  assert (HM : M = K * 2 ^ (- ef) + Zpos mf).
  { unfold M. rewrite HV, <- Z.mul_assoc, <- Z.pow_add_r by (unfold E1; lia).
    do 3 f_equal. unfold E1. lia. }
  assert (HPf : 0 < 2 ^ (- ef)) by (apply Z.pow_pos_nonneg; lia).
  assert (HPfc : 0 < 2 ^ (- ef - c)) by (apply Z.pow_pos_nonneg; lia).
  assert (HMpos : 0 < M) by nia.
  assert (HnE : ef + n <= - c).
  { destruct M as [|pm|pm] eqn:EM; [lia| |lia].
    pose proof (Zdigits2_bounds pm) as BM.
    assert (Zpos pm < 2 ^ (b - ef)).
    { rewrite HM. replace (b - ef) with (b + - ef) by lia.
      rewrite Z.pow_add_r by lia. nia. }
    assert (Zdigits2 (Zpos pm) - 1 < b - ef) by (apply pow2_lt_exp; lia).
    unfold n. lia. }
  exists (round_half_even M (2 ^ n)), (ef + n).
  split; [exact Hres|]. split; [exact HnE|].
  assert (HPn : 0 < 2 ^ n) by (apply Z.pow_pos_nonneg; lia).
  assert (HPE : 0 < 2 ^ (- (ef + n) - c)) by (apply Z.pow_pos_nonneg; lia).
  assert (Ec : 2 ^ (- (ef + n)) = 2 ^ (- (ef + n) - c) * 2 ^ c)
    by (rewrite <- Z.pow_add_r by lia; f_equal; lia).
  assert (Ef : 2 ^ (- ef) = 2 ^ (- (ef + n) - c) * 2 ^ c * 2 ^ n)
    by (rewrite <- !Z.pow_add_r by lia; f_equal; lia).
  assert (Efc : 2 ^ (- ef - c) = 2 ^ (- (ef + n) - c) * 2 ^ n)
    by (rewrite <- !Z.pow_add_r by lia; f_equal; lia).
  split.
  - apply round_half_even_lower; [lia|]. rewrite HM, Ec, Ef. nia.
  - apply round_half_even_upper; [lia|]. rewrite HM, Ec.
    rewrite Ef, Efc in Hmf. rewrite Ef. nia.
Qed.

Lemma f64_of_int_24 : f64_of_int 24 = S754_finite false 6755399441055744 (-48).
Proof. reflexivity. Qed.

Lemma f64_div24_within (x : float64) (K : Z) :
  within x K 12 -> 1 <= K < 2 ^ 22 ->
  within (f64_div x (f64_of_int 24)) (K / 24) 17.
Proof.
  intros (V & E & (m & e & -> & Hd & Hle & HV) & HE & Hlo & Hhi) HK.
  pose proof (Zdigits2_bounds m) as B. rewrite Hd in B.
  change (53 - 1) with 52 in B.
  assert (HPe : 0 < 2 ^ (e - E)) by (apply Z.pow_pos_nonneg; lia).
  assert (HPE : 0 < 2 ^ (- E)) by (apply Z.pow_pos_nonneg; lia).
  assert (HPE12 : 0 < 2 ^ (- E - 12)) by (apply Z.pow_pos_nonneg; lia).
  (* the exponent of [x] is at most -31 *)
  assert (He : e <= -31).
  { assert (52 + (e - E) < 22 + - E); [|lia].
    apply pow2_lt_exp; [lia|]. rewrite !Z.pow_add_r by lia. nia. }
  (* the bounds on the mantissa of [x] *)
  assert (Ee : 2 ^ (- E) = 2 ^ (- e) * 2 ^ (e - E))
    by (rewrite <- Z.pow_add_r by lia; f_equal; lia).
  assert (Ee12 : 2 ^ (- E - 12) = 2 ^ (- e - 12) * 2 ^ (e - E))
    by (rewrite <- Z.pow_add_r by lia; f_equal; lia).
  assert (HPme : 0 < 2 ^ (- e - 17)) by (apply Z.pow_pos_nonneg; lia).
  assert (Eme : 2 ^ (- e) = 2 ^ (- e - 17) * 2 ^ 17)
    by (rewrite <- Z.pow_add_r by lia; f_equal; lia).
  assert (Eme12 : 2 ^ (- e - 12) = 2 ^ (- e - 17) * 2 ^ 5)
    by (rewrite <- Z.pow_add_r by lia; f_equal; lia).
  assert (Hmlo : K * 2 ^ (- e) <= Zpos m) by (rewrite Ee in Hlo; nia).
  assert (Hmhi : Zpos m <= (K + 1) * 2 ^ (- e) - 2 ^ (- e - 12))
    by (rewrite Ee, Ee12 in Hhi; nia).
  assert (Helo : - e < 53).
  { apply pow2_lt_exp; [lia|].
    assert (0 < 2 ^ (- e)) by (apply Z.pow_pos_nonneg; lia). nia. }
  rewrite f64_of_int_24. unfold f64_div, prec, emax.
  destruct (SFdiv_normal m e 6755399441055744 (-48) Hd eq_refl ltac:(lia))
    as [Hn Hres].
  set (X := Zpos m * 2 ^ 53) in *.
  set (n := Zdigits2 (X / 6755399441055744) - 53) in *.
  replace (e - -48 - 53 + n) with (e - 5 + n) in Hres by lia.
  exists (round_half_even X (2 ^ n * 6755399441055744)), (e - 5 + n).
  split; [exact Hres|]. split; [lia|].
  assert (HPn : 0 < 2 ^ n) by (apply Z.pow_pos_nonneg; lia).
  assert (HPq : 0 < 2 ^ (- (e - 5 + n) - 17)) by (apply Z.pow_pos_nonneg; lia).
  assert (Eq1 : 2 ^ (- (e - 5 + n)) = 2 ^ (- (e - 5 + n) - 17) * 2 ^ 17)
    by (rewrite <- Z.pow_add_r by lia; f_equal; lia).
  assert (Eq2 : 2 ^ (- e - 17) * 2 ^ 5 = 2 ^ (- (e - 5 + n) - 17) * 2 ^ n)
    by (rewrite <- !Z.pow_add_r by lia; f_equal; lia).
  pose proof (Z.div_mod K 24 ltac:(lia)) as HKq.
  pose proof (Z.mod_pos_bound K 24 ltac:(lia)) as HKr.
  assert (HQ : 0 <= K / 24) by (apply Z.div_pos; lia).
  unfold X. rewrite Eme in Hmlo. rewrite Eme, Eme12 in Hmhi.
  change (2 ^ 53) with (2 ^ 5 * 281474976710656).
  change 6755399441055744 with (24 * 281474976710656).
  change (2 ^ 17) with 131072 in *.
  set (P := 2 ^ (- e - 17)) in *. set (Q := 2 ^ (- (e - 5 + n) - 17)) in *.
  set (N := 2 ^ n) in *. change (2 ^ 5) with 32 in *.
  assert (HqP : K / 24 * 24 * P <= K * P) by nia.
  assert (HqP' : (K + 1) * P <= (K / 24 + 1) * 24 * P) by nia.
  split.
  - apply round_half_even_lower; [lia|]. rewrite Eq1.
    replace (K / 24 * (Q * 131072) * (N * (24 * 281474976710656)))
      with (K / 24 * 24 * 131072 * 281474976710656 * (Q * N)) by ring.
    rewrite <- Eq2. lia.
  - apply round_half_even_upper; [lia|]. rewrite Eq1.
    replace (((K / 24 + 1) * (Q * 131072) - Q) * (N * (24 * 281474976710656)))
      with (((K / 24 + 1) * 24 * 131072 - 24) * 281474976710656 * (Q * N))
      by ring.
    rewrite <- Eq2. lia.
Qed.

(** ** The uptime *)

Lemma first_hour_table : forallb first_hour_ok (map Z.of_nat (seq 0 3600)) = true.
Proof. vm_compute. reflexivity. Qed.

Lemma first_minute_table : forallb first_minute_ok (map Z.of_nat (seq 0 60)) = true.
Proof. vm_compute. reflexivity. Qed.

Lemma in_table (j n : Z) :
  0 <= j < n -> In j (map Z.of_nat (seq 0 (Z.to_nat n))).
Proof.
  intros Hj. rewrite <- (Z2Nat.id j) by lia.
  apply in_map, in_seq. lia.
Qed.

Lemma first_hour (j : Z) : 0 <= j < 3600 -> first_hour_ok j = true.
Proof.
  intros Hj. pose proof first_hour_table as T.
  rewrite forallb_forall in T. apply T. now apply (in_table j 3600).
Qed.

Lemma first_minute (j : Z) : 0 <= j < 60 -> first_minute_ok j = true.
Proof.
  intros Hj. pose proof first_minute_table as T.
  rewrite forallb_forall in T. apply T. now apply (in_table j 60).
Qed.

Lemma wrap_i64_small (z : Z) : min_i64 <= z <= max_i64 -> wrap_i64 z = z.
Proof.
  unfold wrap_i64, min_i64, max_i64. intros Hz.
  rewrite Z.mod_small by lia. lia.
Qed.

(** The sum of a whole number and a fraction, as [Duration.Hours] and
    [Duration.Minutes] form it, truncates to the whole number. *)
Lemma whole_plus_fraction (K b c : Z) (f : float64) :
  1 <= K < 2 ^ b -> 0 <= c -> b + c <= 53 -> fraction_ok c f = true ->
  within (f64_add (f64_of_int K) f) K c.
Proof.
  intros HK Hc Hbc Hf.
  destruct f as [[|]| | |[|] mf ef]; try discriminate Hf.
  - (* the fraction is zero *)
    pose proof (f64_of_int_within K b c HK Hc Hbc) as HW.
    destruct HW as (V & E & (m & e & Hx & Hrest) & HW).
    rewrite Hx. cbn. exists V, E. split; [|exact HW]. now exists m, e.
  - cbn [fraction_ok] in Hf.
    apply andb_true_iff in Hf as [Hf H4].
    apply andb_true_iff in Hf as [Hf H3].
    apply andb_true_iff in Hf as [H1 H2].
    apply Z.eqb_eq in H1. apply Z.leb_le in H2, H3, H4.
    apply (f64_add_within K b c); auto.
Qed.

Lemma Hours_truncates (s : Z) :
  0 <= s <= longest_uptime ->
  f64_to_int (Hours (s * Second)) = s / 3600
  /\ f64_to_int (f64_div (Hours (s * Second)) (f64_of_int 24)) = s / 3600 / 24.
Proof.
  unfold longest_uptime. intros Hs. unfold Hours.
  assert (Hq : Z.quot (s * Second) Hour = s / 3600).
  { rewrite Z.quot_div_nonneg by (unfold Hour, Minute, Second; lia).
    unfold Hour, Minute, Second.
    change (60 * (60 * 1000000000)) with (3600 * 1000000000).
    apply Z.div_mul_cancel_r; lia. }
  assert (Hr : Z.rem (s * Second) Hour = s mod 3600 * Second).
  { rewrite Z.rem_mod_nonneg by (unfold Hour, Minute, Second; lia).
    unfold Hour, Minute, Second.
    change (60 * (60 * 1000000000)) with (3600 * 1000000000).
    apply Zmult_mod_distr_r. }
  rewrite Hq, Hr.
  fold (hour_fraction (s mod 3600)).
  pose proof (Z.mod_pos_bound s 3600 ltac:(lia)) as Hj.
  pose proof (first_hour _ Hj) as T. unfold first_hour_ok in T.
  apply andb_true_iff in T as [T T3]. apply andb_true_iff in T as [T1 T2].
  apply Z.eqb_eq in T2, T3.
  assert (Hh : 0 <= s / 3600 < 2 ^ 22).
  { split; [apply Z.div_pos; lia|]. apply Z.div_lt_upper_bound; lia. }
  destruct (Z.eq_dec (s / 3600) 0) as [E0|Hne].
  - rewrite E0. split; [exact T2|exact T3].
  - pose proof (whole_plus_fraction (s / 3600) 22 12 _ ltac:(lia) ltac:(lia)
                  ltac:(lia) T1) as HW.
    split.
    + apply (f64_to_int_within _ _ 12 HW); unfold max_i64; lia.
    + pose proof (f64_div24_within _ _ HW ltac:(lia)) as HW'.
      apply (f64_to_int_within _ _ 17 HW'); [lia|].
      split; [apply Z.div_pos; lia|].
      assert (s / 3600 / 24 <= s / 3600) by (apply Z.div_le_upper_bound; lia).
      unfold max_i64. lia.
Qed.

Lemma Minutes_truncates (s : Z) :
  0 <= s <= longest_uptime -> f64_to_int (Minutes (s * Second)) = s / 60.
Proof.
  unfold longest_uptime. intros Hs. unfold Minutes.
  assert (Hq : Z.quot (s * Second) Minute = s / 60).
  { rewrite Z.quot_div_nonneg by (unfold Minute, Second; lia).
    unfold Minute, Second. apply Z.div_mul_cancel_r; lia. }
  assert (Hr : Z.rem (s * Second) Minute = s mod 60 * Second).
  { rewrite Z.rem_mod_nonneg by (unfold Minute, Second; lia).
    unfold Minute, Second. apply Zmult_mod_distr_r. }
  rewrite Hq, Hr.
  fold (minute_fraction (s mod 60)).
  pose proof (Z.mod_pos_bound s 60 ltac:(lia)) as Hj.
  pose proof (first_minute _ Hj) as T. unfold first_minute_ok in T.
  apply andb_true_iff in T as [T1 T2]. apply Z.eqb_eq in T2.
  assert (Hh : 0 <= s / 60 < 2 ^ 28).
  { split; [apply Z.div_pos; lia|]. apply Z.div_lt_upper_bound; lia. }
  destruct (Z.eq_dec (s / 60) 0) as [E0|Hne].
  - rewrite E0. exact T2.
  - pose proof (whole_plus_fraction (s / 60) 28 6 _ ltac:(lia) ltac:(lia)
                  ltac:(lia) T1) as HW.
    apply (f64_to_int_within _ _ 6 HW); unfold max_i64; lia.
Qed.

(** C2, as the code has it.  For every number of seconds that
    [time.Duration] holds, at most 9223372036, [formatUptime] renders
    the whole days, the hours left (0 to 23) and the minutes left (0 to
    59); the seconds are dropped without rounding.  0 seconds give
    "0d 0h 0m" and 90061 seconds give "1d 1h 1m". *)
Theorem formatUptime_days_hours_minutes :
  forall s : Z,
    0 <= s <= longest_uptime ->
    formatUptime s = uptime_words s
    /\ formatUptime s
       = fmt_d (s / 86400) ++ "d " ++ fmt_d ((s / 3600) mod 24) ++ "h "
           ++ fmt_d ((s / 60) mod 60) ++ "m"
    /\ 0 <= (s / 3600) mod 24 <= 23
    /\ 0 <= (s / 60) mod 60 <= 59
    /\ formatUptime 0 = "0d 0h 0m"
    /\ formatUptime 90061 = "1d 1h 1m".
Proof.
  intros s Hs.
  assert (E : formatUptime s = uptime_words s).
  { unfold formatUptime, uptime_words.
    unfold longest_uptime in Hs.
    rewrite (wrap_i64_small s) by (unfold min_i64, max_i64; lia).
    rewrite (wrap_i64_small (s * Second))
      by (unfold min_i64, max_i64, Second; lia).
    destruct (Hours_truncates s Hs) as [H1 H2].
    rewrite H1, H2, (Minutes_truncates s Hs).
    rewrite Z.div_div by lia. change (3600 * 24) with 86400.
    rewrite !Z.rem_mod_nonneg; try lia; try (apply Z.div_pos; lia).
    reflexivity. }
  split; [exact E|]. split; [exact E|].
  pose proof (Z.mod_pos_bound (s / 3600) 24 ltac:(lia)).
  pose proof (Z.mod_pos_bound (s / 60) 60 ltac:(lia)).
  repeat split; try lia; reflexivity.
Qed.

Lemma formatUptime_days_hours_minutes_witness :
  0 <= 90061 <= longest_uptime /\ formatUptime 90061 = uptime_words 90061.
Proof.
  split; [unfold longest_uptime; lia|].
  apply (formatUptime_days_hours_minutes 90061). unfold longest_uptime. lia.
Defined.

(** C2 fails as it is written, for every unsigned integer: one second
    past the range of [time.Duration] the product wraps around and the
    three numbers come out negative. *)
Lemma formatUptime_wraps_past_the_range :
  0 <= 9223372037 <= max_u64
  /\ formatUptime 9223372037 = "-106751d -23h -47m"
  /\ uptime_words 9223372037 = "106751d 23h 47m"
  /\ formatUptime 9223372037 <> uptime_words 9223372037.
Proof.
  split; [unfold max_u64; lia|].
  split; [vm_compute; reflexivity|]. split; [vm_compute; reflexivity|].
  vm_compute. discriminate.
Qed.

(** ** The byte sizes *)

Lemma divisions_lt (n : Z) : n < 1024 -> divisions n = 0.
Proof. funelim (divisions n); intros Hn; [lia|reflexivity]. Qed.

Lemma divisions_ge (n : Z) : 1024 <= n -> divisions n = 1 + divisions (n / 1024).
Proof. funelim (divisions n); intros Hn; [reflexivity|lia]. Qed.

Lemma divisions_spec (n : Z) :
  0 <= n ->
  0 <= divisions n
  /\ (1024 <= n -> 1024 ^ divisions n <= n)
  /\ n < 1024 ^ (divisions n + 1).
Proof.
  funelim (divisions n); intros Hn.
  - assert (H0 : 0 <= n / 1024) by (apply Z.div_pos; lia).
    destruct (H H0) as (Hj & Hlo & Hhi). clear H.
    pose proof (Z.div_mod n 1024 ltac:(lia)) as Hdm.
    pose proof (Z.mod_pos_bound n 1024 ltac:(lia)) as Hmod.
    split; [lia|]. split.
    + intros _. rewrite Z.pow_add_r, Z.pow_1_r by lia.
      destruct (Z_lt_le_dec (n / 1024) 1024) as [Hs|Hb].
      * rewrite (divisions_lt _ Hs), Z.pow_0_r. lia.
      * specialize (Hlo Hb). lia.
    + replace (1 + divisions (n / 1024) + 1)
        with (1 + (divisions (n / 1024) + 1)) by lia.
      rewrite Z.pow_add_r, Z.pow_1_r by lia. lia.
  - split; [lia|]. split; [lia|]. change (1024 ^ (0 + 1)) with 1024. lia.
Qed.

Lemma formatBytes_loop_spec (n div exp : Z) :
  0 <= n ->
  formatBytes_loop n div exp
  = (if divisions n =? 0 then div else wrap_u64 (div * 1024 ^ divisions n),
     exp + divisions n).
Proof.
  funelim (formatBytes_loop n div exp); intros Hn.
  - unfold unit in *.
    assert (H0 : 0 <= n / 1024) by (apply Z.div_pos; lia).
    rewrite (H H0). clear H Heqcall.
    rewrite (divisions_ge n) by lia.
    destruct (divisions_spec (n / 1024) H0) as (Hj & _).
    destruct (Z.eqb_spec (1 + divisions (n / 1024)) 0) as [E|_]; [lia|].
    f_equal; [|lia].
    destruct (Z.eqb_spec (divisions (n / 1024)) 0) as [E|_].
    + rewrite E. reflexivity.
    + unfold wrap_u64. rewrite Z.mul_mod_idemp_l by lia.
      rewrite Z.pow_add_r, Z.pow_1_r by lia. f_equal. ring.
  - unfold unit in *. rewrite (divisions_lt n) by lia.
    simpl. f_equal. lia.
Qed.

(** Division of a positive normal float by a power of two is exact. *)
Lemma f64_div_pow2 (x : float64) (V E e2 : Z) :
  finite_value x V E -> V < 2 ^ 54 -> -900 <= E - e2 <= 800 ->
  finite_value (f64_div x (S754_finite false 4503599627370496 e2))
               V (E - e2 - 52).
Proof.
  intros (m & e & -> & Hd & Hle & HV) HV54 HE.
  pose proof (Zdigits2_bounds m) as B. rewrite Hd in B.
  change (53 - 1) with 52 in B.
  assert (HPe : 0 < 2 ^ (e - E)) by (apply Z.pow_pos_nonneg; lia).
  assert (He : e - E < 2).
  { apply pow2_lt_exp; [lia|]. change (2 ^ 2) with 4.
    change (2 ^ 54) with (4 * 2 ^ 52) in HV54. nia. }
  unfold f64_div, prec, emax.
  destruct (SFdiv_normal m e 4503599627370496 e2 Hd eq_refl ltac:(lia))
    as [_ Hres].
  assert (Hq : Zpos m * 2 ^ 53 / 4503599627370496 = Zpos m~0).
  { change (2 ^ 53) with (2 * 4503599627370496).
    rewrite Z.mul_assoc, Z.div_mul by lia. lia. }
  rewrite Hq in Hres.
  assert (Hd2 : Zdigits2 (Zpos m~0) = 54).
  { unfold Zdigits2 in *. cbn [digits2_pos]. rewrite Pos2Z.inj_succ. lia. }
  rewrite Hd2 in Hres. change (54 - 53) with 1 in Hres.
  change (2 ^ 1 * 4503599627370496) with (2 ^ 53) in Hres.
  rewrite round_half_even_exact in Hres by lia.
  destruct Hres as (m' & e' & Hx & Hd' & Hle' & HV').
  exists m', e'. split; [exact Hx|]. split; [exact Hd'|]. split; [lia|].
  rewrite <- HV, <- HV', <- Z.mul_assoc, <- Z.pow_add_r by lia.
  do 2 f_equal. lia.
Qed.

Lemma fmt_f_value (p : nat) (x : float64) (V E : Z) :
  finite_value x V E -> E <= 0 ->
  fmt_f p x
  = fixed_point p false (round_half_even (V * 10 ^ Z.of_nat p) (2 ^ (- E))).
Proof.
  intros (m & e & -> & Hd & Hle & HV) HE. cbn [fmt_f]. f_equal.
  unfold scaled_digits.
  assert (HPe : 0 < 2 ^ (e - E)) by (apply Z.pow_pos_nonneg; lia).
  assert (HPE : 0 < 2 ^ (- E)) by (apply Z.pow_pos_nonneg; lia).
  destruct (Z.leb_spec 0 e).
  - rewrite <- HV. replace (e - E) with (e + - E) by lia.
    rewrite Z.pow_add_r by lia.
    replace (Zpos m * (2 ^ e * 2 ^ (- E)) * 10 ^ Z.of_nat p)
      with (Zpos m * 2 ^ e * 10 ^ Z.of_nat p * 2 ^ (- E)) by ring.
    now rewrite round_half_even_exact.
  - rewrite <- HV. replace (- E) with (- e + (e - E)) by lia.
    rewrite Z.pow_add_r by lia.
    replace (Zpos m * 2 ^ (e - E) * 10 ^ Z.of_nat p)
      with (Zpos m * 10 ^ Z.of_nat p * 2 ^ (e - E)) by ring.
    rewrite round_half_even_scale; [reflexivity| |lia].
    apply Z.pow_pos_nonneg; lia.
Qed.

Lemma digit_length (r : Z) : 0 <= r < 10 -> String.length (fmt_d r) = 1%nat.
Proof.
  intros Hr.
  assert (H : r = 0 \/ r = 1 \/ r = 2 \/ r = 3 \/ r = 4 \/ r = 5 \/ r = 6
              \/ r = 7 \/ r = 8 \/ r = 9) by lia.
  repeat (destruct H as [->|H]; [reflexivity|]). subst r. reflexivity.
Qed.

Lemma fixed_point_1 (T : Z) :
  fixed_point 1 false T = fmt_d (T / 10) ++ "." ++ fmt_d (T mod 10).
Proof.
  unfold fixed_point. change (10 ^ Z.of_nat 1) with 10.
  rewrite digit_length by (apply Z.mod_pos_bound; lia). reflexivity.
Qed.

Lemma round53_small (z : Z) : z < 2 ^ 53 -> round53 z = z.
Proof.
  intros Hz. unfold round53.
  assert (Z.log2 z - 52 <= 0).
  { destruct (Z_le_gt_dec z 0) as [H0|H0].
    - rewrite Z.log2_nonpos by lia. lia.
    - assert (Z.log2 z < 53) by (apply Z.log2_lt_pow2; lia). lia. }
  replace (Z.max 0 (Z.log2 z - 52)) with 0 by lia.
  rewrite Z.pow_0_r, round_half_even_1. lia.
Qed.

Lemma f64_of_int_pow1024 (k : Z) :
  1 <= k <= 6 ->
  f64_of_int (1024 ^ k) = S754_finite false 4503599627370496 (10 * k - 52).
Proof.
  intros Hk.
  assert (H : k = 1 \/ k = 2 \/ k = 3 \/ k = 4 \/ k = 5 \/ k = 6) by lia.
  repeat (destruct H as [->|H]; [reflexivity|]). subst k. reflexivity.
Qed.

(** The quotient that [formatBytes] prints, for the unit [1024 ^ k]. *)
Lemma formatBytes_quotient (bytes k : Z) :
  1 <= k <= 6 -> 1024 ^ k <= bytes -> bytes < 1024 ^ (k + 1) ->
  bytes <= max_u64 ->
  fmt_f 1 (f64_div (f64_of_int bytes) (f64_of_int (1024 ^ k)))
  = one_decimal (round53 bytes) (1024 ^ k).
Proof.
  intros Hk Hlo Hhi Hmax. unfold max_u64 in Hmax.
  assert (H1024 : 1024 <= 1024 ^ k).
  { change 1024 with (1024 ^ 1) at 1. apply Z.pow_le_mono_r; lia. }
  assert (Epow : 1024 ^ k = 2 ^ (10 * k))
    by (rewrite Z.pow_mul_r by lia; reflexivity).
  assert (Epow' : 1024 ^ (k + 1) = 2 ^ (10 * k + 10)).
  { replace (10 * k + 10) with (10 * (k + 1)) by lia.
    rewrite Z.pow_mul_r by lia. reflexivity. }
  pose proof (Z.log2_spec bytes ltac:(lia)) as HL.
  assert (HLlo : 10 * k <= Z.log2 bytes)
    by (apply Z.log2_le_pow2; lia).
  assert (HLhi : Z.log2 bytes < 64) by (apply Z.log2_lt_pow2; lia).
  assert (HLhi' : Z.log2 bytes < 10 * k + 10)
    by (apply Z.log2_lt_pow2; lia).
  rewrite (f64_of_int_pow1024 k Hk). unfold one_decimal.
  rewrite <- fixed_point_1.
  destruct (Z_lt_le_dec bytes (2 ^ 53)) as [Hs|Hb].
  - (* the count is held exactly *)
    pose proof (f64_of_int_small bytes ltac:(lia)) as Hv.
    assert (HV54 : bytes * 2 ^ (52 - Z.log2 bytes) < 2 ^ 54).
    { assert (Z.log2 bytes < 53) by (apply Z.log2_lt_pow2; lia).
      replace (2 ^ 54) with (2 ^ Z.succ (Z.log2 bytes) * 2 ^ (53 - Z.log2 bytes))
        by (rewrite <- Z.pow_add_r by lia; f_equal; lia).
      assert (0 < 2 ^ (52 - Z.log2 bytes)) by (apply Z.pow_pos_nonneg; lia).
      replace (2 ^ (53 - Z.log2 bytes)) with (2 * 2 ^ (52 - Z.log2 bytes))
        by (rewrite <- (Z.pow_1_r 2) at 1; rewrite <- Z.pow_add_r by lia;
            f_equal; lia).
      nia. }
    assert (Z.log2 bytes < 53) by (apply Z.log2_lt_pow2; lia).
    pose proof (f64_div_pow2 _ _ _ (10 * k - 52) Hv HV54 ltac:(lia)) as Hq.
    rewrite (fmt_f_value 1 _ _ _ Hq) by lia.
    rewrite round53_small by lia. f_equal.
    change (10 ^ Z.of_nat 1) with 10.
    replace (- (Z.log2 bytes - 52 - (10 * k - 52) - 52))
      with (10 * k + (52 - Z.log2 bytes)) by lia.
    rewrite Z.pow_add_r, <- Epow by lia.
    replace (bytes * 2 ^ (52 - Z.log2 bytes) * 10)
      with (10 * bytes * 2 ^ (52 - Z.log2 bytes)) by ring.
    apply round_half_even_scale; [lia|]. apply Z.pow_pos_nonneg; lia.
  - (* the count is rounded to 53 bits *)
    pose proof (f64_of_int_large bytes) as Hv.
    assert (H900 : 2 ^ 64 <= 2 ^ 900) by (apply Z.pow_le_mono_r; lia).
    specialize (Hv ltac:(lia)).
    assert (HLb : 53 <= Z.log2 bytes) by (apply Z.log2_le_pow2; lia).
    set (n := Z.log2 bytes - 52) in *.
    assert (HPn : 0 < 2 ^ n) by (apply Z.pow_pos_nonneg; lia).
    assert (HV54 : round_half_even bytes (2 ^ n) < 2 ^ 54).
    { assert (round_half_even bytes (2 ^ n) <= 2 ^ 53); [|lia].
      apply round_half_even_upper; [lia|].
      replace (2 ^ 53 * 2 ^ n) with (2 ^ Z.succ (Z.log2 bytes))
        by (rewrite <- Z.pow_add_r by lia; f_equal; lia).
      lia. }
    pose proof (f64_div_pow2 _ _ _ (10 * k - 52) Hv HV54 ltac:(lia)) as Hq.
    rewrite (fmt_f_value 1 _ _ _ Hq) by lia. f_equal.
    change (10 ^ Z.of_nat 1) with 10.
    unfold round53. fold n. replace (Z.max 0 n) with n by lia.
    rewrite Epow.
    replace (2 ^ (10 * k)) with (2 ^ (- (n - (10 * k - 52) - 52)) * 2 ^ n)
      by (rewrite <- Z.pow_add_r by lia; f_equal; lia).
    replace (10 * (round_half_even bytes (2 ^ n) * 2 ^ n))
      with (round_half_even bytes (2 ^ n) * 10 * 2 ^ n) by ring.
    symmetry. apply round_half_even_scale; [|lia].
    apply Z.pow_pos_nonneg; lia.
Qed.

Lemma divisions_range (bytes : Z) :
  1024 <= bytes <= max_u64 -> 1 <= divisions bytes <= 6.
Proof.
  intros [H1024 Hmax].
  destruct (divisions_spec bytes ltac:(lia)) as (H0 & Hlo & Hhi).
  specialize (Hlo H1024). split.
  - rewrite divisions_ge by lia.
    destruct (divisions_spec (bytes / 1024)
                ltac:(apply Z.div_pos; lia)) as (H0' & _). lia.
  - destruct (Z_le_gt_dec (divisions bytes) 6) as [|Hgt]; [assumption|].
    assert (1024 ^ 7 <= 1024 ^ divisions bytes)
      by (apply Z.pow_le_mono_r; lia).
    unfold max_u64 in Hmax. lia.
Qed.

(** [formatBytes] returns for every count: the index into "KMGTPE" is
    in range; and what it returns is the rendering of the count as
    [float64] holds it. *)
Lemma formatBytes_humanize (bytes : Z) :
  0 <= bytes <= max_u64 ->
  formatBytes bytes = Ret (humanize (round53 bytes) bytes).
Proof.
  intros Hb. unfold formatBytes, humanize, unit.
  destruct (Z.ltb_spec bytes 1024) as [Hs|H1024]; [reflexivity|].
  pose proof (divisions_range bytes ltac:(lia)) as Hk.
  destruct (divisions_spec bytes ltac:(lia)) as (_ & Hlo & Hhi).
  specialize (Hlo H1024).
  rewrite formatBytes_loop_spec by (apply Z.div_pos; lia).
  rewrite (divisions_ge bytes H1024) in *.
  set (j := divisions (bytes / 1024)) in *.
  rewrite <- (formatBytes_quotient bytes (1 + j)) by lia. clearbody j.
  assert (Hj : j = 0 \/ j = 1 \/ j = 2 \/ j = 3 \/ j = 4 \/ j = 5) by lia.
  repeat (destruct Hj as [->|Hj]; [reflexivity|]). subst j. reflexivity.
Qed.

Lemma formatBytes_never_panics (bytes : Z) :
  0 <= bytes <= max_u64 -> exists s, formatBytes bytes = Ret s.
Proof. intros Hb. eexists. now apply formatBytes_humanize. Qed.

(** C1, as the code has it.  Below 1024 the count is printed with
    " B".  Otherwise, with [k] the number of divisions by 1024 that
    bring the count below 1024 (1 to 6), [formatBytes] prints the count
    as [float64] holds it, that is rounded to 53 significant bits,
    divided by [1024 ^ k], with one digit after the point, then a
    space, the [k]-th of K, M, G, T, P, E, and "iB".  Up to [2 ^ 53]
    the count is held exactly and the quotient is that of the count
    itself. *)
Theorem formatBytes_rounded :
  forall bytes : Z,
    0 <= bytes <= max_u64 ->
    formatBytes bytes = Ret (humanize (round53 bytes) bytes)
    /\ (bytes <= 2 ^ 53 -> formatBytes bytes = Ret (bytes_words bytes))
    /\ (1024 <= bytes -> 1 <= divisions bytes <= 6)
    /\ formatBytes 0 = Ret "0 B"
    /\ formatBytes 1023 = Ret "1023 B"
    /\ formatBytes 1024 = Ret "1.0 KiB"
    /\ formatBytes 1536 = Ret "1.5 KiB"
    /\ formatBytes 1048576 = Ret "1.0 MiB".
Proof.
  intros bytes Hb.
  pose proof (formatBytes_humanize bytes Hb) as E.
  split; [exact E|]. split.
  - intros H53. rewrite E. unfold bytes_words.
    destruct (Z.eq_dec bytes (2 ^ 53)) as [->|Hne]; [reflexivity|].
    now rewrite round53_small by lia.
  - split; [intros H; apply divisions_range; lia|].
    repeat split; reflexivity.
Qed.

Lemma formatBytes_rounded_witness :
  0 <= 1536 <= max_u64
  /\ formatBytes 1536 = Ret (humanize (round53 1536) 1536).
Proof.
  split; [unfold max_u64; lia|].
  apply (formatBytes_rounded 1536). unfold max_u64. lia.
Defined.

(** C1 fails as it is written, for every unsigned 64-bit integer: the
    count below is not held exactly by [float64], and the quotient of
    the rounded count, 8.05000000000000071, prints as 8.1 where that of
    the count itself, 8.04999999999999982, rounds to 8.0: it lies
    between 8.0 and 8.05, whatever the rule for ties. *)
Lemma formatBytes_rounds_the_count_first :
  0 <= 9063494250083123 <= max_u64
  /\ formatBytes 9063494250083123 = Ret "8.1 PiB"
  /\ bytes_words 9063494250083123 = "8.0 PiB"
  /\ formatBytes 9063494250083123 <> Ret (bytes_words 9063494250083123)
  /\ divisions 9063494250083123 = 5
  /\ 80 * 1024 ^ 5 < 10 * 9063494250083123
  /\ 2 * (10 * 9063494250083123) < (2 * 80 + 1) * 1024 ^ 5.
Proof.
  split; [unfold max_u64; lia|].
  split; [vm_compute; reflexivity|]. split; [vm_compute; reflexivity|].
  split; [vm_compute; discriminate|].
  split; [vm_compute; reflexivity|]. split; reflexivity.
Qed.

(** * Further properties of the program *)

Import Runs.

(** ** The queries of the package counter *)

Lemma selectCommand_trace (w : World) (info : option InfoStat) (t : list event) :
  exists n : nat,
    (n <= 3)%nat
    /\ snd (selectCommand w info t) = (t ++ firstn n probes)%list
    /\ ((runtime_GOOS w =? "linux")%string = false -> n = 0%nat)
    /\ (forall cmd, fst (selectCommand w info t) = Ret (inl cmd) ->
        In cmd package_commands).
Proof.
  unfold selectCommand, package_commands.
  destruct (runtime_GOOS w =? "linux")%string.
  2:{ exists 0%nat. cbn. rewrite app_nil_r.
      repeat split; auto; discriminate. }
  unfold lift, mbind, deref.
  destruct info as [info|].
  2:{ exists 0%nat. cbn. rewrite app_nil_r.
      repeat split; auto; discriminate. }
  cbv beta iota zeta.
  repeat match goal with
  | |- context [if ?b then _ else _] =>
      destruct b;
      [exists 0%nat; unfold ret; cbn [fst snd firstn]; rewrite app_nil_r;
       repeat split; auto; try discriminate;
       intros cmd H; inversion H; cbn; tauto|]
  end.
  unfold call_LookPath, mbind, emit, ret, probes.
  destruct (exec_LookPath w "dpkg") as [p1 [e1|]].
  2:{ exists 1%nat. cbn [fst snd firstn]. repeat split; auto; try discriminate.
      intros cmd H; inversion H; cbn; tauto. }
  destruct (exec_LookPath w "pacman") as [p2 [e2|]].
  2:{ exists 2%nat. cbn [fst snd firstn]. rewrite <- app_assoc.
      repeat split; auto; try discriminate.
      intros cmd H; inversion H; cbn; tauto. }
  exists 3%nat.
  destruct (exec_LookPath w "rpm") as [p3 [e3|]];
    cbn [fst snd firstn]; rewrite <- !app_assoc;
    repeat split; auto; try discriminate.
  intros cmd H; inversion H; cbn; tauto.
Qed.

Lemma selectCommand_returns (w : World) (info : InfoStat) (t : list event) :
  exists sel, fst (selectCommand w (Some info) t) = Ret sel.
Proof.
  unfold selectCommand.
  destruct (runtime_GOOS w =? "linux")%string; [|eexists; reflexivity].
  unfold lift, mbind, deref. cbv beta iota zeta.
  repeat match goal with
  | |- context [if ?b then _ else _] =>
      destruct b; [eexists; reflexivity|]
  end.
  unfold call_LookPath, mbind, emit, ret.
  destruct (exec_LookPath w "dpkg") as [p1 [e1|]]; [|eexists; reflexivity].
  destruct (exec_LookPath w "pacman") as [p2 [e2|]]; [|eexists; reflexivity].
  destruct (exec_LookPath w "rpm") as [p3 [e3|]]; eexists; reflexivity.
Qed.

(** What [getPackageCount] adds to the trace: its query of the host,
    the probes of the fallback, and at most one command. *)
Lemma getPackageCount_trace (w : World) (t : list event) :
  exists (n : nat) (execs : list event),
    (n <= 3)%nat
    /\ snd (getPackageCount w t)
       = (t ++ HostInfo :: firstn n probes ++ execs)%list
    /\ (execs = []
        \/ exists cmd, In cmd package_commands
                       /\ execs = [Exec (Cmd_name cmd) (Cmd_args cmd)])
    /\ ((runtime_GOOS w =? "linux")%string = false -> n = 0%nat /\ execs = [])
    /\ (snd (host_Info w (count_HostInfo t)) <> None ->
        n = 0%nat /\ execs = []).
Proof.
  unfold getPackageCount, mbind at 1, call_host_Info.
  destruct (host_Info w (count_HostInfo t)) as [info [e|]]; cbn [snd].
  { exists 0%nat, []. unfold ret. cbn. repeat split; auto; lia. }
  destruct (selectCommand_trace w info (t ++ [HostInfo])%list)
    as (n & Hn & Ht & Hos & Hcmd).
  unfold mbind.
  destruct (selectCommand w info (t ++ [HostInfo])%list)
    as [[[cmd|early]|msg] t1] eqn:Hsel; cbn [fst snd] in *; subst t1.
  - exists n, [Exec (Cmd_name cmd) (Cmd_args cmd)].
    unfold call_Output, mbind, emit, ret.
    split; [exact Hn|]. split.
    + destruct (Cmd_Output w cmd) as [out [e|]]; cbn [snd];
        now rewrite <- !app_assoc.
    + split; [right; exists cmd; split; [now apply Hcmd|reflexivity]|].
      split; [|congruence].
      intros Hos'. exfalso. unfold selectCommand in Hsel.
      rewrite Hos' in Hsel. discriminate.
  - exists n, []. unfold ret. cbn [snd]. rewrite app_nil_r, <- app_assoc.
    repeat split; auto; congruence.
  - exists n, []. cbn [snd]. rewrite app_nil_r, <- app_assoc.
    repeat split; auto; congruence.
Qed.

Lemma firstn_probes_silent (n : nat) : existsb is_write (firstn n probes) = false.
Proof. destruct n as [|[|[|[|n]]]]; reflexivity. Qed.

(** [getPackageCount] writes nothing. *)
Lemma getPackageCount_silent (w : World) (t : list event) :
  exists queries,
    snd (getPackageCount w t) = (t ++ queries)%list
    /\ existsb is_write queries = false.
Proof.
  unfold getPackageCount, mbind at 1, call_host_Info.
  destruct (host_Info w (count_HostInfo t)) as [info [e|]].
  { exists [HostInfo]. split; reflexivity. }
  destruct (selectCommand_trace w info (t ++ [HostInfo])%list)
    as (n & _ & Ht & _).
  unfold mbind.
  destruct (selectCommand w info (t ++ [HostInfo])%list)
    as [[[cmd|early]|msg] t1]; cbn [fst snd] in *; subst t1.
  - exists (HostInfo :: firstn n probes
              ++ [Exec (Cmd_name cmd) (Cmd_args cmd)])%list.
    unfold call_Output, mbind, emit, ret. split.
    + destruct (Cmd_Output w cmd) as [out [e|]]; cbn [snd];
        now rewrite <- !app_assoc.
    + cbn [existsb is_write orb]. rewrite existsb_app, firstn_probes_silent.
      reflexivity.
  - exists (HostInfo :: firstn n probes)%list. unfold ret. cbn [snd].
    rewrite <- app_assoc. split; [reflexivity|]. apply firstn_probes_silent.
  - exists (HostInfo :: firstn n probes)%list. cbn [snd].
    rewrite <- app_assoc. split; [reflexivity|]. apply firstn_probes_silent.
Qed.

(** [getPackageCount] panics on one answer only: on Linux, the nil
    record with the nil error. *)
Lemma getPackageCount_outcome (w : World) (t : list event) :
  if host_answer_ok w (count_HostInfo t)
  then exists r, fst (getPackageCount w t) = Ret r
  else getPackageCount w t = (Panic nil_dereference, (t ++ [HostInfo])%list).
Proof.
  assert (E : getPackageCount w t
              = match host_Info w (count_HostInfo t) with
                | (_, Some e) => (Ret (0, Some e), (t ++ [HostInfo])%list)
                | (osInfo, None) =>
                    match selectCommand w osInfo (t ++ [HostInfo])%list with
                    | (Ret (inl cmd), t') =>
                        (Ret match Cmd_Output w cmd with
                             | (_, Some e) => (0, Some e)
                             | (output, None) =>
                                 (Z.of_nat (List.length (Split output newline)) - 1,
                                  None)
                             end,
                         (t' ++ [Exec (Cmd_name cmd) (Cmd_args cmd)])%list)
                    | (Ret (inr early), t') => (Ret early, t')
                    | (Panic msg, t') => (Panic msg, t')
                    end
                end).
  { unfold getPackageCount, mbind at 1, call_host_Info.
    destruct (host_Info w (count_HostInfo t)) as [info [e|]]; [reflexivity|].
    unfold mbind at 1.
    destruct (selectCommand w info (t ++ [HostInfo])%list)
      as [[[cmd|early]|msg] t1]; try reflexivity.
    unfold call_Output, mbind, emit, ret.
    destruct (Cmd_Output w cmd) as [out [e|]]; reflexivity. }
  rewrite E. clear E. unfold host_answer_ok.
  destruct (host_Info w (count_HostInfo t)) as [info [e|]].
  { destruct info; eexists; reflexivity. }
  destruct info as [info|].
  - destruct (selectCommand_returns w info (t ++ [HostInfo])%list) as [sel Hs].
    destruct (selectCommand w (Some info) (t ++ [HostInfo])%list) as [r t1].
    cbn [fst] in Hs. subst r.
    destruct sel as [cmd|early]; eexists; reflexivity.
  - unfold selectCommand.
    destruct (runtime_GOOS w =? "linux")%string; cbn [negb].
    + reflexivity.
    + eexists; reflexivity.
Qed.

Lemma getPackageCount_error_zero (w : World) (t : list event) (n : Z) (e : string) :
  fst (getPackageCount w t) = Ret (n, Some e) -> n = 0.
Proof.
  unfold getPackageCount, mbind at 1, call_host_Info.
  destruct (host_Info w (count_HostInfo t)) as [info [e0|]];
    [unfold ret; cbn; intros H; now inversion H|].
  unfold mbind.
  destruct (selectCommand w info _) as [[[cmd|[z e1]]|msg] t1] eqn:Hsel;
    [| |discriminate].
  - unfold call_Output, mbind, emit, ret.
    destruct (Cmd_Output w cmd) as [out [e1|]]; cbn; intros H; now inversion H.
  - unfold ret. cbn. intros H. inversion H; subst.
    now apply selectCommand_early in Hsel.
Qed.

(** X1.  The outcomes of [getPackageCount].  It panics in one case
    only, with a nil dereference: on Linux, when its query of the host
    answers the nil record with the nil error.  Whenever it returns,
    a nil error comes with a count that is not negative and an error
    comes with the count 0; so the sentinel -1 that [main] puts in
    place of the count stands for an error and for nothing else. *)
Theorem getPackageCount_outcomes :
  forall (w : World) (t : list event),
    (fst (getPackageCount w t) = Panic nil_dereference
     <-> host_Info w (count_HostInfo t) = (None, None)
         /\ runtime_GOOS w = "linux")
    /\ (forall msg, fst (getPackageCount w t) = Panic msg -> msg = nil_dereference)
    /\ (forall n e,
          fst (getPackageCount w t) = Ret (n, e) ->
          (e = None -> 0 <= n)
          /\ (e <> None -> n = 0)
          /\ ((match e with Some _ => -1 | None => n end >=? 0) = true
              <-> e = None)).
Proof.
  intros w t.
  pose proof (getPackageCount_outcome w t) as Ho.
  unfold host_answer_ok in Ho.
  split; [|split].
  - destruct (host_Info w (count_HostInfo t)) as [[info|] [e|]];
      try (destruct Ho as [r Hr]; rewrite Hr;
           split; [discriminate|intros [H _]; discriminate]).
    destruct (String.eqb_spec (runtime_GOOS w) "linux") as [Hos|Hos];
      cbn [negb] in Ho.
    + rewrite Ho. cbn. tauto.
    + destruct Ho as [r Hr]. rewrite Hr. split; [discriminate|tauto].
  - intros msg.
    destruct (host_Info w (count_HostInfo t)) as [[info|] [e|]];
      try (destruct Ho as [r Hr]; rewrite Hr; discriminate).
    destruct (runtime_GOOS w =? "linux")%string; cbn [negb] in Ho.
    + rewrite Ho. cbn. intros H. now inversion H.
    + destruct Ho as [r Hr]. rewrite Hr. discriminate.
  - intros n e Hr.
    assert (Hnn : e = None -> 0 <= n).
    { intros ->. destruct (getPackageCount w t) as [r t'] eqn:E.
      cbn in Hr. subst r. exact (getPackageCount_nonneg w t t' n E). }
    split; [exact Hnn|]. split.
    + destruct e as [e|]; [|congruence]. intros _.
      exact (getPackageCount_error_zero w t n e Hr).
    + destruct e as [e|].
      * split; [discriminate|discriminate].
      * specialize (Hnn eq_refl). split; [reflexivity|].
        intros _. apply Z.geb_le. lia.
Qed.

(** ** The graphics query *)

Lemma getGPUInfo_outcome (w : World) :
  if gpu_answer_ok w then exists r, getGPUInfo w = Ret r
  else getGPUInfo w = Panic nil_dereference.
Proof.
  unfold gpu_answer_ok, getGPUInfo.
  destruct (ghw_GPU w) as [[gpu|] [e|]]; try (eexists; reflexivity).
  cbn [deref bind].
  destruct (GraphicsCards gpu) as [|[[[[[v|] [p|]]|]]|] cards];
    cbn; try reflexivity; eexists; reflexivity.
Qed.

(** X2.  [getGPUInfo] returns exactly when the graphics query answers
    an error, or a record whose card list is empty or starts with a
    card that has a device record with a product or a vendor; in every
    other case it panics on a nil pointer.  Only the first card of the
    list is read: two answers with the same first card give the same
    result. *)
Theorem getGPUInfo_returns_iff :
  forall w : World,
    ((exists r, getGPUInfo w = Ret r) <-> gpu_answer_ok w = true)
    /\ (getGPUInfo w = Panic nil_dereference <-> gpu_answer_ok w = false)
    /\ (forall (w' : World) (gpu gpu' : GPUInfo),
          ghw_GPU w = (Some gpu, None) -> ghw_GPU w' = (Some gpu', None) ->
          hd_error (GraphicsCards gpu) = hd_error (GraphicsCards gpu') ->
          getGPUInfo w = getGPUInfo w').
Proof.
  intros w. pose proof (getGPUInfo_outcome w) as Ho.
  split; [|split].
  - destruct (gpu_answer_ok w).
    + tauto.
    + rewrite Ho. split; [intros [r H]; discriminate|discriminate].
  - destruct (gpu_answer_ok w).
    + destruct Ho as [r Hr]. rewrite Hr. split; discriminate.
    + tauto.
  - intros w' gpu gpu' H H' Hhd. unfold getGPUInfo. rewrite H, H'.
    cbn [deref bind].
    destruct (GraphicsCards gpu) as [|c l], (GraphicsCards gpu') as [|c' l'];
      try discriminate; [reflexivity|].
    cbn in Hhd. inversion Hhd. reflexivity.
Qed.

(** ** The processor query *)

(** X3.  [getCPUInfo] takes the core count from [runtime.NumCPU] on
    every path, whatever [cpu.Info] answers: the test [cores == 0]
    changes nothing.  The model and the speed come from the first
    descriptor when the query succeeds with a descriptor, and are
    "Unknown" and zero, printed 0.00, when it fails or the list is
    empty. *)
Theorem getCPUInfo_cores_from_runtime :
  forall w : World,
    snd (fst (getCPUInfo w)) = runtime_NumCPU w
    /\ match cpu_Info w with
       | (c0 :: _, None) =>
           fst (fst (getCPUInfo w)) = ModelName c0
           /\ snd (getCPUInfo w) = f64_div (Mhz c0) (f64_of_int 1000)
       | _ =>
           fst (fst (getCPUInfo w)) = "Unknown"
           /\ snd (getCPUInfo w) = S754_zero false
           /\ fmt_f 2 (snd (getCPUInfo w)) = "0.00"
       end.
Proof.
  intros w. unfold getCPUInfo.
  destruct (cpu_Info w) as [[|c0 l] [e|]]; cbn [fst snd];
    try (repeat split; reflexivity).
  split; [|split; reflexivity].
  destruct (runtime_NumCPU w =? 0); reflexivity.
Qed.

(** ** The whole run *)

Lemma stdout_silent (t : list event) :
  existsb is_write t = false -> stdout t = "".
Proof.
  induction t as [|e t IH]; [reflexivity|].
  destruct e; cbn; auto. discriminate.
Qed.

Lemma memory_in_range_formats (w : World) (mi : VirtualMemoryStat) (e : error) :
  memory_in_range w = true -> mem_VirtualMemory w = (Some mi, e) ->
  exists used total,
    formatBytes (Used mi) = Ret used /\ formatBytes (Total mi) = Ret total.
Proof.
  unfold memory_in_range. intros H E. rewrite E in H. cbn [fst] in H.
  apply andb_true_iff in H as [H H4]. apply andb_true_iff in H as [H H3].
  apply andb_true_iff in H as [H1 H2].
  apply Z.leb_le in H1, H2, H3, H4.
  destruct (formatBytes_never_panics (Used mi) ltac:(lia)) as [used Hu].
  destruct (formatBytes_never_panics (Total mi) ltac:(lia)) as [total Ht].
  now exists used, total.
Qed.

(** The two ends of [main]: with the answers it needs it reaches the
    hypotheses of [main_run]; without them it panics on a nil record,
    before the header or right after it. *)
Lemma main_outcome (w : World) :
  memory_in_range w = true ->
  if answers_ok w then
    exists oi e1 mi e2 pc pe t1 g ge used total,
      host_Info w 0%nat = (Some oi, e1)
      /\ mem_VirtualMemory w = (Some mi, e2)
      /\ getPackageCount w [HostInfo] = (Ret (pc, pe), t1)
      /\ existsb is_write t1 = false
      /\ getGPUInfo w = Ret (g, ge)
      /\ formatBytes (Used mi) = Ret used
      /\ formatBytes (Total mi) = Ret total
  else
    exists t,
      main w [] = (Panic nil_dereference, t)
      /\ (stdout t = ""
          \/ stdout t = header (os_Getenv w "USER") (fst (os_Hostname w))).
Proof.
  intros Hm.
  pose proof (getPackageCount_outcome w [HostInfo]) as Hp.
  pose proof (getGPUInfo_outcome w) as Hg.
  destruct (getPackageCount_silent w [HostInfo]) as (queries & Hq & Hsil).
  cbn [count_HostInfo] in Hp.
  unfold answers_ok.
  destruct (host_answer_ok w 1) eqn:Hp1.
  2:{ rewrite andb_false_r. cbn [andb].
      exists [HostInfo; HostInfo]. split; [|now left].
      unfold main. destruct (os_Hostname w) as [hostname he].
      unfold mbind at 1. unfold call_host_Info. cbn [count_HostInfo app].
      destruct (host_Info w 0) as [oi e1].
      destruct (mem_VirtualMemory w) as [mi e2].
      destruct (getCPUInfo w) as [[cpuModel cores] speed].
      unfold mbind at 1. rewrite Hp. reflexivity. }
  destruct Hp as [[pc pe] Hp].
  destruct (getPackageCount w [HostInfo]) as [r t1] eqn:Hpc.
  cbn [fst snd] in Hp, Hq. subst r.
  assert (Ht1 : existsb is_write t1 = false).
  { rewrite Hq. cbn [app existsb is_write orb]. exact Hsil. }
  destruct (gpu_answer_ok w) eqn:Hg1.
  2:{ rewrite andb_false_r.
      exists t1. split; [|left; now apply stdout_silent].
      unfold main. destruct (os_Hostname w) as [hostname he].
      unfold mbind at 1. unfold call_host_Info. cbn [count_HostInfo app].
      destruct (host_Info w 0) as [oi e1].
      destruct (mem_VirtualMemory w) as [mi e2].
      destruct (getCPUInfo w) as [[cpuModel cores] speed].
      unfold mbind at 1. rewrite Hpc.
      unfold mbind at 1, lift at 1. rewrite Hg. reflexivity. }
  destruct Hg as [[g ge] Hg].
  rewrite !andb_true_r.
  destruct (host_Info w 0) as [[oi|] e1] eqn:Hoi; cbn [fst present_record andb].
  2:{ exists (t1 ++ [Stdout (header (os_Getenv w "USER") (fst (os_Hostname w)))])%list.
      split.
      - unfold main. destruct (os_Hostname w) as [hostname he].
        unfold mbind at 1. unfold call_host_Info. cbn [count_HostInfo app].
        rewrite Hoi.
        destruct (mem_VirtualMemory w) as [mi e2].
        destruct (getCPUInfo w) as [[cpuModel cores] speed].
        unfold mbind at 1. rewrite Hpc.
        unfold mbind at 1, lift at 1. rewrite Hg.
        unfold mbind at 1, Printf at 1, emit at 1.
        unfold mbind at 1, lift at 1. reflexivity.
      - right. rewrite stdout_app, (stdout_silent t1 Ht1). cbn.
        now rewrite append_nil_r. }
  destruct (mem_VirtualMemory w) as [[mi|] e2] eqn:Hmi; cbn [fst present_record].
  2:{ exists (t1 ++ [Stdout (header (os_Getenv w "USER") (fst (os_Hostname w)))])%list.
      split.
      - unfold main. destruct (os_Hostname w) as [hostname he].
        unfold mbind at 1. unfold call_host_Info. cbn [count_HostInfo app].
        rewrite Hoi, Hmi.
        destruct (getCPUInfo w) as [[cpuModel cores] speed].
        unfold mbind at 1. rewrite Hpc.
        unfold mbind at 1, lift at 1. rewrite Hg.
        unfold mbind at 1, Printf at 1, emit at 1.
        unfold mbind at 1, lift at 1. reflexivity.
      - right. rewrite stdout_app, (stdout_silent t1 Ht1). cbn.
        now rewrite append_nil_r. }
  destruct (memory_in_range_formats w mi e2 Hm Hmi) as (used & total & Hu & Ht).
  exists oi, e1, mi, e2, pc, pe, t1, g, ge, used, total.
  repeat split; auto.
Qed.

(** X4.  With memory counts in the range of [uint64], [main] runs to
    its end exactly when the host record and the memory record are
    there, the package counter does not meet the nil host record on
    Linux, and the first graphics card can be named.  Otherwise it
    panics on a nil pointer, and what it has written by then is
    nothing or the header line alone: never a part of the rows. *)
Theorem main_returns_iff :
  forall w : World,
    memory_in_range w = true ->
    (fst (main w []) = Ret tt <-> answers_ok w = true)
    /\ (answers_ok w = false ->
        fst (main w []) = Panic nil_dereference
        /\ (stdout (snd (main w [])) = ""
            \/ stdout (snd (main w []))
               = header (os_Getenv w "USER") (fst (os_Hostname w)))).
Proof.
  intros w Hm. pose proof (main_outcome w Hm) as Ho.
  destruct (answers_ok w).
  - destruct Ho as (oi & e1 & mi & e2 & pc & pe & t1 & g & ge & used & total
                    & Hoi & Hmi & Hpc & _ & Hg & Hu & Ht).
    rewrite (main_run w oi e1 mi e2 pc pe t1 g ge used total Hoi Hmi Hpc Hg Hu Ht).
    split; [tauto|discriminate].
  - destruct Ho as (t & E & Hs). rewrite E. cbn [fst snd].
    split; [split; discriminate|]. intros _. split; [reflexivity|exact Hs].
Qed.

Lemma main_returns_iff_witness :
  fst (main Worlds.linux_host []) = Ret tt.
Proof.
  apply (proj1 (main_returns_iff Worlds.linux_host eq_refl)). reflexivity.
Defined.

(** X5.  A run of [main] that ends has made all its queries before
    its first write, and then writes the header, one line for each of
    nine rows padded to the width 8, whose labels are Hostname, OS,
    Kernel, Uptime, Shell, CPU, GPU, Memory, Packages in that order,
    the seven colour blocks and a line feed.  The GPU row holds "None"
    or the name that [getGPUInfo] returned with a nil error.  The
    Packages row holds the count of the package counter, which is not
    negative, or "Unable to determine" with the error variable as the
    graphics query left it. *)
Theorem main_writes_after_all_queries :
  forall (w : World) (t : list event),
    memory_in_range w = true ->
    main w [] = (Ret tt, t) ->
    exists (queries : list event) (info : list item),
      t = (queries
             ++ Stdout (header (os_Getenv w "USER") (fst (os_Hostname w)))
             :: map Stdout (map (row_line 8) info)
             ++ map Stdout (map (termenv_block w) palette)
             ++ [Stdout nl])%list
      /\ existsb is_write queries = false
      /\ map label info = labels
      /\ (nth 6 (map value info) "" = "None"
          \/ getGPUInfo w = Ret (nth 6 (map value info) "", None))
      /\ ((exists n,
              fst (getPackageCount w [HostInfo]) = Ret (n, None)
              /\ 0 <= n /\ nth 8 (map value info) "" = fmt_d n)
          \/ exists n e g ge,
               fst (getPackageCount w [HostInfo]) = Ret (n, Some e)
               /\ getGPUInfo w = Ret (g, ge)
               /\ nth 8 (map value info) ""
                  = "Unable to determine (" ++ fmt_s_error ge ++ ")").
Proof.
  intros w t Hm Hrun. pose proof (main_outcome w Hm) as Ho.
  destruct (answers_ok w).
  2:{ destruct Ho as (t' & E & _). rewrite E in Hrun. discriminate. }
  destruct Ho as (oi & e1 & mi & e2 & pc & pe & t1 & g & ge & used & total
                  & Hoi & Hmi & Hpc & Hsil & Hg & Hu & Ht).
  rewrite (main_run w oi e1 mi e2 pc pe t1 g ge used total Hoi Hmi Hpc Hg Hu Ht)
    in Hrun.
  inversion Hrun as [Et]. clear Hrun Et.
  exists t1,
    (rows w oi used total (match ge with Some _ => "None" | None => g end)
          (packages_text pc pe ge)).
  split; [reflexivity|]. split; [exact Hsil|]. split; [reflexivity|].
  cbn [rows map value nth]. split.
  - destruct ge as [e|]; [now left|right; exact Hg].
  - unfold packages_text. rewrite Hpc. cbn [fst]. destruct pe as [e|].
    + right. now exists pc, e, g, ge.
    + left. exists pc. split; [reflexivity|]. split; [|reflexivity].
      exact (getPackageCount_nonneg w _ _ _ Hpc).
Qed.

Lemma main_writes_after_all_queries_witness :
  exists (queries : list event) (info : list item),
    snd (main Worlds.linux_host [])
    = (queries ++ Stdout (header "alice" "box")
         :: map Stdout (map (row_line 8) info)
         ++ map Stdout (map (termenv_block Worlds.linux_host) palette)
         ++ [Stdout nl])%list
    /\ existsb is_write queries = false
    /\ map label info = labels.
Proof.
  destruct (main_writes_after_all_queries Worlds.linux_host
              (snd (main Worlds.linux_host [])) eq_refl eq_refl)
    as (queries & info & E & Hq & Hl & _).
  exists queries, info. repeat split; assumption.
Defined.

(** ** Package listings *)

Lemma Split_line (line rest : string) :
  no_line_feed line = true ->
  Split (line ++ nl ++ rest) newline = line :: Split rest newline.
Proof.
  unfold no_line_feed.
  induction line as [|c line IH]; intros H; [reflexivity|].
  cbn in H. apply andb_true_iff in H as [Hc H].
  cbn [append Split]. apply negb_true_iff in Hc. rewrite Hc.
  now rewrite (IH H).
Qed.

Lemma Split_last (line : string) :
  no_line_feed line = true -> Split line newline = [line].
Proof.
  unfold no_line_feed.
  induction line as [|c line IH]; intros H; [reflexivity|].
  cbn in H. apply andb_true_iff in H as [Hc H].
  cbn [Split]. apply negb_true_iff in Hc. rewrite Hc.
  now rewrite (IH H).
Qed.

Lemma Split_listing (lines : list string) :
  forallb no_line_feed lines = true ->
  Split (listing lines) newline = (lines ++ [""])%list.
Proof.
  induction lines as [|line lines IH]; intros H; [reflexivity|].
  cbn in H. apply andb_true_iff in H as [Hl H].
  cbn [listing]. rewrite (Split_line _ _ Hl), (IH H). reflexivity.
Qed.

Lemma Split_unterminated (lines : list string) :
  forall line,
    forallb no_line_feed (line :: lines) = true ->
    Split (unterminated line lines) newline = line :: lines.
Proof.
  induction lines as [|line' lines IH]; intros line H.
  - cbn in H. rewrite andb_true_r in H. now apply Split_last.
  - cbn [forallb] in H. apply andb_true_iff in H as [Hl H].
    cbn [unterminated]. rewrite (Split_line _ _ Hl), (IH _ H). reflexivity.
Qed.

(** X6.  On a listing whose lines hold no line feed, [strings.Split]
    gives back the lines, with an empty segment at the end when the
    last line is followed by a line feed.  So [getPackageCount]
    returns the number of lines when each one is terminated, and one
    less when the last one is not. *)
Theorem getPackageCount_counts_terminated_lines :
  forall (w : World) (t t' : list event) (info : option InfoStat)
         (cmd : Cmd) (line : string) (lines : list string),
    host_Info w (count_HostInfo t) = (info, None) ->
    selectCommand w info (t ++ [HostInfo])%list = (Ret (inl cmd), t') ->
    forallb no_line_feed (line :: lines) = true ->
    Split (listing (line :: lines)) newline = (line :: lines ++ [""])%list
    /\ Split (unterminated line lines) newline = line :: lines
    /\ (Cmd_Output w cmd = (listing (line :: lines), None) ->
        fst (getPackageCount w t) = Ret (Z.of_nat (List.length (line :: lines)), None))
    /\ (Cmd_Output w cmd = (unterminated line lines, None) ->
        fst (getPackageCount w t) = Ret (Z.of_nat (List.length lines), None)).
Proof.
  intros w t t' info cmd line lines Hinfo Hsel Hl.
  pose proof (Split_listing (line :: lines) Hl) as E1.
  pose proof (Split_unterminated lines line Hl) as E2.
  split; [exact E1|]. split; [exact E2|].
  split; intros Hout; unfold getPackageCount, mbind, call_host_Info;
    rewrite Hinfo, Hsel; unfold call_Output, mbind, emit, ret;
    rewrite Hout; cbn [fst]; [rewrite E1|rewrite E2];
    do 2 f_equal; cbn [List.length app]; rewrite ?length_app;
    cbn [List.length]; lia.
Qed.

Lemma getPackageCount_counts_terminated_lines_witness :
  fst (getPackageCount
         (Worlds.linux_host_listing (unterminated "p1" ["p2"; "p3"])) [])
  = Ret (2, None).
Proof.
  apply (getPackageCount_counts_terminated_lines
           (Worlds.linux_host_listing (unterminated "p1" ["p2"; "p3"]))
           [] [HostInfo] (Some Worlds.ubuntu)
           (Command "dpkg" ["--get-selections"]) "p1" ["p2"; "p3"]);
    reflexivity.
Defined.

(** ** The range of the printed size *)

Lemma round53_ge_pow2 (j z : Z) : 0 <= j -> 2 ^ j <= z -> 2 ^ j <= round53 z.
Proof.
  intros Hj Hz.
  assert (H0 : 0 < 2 ^ j) by (apply Z.pow_pos_nonneg; lia).
  destruct (Z_lt_le_dec z (2 ^ 53)) as [Hs|Hb].
  { rewrite round53_small by lia. exact Hz. }
  assert (HL : 53 <= Z.log2 z) by (apply Z.log2_le_pow2; lia).
  pose proof (Z.log2_spec z ltac:(lia)) as [Hlo _].
  unfold round53. replace (Z.max 0 (Z.log2 z - 52)) with (Z.log2 z - 52) by lia.
  set (n := Z.log2 z - 52) in *.
  assert (HPn : 0 < 2 ^ n) by (apply Z.pow_pos_nonneg; lia).
  destruct (Z_le_gt_dec n j) as [Hnj|Hnj].
  - assert (E : 2 ^ j = 2 ^ (j - n) * 2 ^ n)
      by (rewrite <- Z.pow_add_r by lia; f_equal; lia).
    rewrite E.
    apply Z.mul_le_mono_nonneg_r; [lia|].
    apply round_half_even_lower; [lia|]. now rewrite <- E.
  - assert (1 <= round_half_even z (2 ^ n)).
    { apply round_half_even_lower; [lia|].
      assert (2 ^ n <= 2 ^ Z.log2 z) by (apply Z.pow_le_mono_r; lia). lia. }
    assert (2 ^ j < 2 ^ n) by (apply Z.pow_lt_mono_r; lia). nia.
Qed.

Lemma round53_le_pow2 (j z : Z) : 0 < z <= 2 ^ j -> round53 z <= 2 ^ j.
Proof.
  intros Hz.
  destruct (Z_lt_le_dec z (2 ^ 53)) as [Hs|Hb].
  { rewrite round53_small by lia. lia. }
  assert (HL : 53 <= Z.log2 z) by (apply Z.log2_le_pow2; lia).
  pose proof (Z.log2_spec z ltac:(lia)) as [Hlo _].
  assert (Hj : Z.log2 z <= j).
  { destruct (Z_le_gt_dec (Z.log2 z) j) as [|Hgt]; [assumption|].
    assert (0 <= j).
    { destruct (Z_le_gt_dec 0 j); [assumption|].
      rewrite Z.pow_neg_r in Hz by lia. lia. }
    assert (2 ^ j < 2 ^ Z.log2 z) by (apply Z.pow_lt_mono_r; lia).
    destruct (Z.eq_dec z (2 ^ j)) as [->|Hne].
    - rewrite Z.log2_pow2 in Hgt by lia. lia.
    - lia. }
  unfold round53. replace (Z.max 0 (Z.log2 z - 52)) with (Z.log2 z - 52) by lia.
  set (n := Z.log2 z - 52) in *.
  assert (HPn : 0 < 2 ^ n) by (apply Z.pow_pos_nonneg; lia).
  assert (E : 2 ^ j = 2 ^ (j - n) * 2 ^ n)
    by (rewrite <- Z.pow_add_r by lia; f_equal; lia).
  rewrite E. apply Z.mul_le_mono_nonneg_r; [lia|].
  apply round_half_even_upper; [lia|]. now rewrite <- E.
Qed.

(** X7.  For a count of 1024 or more, the loop of [formatBytes]
    leaves [div] at [1024 ^ k] without wrapping around and [exp] at
    [k - 1], an index into "KMGTPE", where [k] is the number of
    divisions by 1024 and [1024 ^ k <= bytes < 1024 ^ (k + 1)].  The
    number printed lies between 1.0 and 1024.0, both reached: a count
    just below the next unit is not carried to it, 1048575 prints as
    "1024.0 KiB"; the largest count prints as "16.0 EiB". *)
Theorem formatBytes_quotient_range :
  forall bytes : Z,
    1024 <= bytes <= max_u64 ->
    let k := divisions bytes in
    formatBytes_loop (bytes / unit) unit 0 = (1024 ^ k, k - 1)
    /\ 1024 ^ k <= bytes < 1024 ^ (k + 1)
    /\ 0 <= k - 1 < len "KMGTPE"
    /\ (exists T : Z,
          10 <= T <= 10240
          /\ formatBytes bytes
             = Ret (fmt_d (T / 10) ++ "." ++ fmt_d (T mod 10) ++ " "
                      ++ suffix k ++ "iB"))
    /\ formatBytes 1048575 = Ret "1024.0 KiB"
    /\ formatBytes max_u64 = Ret "16.0 EiB".
Proof.
  intros bytes Hb k.
  pose proof (divisions_range bytes Hb) as Hk. fold k in Hk.
  destruct (divisions_spec bytes ltac:(lia)) as (_ & Hlo & Hhi).
  specialize (Hlo ltac:(lia)). fold k in Hlo, Hhi.
  assert (Epow : 1024 ^ k = 2 ^ (10 * k))
    by (rewrite Z.pow_mul_r by lia; reflexivity).
  assert (Epow' : 1024 ^ (k + 1) = 2 ^ (10 * k + 10)).
  { replace (10 * k + 10) with (10 * (k + 1)) by lia.
    rewrite Z.pow_mul_r by lia. reflexivity. }
  assert (HP : 0 < 1024 ^ k) by (apply Z.pow_pos_nonneg; lia).
  split; [|split; [lia|split; [change (len "KMGTPE") with 6; lia|split]]].
  - unfold unit. rewrite formatBytes_loop_spec by (apply Z.div_pos; lia).
    assert (Ek : k = 1 + divisions (bytes / 1024))
      by (unfold k; apply divisions_ge; lia).
    set (j := divisions (bytes / 1024)) in *.
    f_equal; [|lia].
    destruct (Z.eqb_spec j 0) as [E|Hne].
    + rewrite Ek, E. reflexivity.
    + unfold wrap_u64. rewrite Ek, Z.pow_add_r, Z.pow_1_r by lia.
      apply Z.mod_small. unfold max_u64 in Hb.
      rewrite Ek, Z.pow_add_r, Z.pow_1_r in Hlo by lia. lia.
  - exists (round_half_even (10 * round53 bytes) (1024 ^ k)). split.
    + pose proof (round53_ge_pow2 (10 * k) bytes ltac:(lia) ltac:(lia)) as H1.
      pose proof (round53_le_pow2 (10 * k + 10) bytes ltac:(lia)) as H2.
      split.
      * apply round_half_even_lower; lia.
      * apply round_half_even_upper; [lia|].
        replace (2 ^ (10 * k + 10)) with (1024 * 2 ^ (10 * k)) in H2
          by (rewrite Z.pow_add_r by lia; change (2 ^ 10) with 1024; ring).
        lia.
    + rewrite (formatBytes_humanize bytes) by lia.
      unfold humanize, one_decimal. fold k.
      destruct (Z.ltb_spec bytes 1024); [lia|].
      now rewrite !append_assoc.
  - split; vm_compute; reflexivity.
Qed.

Lemma formatBytes_quotient_range_witness :
  formatBytes_loop (3221225472 / unit) unit 0
  = (1024 ^ divisions 3221225472, divisions 3221225472 - 1).
Proof.
  apply (formatBytes_quotient_range 3221225472). unfold max_u64. lia.
Defined.

(** ** What the cleaner keeps *)

(** X8.  [cleanGPUName] invents nothing: its result is a contiguous
    part of the name.  When it changes the name, the result is at
    least three bytes shorter and has no white space at either end. *)
Theorem cleanGPUName_keeps_part_of_name :
  forall name : string,
    (exists before after : string,
        name = before ++ cleanGPUName name ++ after)
    /\ (cleanGPUName name <> name ->
        len (cleanGPUName name) + 3 <= len name
        /\ space_first (list_ascii_of_string (cleanGPUName name)) = false
        /\ space_last (list_ascii_of_string (cleanGPUName name)) = false).
Proof.
  intros name.
  unfold cleanGPUName, FindStringSubmatch. rewrite search_unfold.
  destruct (run re None (0%nat, name) (fun cap cur => Some (cap, cur)))
    as [m|] eqn:Er.
  - destruct (run_re_sound _ _ Er) as (prefix & ws & c & H).
    rewrite (run_re_complete _ _ _ _ H) in Er.
    inversion Er; subst m; clear Er. cbv beta iota.
    destruct H as (-> & Hpne & _ & _ & _ & _).
    destruct (TrimSpace_spec c) as (lead & trail & E & _ & _ & Hf & Hl).
    assert (Ec : c = string_of_list_ascii lead ++ TrimSpace c
                       ++ string_of_list_ascii trail).
    { rewrite <- (string_of_list_ascii_of_string c) at 1. rewrite E.
      now rewrite !string_of_list_ascii_app, string_of_list_ascii_of_string. }
    split.
    + exists (prefix ++ ws ++ "[" ++ string_of_list_ascii lead),
             (string_of_list_ascii trail ++ "]").
      rewrite Ec at 1. now rewrite !append_assoc.
    + intros _. split; [|split; assumption].
      unfold len. rewrite Ec at 2. rewrite !length_append.
      destruct prefix as [|a prefix]; [congruence|]. simpl String.length. lia.
  - assert (E : match name with
                | "" => None
                | String _ s' => search re 1 s'
                end = None)
      by (destruct name; [reflexivity|apply search_anchored]).
    rewrite E. split; [|congruence].
    exists "", "". now rewrite append_nil_r.
Qed.

(** ** The edges of the shell row *)

Lemma Base_of_segment (name : string) :
  name <> "" -> no_slash name -> Base name = name.
Proof.
  unfold no_slash, Base. intros Hne H.
  destruct name as [|c name]; [congruence|].
  set (l := list_ascii_of_string (String c name)) in *.
  rewrite <- forallb_rev in H.
  rewrite (dropWhile_none _ _ H), (takeWhile_whole _ _ H), rev_involutive.
  unfold l. simpl list_ascii_of_string.
  change (c :: list_ascii_of_string name)
    with (list_ascii_of_string (String c name)).
  now rewrite string_of_list_ascii_of_string.
Qed.

(** X9.  The value of the Shell row, [filepath.Base] of SHELL, is
    never empty: it is "/" or a text without a slash ("." for an empty
    SHELL).  Taking the base again changes nothing, and the base of a
    directory, a slash and a name without a slash is the name. *)
Theorem Base_is_never_empty :
  forall path : string,
    Base path <> ""
    /\ (Base path = "/" \/ no_slash (Base path))
    /\ Base (Base path) = Base path
    /\ (forall dir : string, no_slash path -> path <> "" ->
        Base (dir ++ "/" ++ path) = path).
Proof.
  intros path.
  destruct (Base_final_segment path) as (Hempty & Hslashes & Hseg).
  assert (H3 : Base path <> ""
               /\ (Base path = "/" \/ no_slash (Base path))
               /\ Base (Base path) = Base path).
  { destruct (string_dec path "") as [->|Hne0].
    { split; [discriminate|]. split; [now right|reflexivity]. }
    destruct (forallb isSlash (list_ascii_of_string path)) eqn:Hall.
    - rewrite (Hslashes Hne0 Hall).
      split; [discriminate|]. split; [now left|reflexivity].
    - assert (Hnot : ~ all_slashes path) by (unfold all_slashes; congruence).
      destruct (Hseg Hnot) as (Hne & Hno & _).
      repeat split; [exact Hne|now right|now apply Base_of_segment]. }
  destruct H3 as (H1 & H2 & H3).
  split; [exact H1|]. split; [exact H2|]. split; [exact H3|].
  intros dir Hno Hne.
  unfold no_slash in Hno. unfold Base.
  destruct (dir ++ "/" ++ path) as [|c s] eqn:E.
  { destruct dir; discriminate. }
  rewrite <- E. clear E c s.
  assert (El : list_ascii_of_string (dir ++ "/" ++ path)
               = (list_ascii_of_string dir
                    ++ "/"%char :: list_ascii_of_string path)%list).
  { now rewrite list_ascii_of_string_app. }
  rewrite El, rev_app_distr. simpl rev. rewrite <- app_assoc. simpl app.
  set (r := rev (list_ascii_of_string path)).
  assert (Hr : forallb (fun c => negb (isSlash c)) r = true)
    by (unfold r; now rewrite forallb_rev).
  assert (Hrne : r <> []).
  { unfold r. destruct path as [|c path]; [congruence|]. simpl.
    intros H. apply app_eq_nil in H as [_ H]. discriminate. }
  assert (Ed : dropWhile isSlash (r ++ "/"%char :: rev (list_ascii_of_string dir))
               = (r ++ "/"%char :: rev (list_ascii_of_string dir))%list).
  { destruct r as [|x r']; [congruence|]. simpl in *.
    apply andb_true_iff in Hr as [Hx _]. apply negb_true_iff in Hx.
    now rewrite Hx. }
  rewrite Ed.
  assert (Et : forall tl,
             takeWhile (fun c => negb (isSlash c)) (r ++ "/"%char :: tl) = r).
  { intros tl. clear Ed Hrne. induction r as [|x r' IH]; [reflexivity|].
    simpl in *. apply andb_true_iff in Hr as [Hx Hr]. rewrite Hx.
    now rewrite (IH Hr). }
  rewrite Et. unfold r. rewrite rev_involutive.
  destruct path as [|c path]; [congruence|].
  simpl list_ascii_of_string.
  change (c :: list_ascii_of_string path)
    with (list_ascii_of_string (String c path)).
  now rewrite string_of_list_ascii_of_string.
Qed.

(** ** The box of the earlier variant *)

Lemma RuneCount_cons (c : ascii) (s1 : list ascii) :
  Legacy.RuneCount (c :: s1)
  = 1 + match Legacy.rune_size c, s1 with
        | 2%nat, d :: s2 =>
            if Legacy.accept c d then Legacy.RuneCount s2 else Legacy.RuneCount s1
        | 3%nat, d :: e :: s3 =>
            if Legacy.accept c d && Legacy.cont e then Legacy.RuneCount s3
            else Legacy.RuneCount s1
        | 4%nat, d :: e :: f :: s4 =>
            if Legacy.accept c d && Legacy.cont e && Legacy.cont f
            then Legacy.RuneCount s4
            else Legacy.RuneCount s1
        | _, _ => Legacy.RuneCount s1
        end.
Proof. reflexivity. Qed.

Lemma ascii_not_accepted (c a : ascii) :
  ascii_byte a = true -> Legacy.accept c a = false.
Proof.
  unfold ascii_byte, Legacy.accept. intros H. apply N.ltb_lt in H.
  apply andb_false_iff. left. apply N.leb_gt.
  destruct (code c =? 224)%N; [lia|]. destruct (code c =? 240)%N; lia.
Qed.

Lemma ascii_not_cont (a : ascii) : ascii_byte a = true -> Legacy.cont a = false.
Proof.
  unfold ascii_byte, Legacy.cont. intros H. apply N.ltb_lt in H.
  apply andb_false_iff. left. apply N.leb_gt. lia.
Qed.

Lemma ascii_rune_size (a : ascii) : ascii_byte a = true -> Legacy.rune_size a = 1%nat.
Proof.
  unfold ascii_byte, Legacy.rune_size. intros H. apply N.ltb_lt in H.
  destruct (N.leb_spec 194 (code a)); [lia|]. cbn [andb].
  destruct (N.leb_spec 224 (code a)); [lia|]. cbn [andb].
  destruct (N.leb_spec 240 (code a)); [lia|]. reflexivity.
Qed.

Ltac shorter IH l :=
  let E := fresh "E" in
  pose proof (IH l ltac:(simpl; lia)) as E; cbn [app] in E; rewrite E; clear E.

(** A byte below 128 starts a rune of its own, whatever comes before. *)
Lemma RuneCount_app_ascii (a : ascii) (r : list ascii) :
  ascii_byte a = true ->
  forall l : list ascii,
    Legacy.RuneCount (l ++ a :: r) = Legacy.RuneCount l + Legacy.RuneCount (a :: r).
Proof.
  intros Ha l.
  remember (List.length l) as n eqn:Hn. revert l Hn.
  induction n as [n IH] using lt_wf_ind. intros l Hn.
  assert (IH' : forall l', (List.length l' < List.length l)%nat ->
                Legacy.RuneCount (l' ++ a :: r)
                = Legacy.RuneCount l' + Legacy.RuneCount (a :: r)).
  { intros l' Hlt. apply (IH (List.length l')); [lia|reflexivity]. }
  clear IH Hn n.
  destruct l as [|c l1]; [reflexivity|].
  rewrite <- app_comm_cons, (RuneCount_cons c (l1 ++ a :: r)), (RuneCount_cons c l1).
  pose proof (ascii_not_accepted c a Ha) as Hacc.
  pose proof (ascii_not_cont a Ha) as Hcont.
  destruct (Legacy.rune_size c) as [|[|[|[|[|k]]]]];
    try (rewrite IH' by (simpl; lia); lia).
  - (* two bytes *)
    destruct l1 as [|d l2]; cbn [app].
    + rewrite Hacc. cbn [Legacy.RuneCount]. lia.
    + destruct (Legacy.accept c d).
      * rewrite IH' by (simpl; lia). lia.
      * shorter IH' (d :: l2). lia.
  - (* three bytes *)
    destruct l1 as [|d [|e l3]]; cbn [app].
    + rewrite Hacc. cbn [andb]. destruct r; cbn [Legacy.RuneCount]; lia.
    + rewrite Hcont, andb_false_r. shorter IH' [d]. lia.
    + destruct (Legacy.accept c d && Legacy.cont e).
      * rewrite IH' by (simpl; lia). lia.
      * shorter IH' (d :: e :: l3). lia.
  - (* four bytes *)
    destruct l1 as [|d [|e [|f l4]]]; cbn [app].
    + rewrite Hacc. cbn [andb].
      destruct r as [|x [|y r]]; cbn [Legacy.RuneCount]; lia.
    + rewrite Hcont, andb_false_r. cbn [andb].
      shorter IH' [d].
      destruct r; lia.
    + rewrite Hcont, andb_false_r. shorter IH' [d; e]. lia.
    + destruct (Legacy.accept c d && Legacy.cont e && Legacy.cont f).
      * rewrite IH' by (simpl; lia). lia.
      * shorter IH' (d :: e :: f :: l4). lia.
Qed.

Lemma RuneCount_ascii (l : list ascii) :
  forallb ascii_byte l = true -> Legacy.RuneCount l = Z.of_nat (List.length l).
Proof.
  induction l as [|c l IH]; intros H; [reflexivity|].
  cbn [forallb] in H. apply andb_true_iff in H as [Hc H].
  rewrite RuneCount_cons, (ascii_rune_size c Hc), (IH H).
  cbn [List.length]. lia.
Qed.

Lemma RuneCount_bounds (l : list ascii) :
  0 <= Legacy.RuneCount l <= Z.of_nat (List.length l).
Proof.
  remember (List.length l) as n eqn:Hn. revert l Hn.
  induction n as [n IH] using lt_wf_ind. intros l Hn.
  assert (IH' : forall l', (List.length l' < List.length l)%nat ->
                0 <= Legacy.RuneCount l' <= Z.of_nat (List.length l')).
  { intros l' Hlt. apply (IH (List.length l')); [lia|reflexivity]. }
  rewrite Hn. clear IH Hn n.
  destruct l as [|c l1]; [cbn; lia|].
  rewrite RuneCount_cons.
  assert (H1 : 0 <= Legacy.RuneCount l1 <= Z.of_nat (List.length l1))
    by (apply IH'; simpl; lia).
  cbn [List.length].
  destruct (Legacy.rune_size c) as [|[|[|[|[|k]]]]]; try lia.
  - destruct l1 as [|d l2]; [lia|].
    destruct (Legacy.accept c d); [|lia].
    pose proof (IH' l2 ltac:(simpl; lia)). cbn [List.length] in *. lia.
  - destruct l1 as [|d [|e l3]]; try lia.
    destruct (Legacy.accept c d && Legacy.cont e); [|lia].
    pose proof (IH' l3 ltac:(simpl; lia)). cbn [List.length] in *. lia.
  - destruct l1 as [|d [|e [|f l4]]]; try lia.
    destruct (Legacy.accept c d && Legacy.cont e && Legacy.cont f); [|lia].
    pose proof (IH' l4 ltac:(simpl; lia)). cbn [List.length] in *. lia.
Qed.

Lemma spaces_ascii (n : nat) (tail : list ascii) :
  forallb ascii_byte tail = true ->
  forallb ascii_byte (list_ascii_of_string (spaces n) ++ tail) = true.
Proof. intros H. induction n as [|n IH]; simpl; [exact H|exact IH]. Qed.

Lemma dashes_ascii (n : nat) (tail : list ascii) :
  forallb ascii_byte tail = true ->
  forallb ascii_byte (list_ascii_of_string (Legacy.dashes n) ++ tail) = true.
Proof. intros H. induction n as [|n IH]; simpl; [exact H|exact IH]. Qed.

Lemma length_dashes (n : nat) : String.length (Legacy.dashes n) = n.
Proof. induction n as [|n IH]; simpl; [reflexivity|now rewrite IH]. Qed.

Lemma maxLength_fold (info : list string) (m : Z) :
  m <= fold_left (fun m line => if len line >? m then len line else m) info m
  /\ forall line, In line info ->
       len line
       <= fold_left (fun m line => if len line >? m then len line else m) info m.
Proof.
  revert m; induction info as [|x info IH]; intros m; simpl.
  - split; [lia|tauto].
  - destruct (IH (if len x >? m then len x else m)) as [H1 H2].
    assert (Hm : m <= (if len x >? m then len x else m)
                 /\ len x <= (if len x >? m then len x else m))
      by (destruct (Z.gtb_spec (len x) m); lia).
    split; [lia|]. intros line [->|Hin]; [lia|auto].
Qed.

Lemma maxLength_attained (info : list string) (m : Z) :
  fold_left (fun m line => if len line >? m then len line else m) info m = m
  \/ exists line,
       In line info
       /\ len line
          = fold_left (fun m line => if len line >? m then len line else m) info m.
Proof.
  revert m; induction info as [|x info IH]; intros m; simpl; [now left|].
  destruct (IH (if len x >? m then len x else m)) as [E|(line & Hin & E)].
  - rewrite E. destruct (len x >? m); [right; exists x; auto|now left].
  - right. exists line. auto.
Qed.

(** The longest line gives the width: no line has more bytes, and one
    of them has as many. *)
Lemma maxLength_max (info : list string) :
  info <> [] ->
  (forall line, In line info -> len line <= Legacy.maxLength info)
  /\ exists line, In line info /\ len line = Legacy.maxLength info.
Proof.
  intros Hne. destruct (maxLength_fold info 0) as [H0 Hle].
  fold (Legacy.maxLength info) in H0, Hle. split; [exact Hle|].
  destruct (maxLength_attained info 0) as [E|H]; [|exact H].
  fold (Legacy.maxLength info) in E.
  destruct info as [|x info]; [congruence|].
  exists x. split; [now left|].
  specialize (Hle x (or_introl eq_refl)). unfold len in *. lia.
Qed.

(** Up to the greatest width that [fmt] takes, a line of the box is
    the text and the spaces that bring it to the width in runes, and
    it is as wide as the border: no line has more runes than the
    longest line has bytes. *)
Lemma box_line_width (info : list string) (line : string) :
  In line info -> Legacy.maxLength info <= 1000000 ->
  Legacy.box_line (Legacy.maxLength info) line
  = "| " ++ line
         ++ spaces (Z.to_nat (Legacy.maxLength info
                              - Legacy.RuneCountInString line))
         ++ " |" ++ nl
  /\ Legacy.RuneCountInString (Legacy.box_line (Legacy.maxLength info) line)
     = Legacy.maxLength info + 5.
Proof.
  intros Hin Hcap.
  destruct (maxLength_fold info 0) as [H0 Hle]. specialize (Hle line Hin).
  fold (Legacy.maxLength info) in H0, Hle.
  pose proof (RuneCount_bounds (list_ascii_of_string line)) as Hb.
  rewrite length_list_ascii in Hb. unfold len in Hle.
  fold (Legacy.RuneCountInString line) in Hb.
  set (M := Legacy.maxLength info) in *.
  set (rc := Legacy.RuneCountInString line) in *.
  assert (E : Legacy.box_line M line
              = "| " ++ line ++ spaces (Z.to_nat (M - rc)) ++ " |" ++ nl).
  { unfold Legacy.box_line. rewrite tooLarge_small by lia. fold rc.
    rewrite Z.abs_eq, <- Z2Nat.inj_sub by lia.
    now rewrite !append_assoc. }
  split; [exact E|]. rewrite E.
  set (pad := Z.to_nat (M - rc)).
  unfold Legacy.RuneCountInString.
  rewrite !list_ascii_of_string_app.
  change (list_ascii_of_string "| ") with ["|"%char; " "%char].
  cbn [app]. rewrite !RuneCount_cons.
  rewrite !ascii_rune_size by reflexivity.
  assert (Hascii : forallb ascii_byte
                     (list_ascii_of_string (spaces pad)
                        ++ [" "%char; "|"%char; "010"%char])%list = true)
    by (apply spaces_ascii; reflexivity).
  assert (Hlen : List.length (list_ascii_of_string (spaces pad)
                                ++ [" "%char; "|"%char; "010"%char])%list
                 = (pad + 3)%nat).
  { rewrite length_app, length_list_ascii, length_spaces. reflexivity. }
  change (list_ascii_of_string " |" ++ list_ascii_of_string nl)%list
    with [" "%char; "|"%char; "010"%char].
  destruct (list_ascii_of_string (spaces pad) ++ [" "%char; "|"%char; "010"%char])%list
    as [|a tail] eqn:Et; [simpl in Hlen; lia|].
  assert (Ha : ascii_byte a = true)
    by (cbn [forallb] in Hascii; now apply andb_true_iff in Hascii as [Ha _]).
  rewrite (RuneCount_app_ascii a tail Ha), (RuneCount_ascii _ Hascii), Hlen.
  fold (Legacy.RuneCountInString line). fold rc. unfold pad. lia.
Qed.

(** Beyond that width [fmt] pads nothing and says so before the text. *)
Lemma box_line_refused (width : Z) (line : string) :
  1000000 < width ->
  Legacy.box_line width line = "| %!(BADWIDTH)" ++ line ++ " |" ++ nl.
Proof.
  intros Hw. unfold Legacy.box_line, tooLarge.
  assert (E : (width >? 1000000) = true)
    by (rewrite Z.gtb_ltb; apply Z.ltb_lt; lia).
  rewrite E. cbn [orb]. unfold badWidthString. now rewrite !append_assoc.
Qed.

Lemma border_width (n : Z) :
  0 <= n ->
  Legacy.RuneCountInString (Legacy.dashes (Z.to_nat (n + 4)) ++ nl) = n + 5.
Proof.
  intros Hn. unfold Legacy.RuneCountInString.
  rewrite list_ascii_of_string_app.
  rewrite RuneCount_ascii by (apply dashes_ascii; reflexivity).
  rewrite length_app, length_list_ascii, length_dashes. simpl List.length. lia.
Qed.

Lemma Legacy_build_info_length (w : World) (hostname : string)
    (osInfo : option InfoStat) (memInfo : option VirtualMemoryStat)
    (cpuModel : string) (logicalCores : Z) (cpuSpeed : float64)
    (packageCount : Z) (err : error) (info : list string) :
  Legacy.build_info w hostname osInfo memInfo cpuModel logicalCores cpuSpeed
    packageCount err = Ret info ->
  List.length info = 8%nat.
Proof.
  unfold Legacy.build_info.
  destruct osInfo as [oi|]; [|discriminate].
  destruct memInfo as [mi|]; [|discriminate].
  cbn [deref bind].
  destruct (formatBytes (Used mi)) as [used|]; [|discriminate].
  destruct (formatBytes (Total mi)) as [total|]; [|discriminate].
  cbn [bind].
  destruct (packageCount >=? 0); intros H; inversion H; reflexivity.
Qed.

(** X10.  In [go-fetch.go], a run of [main] that ends writes, after
    its queries, the header, a rule of as many dashes as
    [username@hostname] has bytes, and the box: a border of
    [maxLength + 4] dashes, the eight lines of text that it has built,
    each between "| " and " |", and the border again, where
    [maxLength] is the greatest byte length of the eight lines.  When
    [maxLength] is at most a million, each line is followed by the
    spaces that bring it to [maxLength] runes, and the ten lines of
    the box all have [maxLength + 5] runes with their line feed,
    whatever bytes the texts hold.  Beyond a million [fmt] refuses the
    width: each line is written after "%!(BADWIDTH)", unpadded. *)
Theorem Legacy_box_is_rectangular :
  forall (w : World) (t : list event),
    Legacy.main w [] = (Ret tt, t) ->
    exists (queries : list event) (pc : Z) (pe : error) (info : list string),
      let user := os_Getenv w "USER" in
      let hostname := fst (os_Hostname w) in
      let M := Legacy.maxLength info in
      let border := Legacy.dashes (Z.to_nat (M + 4)) ++ nl in
      getPackageCount w [HostInfo] = (Ret (pc, pe), HostInfo :: queries)
      /\ existsb is_write queries = false
      /\ Legacy.build_info w hostname (fst (host_Info w 0%nat))
           (fst (mem_VirtualMemory w))
           match fst (cpu_Info w) with
           | c0 :: _ => ModelName c0
           | [] => "Unknown"
           end
           (runtime_NumCPU w)
           match fst (cpu_Info w) with
           | c0 :: _ => f64_div (Mhz c0) (f64_of_int 1000)
           | [] => S754_zero false
           end
           match pe with Some _ => -1 | None => pc end pe
         = Ret info
      /\ List.length info = 8%nat
      /\ t = (HostInfo :: queries
                ++ Stdout (esc ++ "[1m" ++ user ++ "@" ++ hostname
                             ++ esc ++ "[0m" ++ nl)
                :: Stdout (Legacy.dashes (String.length (user ++ "@" ++ hostname))
                             ++ nl)
                :: Stdout border
                :: map Stdout (map (Legacy.box_line M) info)
                ++ [Stdout border])%list
      /\ (forall line, In line info -> len line <= M)
      /\ (exists line, In line info /\ len line = M)
      /\ (M <= 1000000 ->
          Legacy.RuneCountInString border = M + 5
          /\ Forall (fun line =>
               Legacy.box_line M line
               = "| " ++ line
                      ++ spaces (Z.to_nat (M - Legacy.RuneCountInString line))
                      ++ " |" ++ nl
               /\ Legacy.RuneCountInString (Legacy.box_line M line) = M + 5)
               info)
      /\ (1000000 < M ->
          Forall (fun line =>
               Legacy.box_line M line = "| %!(BADWIDTH)" ++ line ++ " |" ++ nl)
               info).
Proof.
  intros w t Hrun. unfold Legacy.main in Hrun.
  destruct (getPackageCount_silent w [HostInfo]) as (queries & Hq & Hsil).
  destruct (os_Hostname w) as [hostname he].
  unfold mbind at 1 in Hrun. unfold call_host_Info in Hrun.
  cbn [count_HostInfo app] in Hrun.
  destruct (host_Info w 0) as [osInfo e1].
  destruct (mem_VirtualMemory w) as [memInfo e2].
  destruct (cpu_Info w) as [cpuInfo e3].
  cbn [fst].
  assert (Ecpu : match cpuInfo with
                 | c0 :: _ => (ModelName c0, f64_div (Mhz c0) (f64_of_int 1000))
                 | [] => ("Unknown", S754_zero false)
                 end
                 = (match cpuInfo with
                    | c0 :: _ => ModelName c0
                    | [] => "Unknown"
                    end,
                    match cpuInfo with
                    | c0 :: _ => f64_div (Mhz c0) (f64_of_int 1000)
                    | [] => S754_zero false
                    end))
    by (destruct cpuInfo; reflexivity).
  rewrite Ecpu in Hrun. clear Ecpu.
  set (cpuModel := match cpuInfo with
                   | c0 :: _ => ModelName c0
                   | [] => "Unknown"
                   end) in *.
  set (cpuSpeed := match cpuInfo with
                   | c0 :: _ => f64_div (Mhz c0) (f64_of_int 1000)
                   | [] => S754_zero false
                   end) in *.
  unfold mbind at 1 in Hrun.
  destruct (getPackageCount w [HostInfo]) as [[[pc pe]|msg] t1];
    [|discriminate].
  cbn [snd] in Hq. subst t1.
  unfold mbind at 1, Printf at 1, emit at 1 in Hrun.
  unfold mbind at 1, Legacy.Println at 1, Printf at 1, emit at 1 in Hrun.
  unfold mbind at 1, lift at 1 in Hrun.
  destruct (Legacy.build_info w hostname osInfo memInfo cpuModel
              (runtime_NumCPU w) cpuSpeed
              (match pe with Some _ => -1 | None => pc end) pe)
    as [info|msg] eqn:Hinfo; [|discriminate].
  pose proof (Legacy_build_info_length _ _ _ _ _ _ _ _ _ _ Hinfo) as Hlen.
  unfold mbind, Legacy.Println, Printf, emit in Hrun.
  rewrite print_each_trace in Hrun.
  inversion Hrun as [Et]. clear Hrun Et.
  assert (Hne : info <> []) by (destruct info; [discriminate|discriminate]).
  destruct (maxLength_max info Hne) as [Hle Hmax].
  assert (HM : 0 <= Legacy.maxLength info) by (apply (maxLength_fold info 0)).
  assert (Eu : Z.to_nat (len (os_Getenv w "USER") + len hostname + 1)
               = String.length (os_Getenv w "USER" ++ "@" ++ hostname)).
  { rewrite !length_append. unfold len. cbn [String.length]. lia. }
  rewrite Eu.
  exists queries, pc, pe, info. cbv zeta.
  split; [reflexivity|]. split; [exact Hsil|]. split; [exact Hinfo|].
  split; [exact Hlen|]. split.
  { cbn [app map]. rewrite <- !app_assoc. reflexivity. }
  split; [exact Hle|]. split; [exact Hmax|]. split.
  - intros Hcap. split; [now apply border_width|].
    apply Forall_forall. intros line Hin. now apply box_line_width.
  - intros Hbig. apply Forall_forall. intros line _.
    now apply box_line_refused.
Qed.

Lemma Legacy_box_is_rectangular_witness :
  exists (queries : list event) (pc : Z) (pe : error) (info : list string),
    getPackageCount Worlds.linux_host [HostInfo]
    = (Ret (pc, pe), HostInfo :: queries)
    /\ existsb is_write queries = false
    /\ List.length info = 8%nat
    /\ snd (Legacy.main Worlds.linux_host [])
       = (HostInfo :: queries
            ++ Stdout (esc ++ "[1malice@box" ++ esc ++ "[0m" ++ nl)
            :: Stdout ("---------" ++ nl)
            :: Stdout (Legacy.dashes (Z.to_nat (Legacy.maxLength info + 4)) ++ nl)
            :: map Stdout (map (Legacy.box_line (Legacy.maxLength info)) info)
            ++ [Stdout (Legacy.dashes (Z.to_nat (Legacy.maxLength info + 4))
                          ++ nl)])%list
    /\ (Legacy.maxLength info <= 1000000 ->
        Forall (fun line =>
             Legacy.RuneCountInString
               (Legacy.box_line (Legacy.maxLength info) line)
             = Legacy.maxLength info + 5) info).
Proof.
  destruct (Legacy_box_is_rectangular Worlds.linux_host
              (snd (Legacy.main Worlds.linux_host [])) eq_refl)
    as (queries & pc & pe & info & Hq & Hsil & _ & Hlen & Et & _ & _ & Hcap & _).
  exists queries, pc, pe, info.
  split; [exact Hq|]. split; [exact Hsil|]. split; [exact Hlen|].
  split; [exact Et|]. intros H. destruct (Hcap H) as [_ Hall].
  apply Forall_forall. intros line Hin.
  rewrite Forall_forall in Hall. now apply Hall.
Defined.

(** ** The recorded calls of a run *)

(** Whether it ends or panics, [main] leaves the trace of
    [getPackageCount] followed by writes only. *)
Lemma main_trace (w : World) :
  exists writes : list string,
    snd (main w [])
    = (snd (getPackageCount w [HostInfo]) ++ map Stdout writes)%list.
Proof.
  unfold main. destruct (os_Hostname w) as [hostname he].
  unfold mbind at 1. unfold call_host_Info. cbn [count_HostInfo app].
  destruct (host_Info w 0) as [osInfo e1].
  destruct (mem_VirtualMemory w) as [memInfo e2].
  destruct (getCPUInfo w) as [[cpuModel cores] speed].
  unfold mbind at 1.
  destruct (getPackageCount w [HostInfo]) as [[[pc pe]|msg] t1]; cbn [snd];
    [|exists []; now rewrite app_nil_r].
  unfold mbind at 1, lift at 1.
  destruct (getGPUInfo w) as [[g ge]|msg];
    [|exists []; now rewrite app_nil_r].
  unfold mbind at 1, Printf at 1, emit at 1.
  unfold mbind at 1, lift at 1.
  destruct (build_info _ _ _ _ _ _ _ _ _ _) as [info|msg];
    [|eexists [_]; reflexivity].
  unfold mbind at 1, present. rewrite print_each_trace.
  unfold printColorBlocks, mbind, Printf, emit. rewrite print_each_trace.
  cbn [snd].
  eexists (_ :: map (row_line (maxLabelLength info)) info
             ++ map (termenv_block w) palette ++ [nl])%list.
  rewrite <- !app_assoc. cbn [map app]. rewrite !map_app. reflexivity.
Qed.

Lemma Legacy_main_trace (w : World) :
  exists writes : list string,
    snd (Legacy.main w [])
    = (snd (getPackageCount w [HostInfo]) ++ map Stdout writes)%list.
Proof.
  unfold Legacy.main. destruct (os_Hostname w) as [hostname he].
  unfold mbind at 1. unfold call_host_Info. cbn [count_HostInfo app].
  destruct (host_Info w 0) as [osInfo e1].
  destruct (mem_VirtualMemory w) as [memInfo e2].
  destruct (cpu_Info w) as [cpuInfo e3].
  destruct (match cpuInfo with
            | c0 :: _ => (ModelName c0, f64_div (Mhz c0) (f64_of_int 1000))
            | [] => ("Unknown", S754_zero false)
            end) as [cpuModel cpuSpeed].
  unfold mbind at 1.
  destruct (getPackageCount w [HostInfo]) as [[[pc pe]|msg] t1]; cbn [snd];
    [|exists []; now rewrite app_nil_r].
  unfold mbind at 1, Printf at 1, emit at 1.
  unfold mbind at 1, Legacy.Println at 1, Printf at 1, emit at 1.
  unfold mbind at 1, lift at 1.
  destruct (Legacy.build_info _ _ _ _ _ _ _ _ _) as [info|msg].
  - unfold mbind, Legacy.Println, Printf, emit. rewrite print_each_trace.
    cbn [snd].
    eexists (_ :: _ :: _ :: map (Legacy.box_line (Legacy.maxLength info)) info
               ++ [_])%list.
    rewrite <- !app_assoc. cbn [map app]. rewrite !map_app. reflexivity.
  - eexists [_; _]. cbn [snd map]. rewrite <- app_assoc. reflexivity.
Qed.

(** X11.  The calls that the trace records are those of [host.Info],
    of [exec.LookPath] and of [Cmd.Output], and the writes to the
    standard output; it does not record the graphics, processor and
    memory queries, the reads of the environment or the log file.
    Among the recorded calls, a run of either variant, whether it ends
    or panics, makes two calls of [host.Info], then at most the three
    probes for dpkg, pacman and rpm in that order, then at most one
    command, which is [dpkg --get-selections], [pacman -Q] or
    [rpm -qa], and then writes.  Off Linux, and when the second call
    of [host.Info] fails, nothing is probed and no command is run. *)
Theorem main_runs_only_package_commands :
  forall w : World,
  exists (n : nat) (execs : list event) (writes writes' : list string),
    (n <= 3)%nat
    /\ snd (main w [])
       = (HostInfo :: HostInfo :: firstn n probes ++ execs
            ++ map Stdout writes)%list
    /\ snd (Legacy.main w [])
       = (HostInfo :: HostInfo :: firstn n probes ++ execs
            ++ map Stdout writes')%list
    /\ (execs = []
        \/ exists cmd, In cmd package_commands
                       /\ execs = [Exec (Cmd_name cmd) (Cmd_args cmd)])
    /\ ((runtime_GOOS w =? "linux")%string = false -> n = 0%nat /\ execs = [])
    /\ (snd (host_Info w 1%nat) <> None -> n = 0%nat /\ execs = []).
Proof.
  intros w.
  destruct (getPackageCount_trace w [HostInfo])
    as (n & execs & Hn & Ht & Hex & Hos & Herr).
  destruct (main_trace w) as [writes Hm].
  destruct (Legacy_main_trace w) as [writes' Hm'].
  exists n, execs, writes, writes'.
  rewrite Hm, Hm', Ht. cbn [app]. rewrite <- !app_assoc.
  split; [exact Hn|]. split; [reflexivity|]. split; [reflexivity|].
  split; [exact Hex|]. split; [exact Hos|exact Herr].
Qed.

(** X12.  In [go-fetch.go], a run of [main] that ends prints in its
    box the line "Installed Packages: " with the count of the package
    counter, which is not negative, or with "Unable to determine" and
    the message of the error that the package counter itself
    returned. *)
Theorem Legacy_packages_line_shows_counter_error :
  forall (w : World) (t : list event),
    Legacy.main w [] = (Ret tt, t) ->
    exists (pc : Z) (pe : error) (width : Z),
      fst (getPackageCount w [HostInfo]) = Ret (pc, pe)
      /\ In (Stdout
               (Legacy.box_line width
                  match pe with
                  | None => "Installed Packages: " ++ fmt_d pc
                  | Some msg =>
                      "Installed Packages: Unable to determine (" ++ msg ++ ")"
                  end)) t
      /\ (pe = None -> 0 <= pc).
Proof.
  intros w t Hrun. unfold Legacy.main in Hrun.
  destruct (os_Hostname w) as [hostname he].
  unfold mbind at 1 in Hrun. unfold call_host_Info in Hrun.
  cbn [count_HostInfo app] in Hrun.
  destruct (host_Info w 0) as [osInfo e1].
  destruct (mem_VirtualMemory w) as [memInfo e2].
  destruct (cpu_Info w) as [cpuInfo e3].
  destruct (match cpuInfo with
            | c0 :: _ => (ModelName c0, f64_div (Mhz c0) (f64_of_int 1000))
            | [] => ("Unknown", S754_zero false)
            end) as [cpuModel cpuSpeed].
  unfold mbind at 1 in Hrun.
  destruct (getPackageCount w [HostInfo]) as [[[pc pe]|msg] t1] eqn:Hpc;
    [|discriminate].
  unfold mbind at 1, Printf at 1, emit at 1 in Hrun.
  unfold mbind at 1, Legacy.Println at 1, Printf at 1, emit at 1 in Hrun.
  unfold mbind at 1, lift at 1 in Hrun.
  destruct (Legacy.build_info w hostname osInfo memInfo cpuModel
              (runtime_NumCPU w) cpuSpeed
              (match pe with Some _ => -1 | None => pc end) pe)
    as [info|msg] eqn:Hinfo; [|discriminate].
  unfold mbind, Legacy.Println, Printf, emit in Hrun.
  rewrite print_each_trace in Hrun.
  inversion Hrun as [Et]. clear Hrun Et.
  assert (Hnn : pe = None -> 0 <= pc)
    by (intros ->; exact (getPackageCount_nonneg w _ _ _ Hpc)).
  exists pc, pe, (Legacy.maxLength info).
  split; [reflexivity|]. split; [|exact Hnn].
  apply in_or_app. left. apply in_or_app. right.
  apply in_map, in_map.
  unfold Legacy.build_info in Hinfo.
  destruct osInfo as [oi|]; [|discriminate].
  destruct memInfo as [mi|]; [|discriminate].
  cbn [deref bind] in Hinfo.
  destruct (formatBytes (Used mi)) as [used|]; [|discriminate].
  destruct (formatBytes (Total mi)) as [total|]; [|discriminate].
  cbn [bind] in Hinfo.
  destruct pe as [msg|].
  - change (-1 >=? 0) with false in Hinfo. cbv iota in Hinfo.
    injection Hinfo as Ei. subst info. do 7 right. now left.
  - specialize (Hnn eq_refl).
    assert (E : (pc >=? 0) = true) by (apply Z.geb_le; lia).
    rewrite E in Hinfo. injection Hinfo as Ei. subst info.
    do 7 right. now left.
Qed.

Lemma Legacy_packages_line_shows_counter_error_witness :
  exists (pc : Z) (pe : error) (width : Z),
    fst (getPackageCount Worlds.darwin_host [HostInfo]) = Ret (pc, pe)
    /\ In (Stdout
             (Legacy.box_line width
                match pe with
                | None => "Installed Packages: " ++ fmt_d pc
                | Some msg =>
                    "Installed Packages: Unable to determine (" ++ msg ++ ")"
                end)) (snd (Legacy.main Worlds.darwin_host []))
    /\ (pe = None -> 0 <= pc).
Proof.
  exact (Legacy_packages_line_shows_counter_error Worlds.darwin_host
           (snd (Legacy.main Worlds.darwin_host [])) eq_refl).
Defined.
